(** * aitomate: the reply interpreter, the dispatch loop, the RPC bridge and
    the capability workers, embedded from [cli_agent.py], [mcp_client.py] and
    [mcp_server.py].

    Python values are an inductive type, exceptions are values of an error
    type, and everything the program does to the outside (the chat service,
    the terminal, the worker sessions, the operating system) is explicit: the
    answers of the outside are data the functions take, and what the program
    did is a trace they return. *)

From Stdlib Require Import Ascii String List ZArith NArith Bool Arith Lia.
Import ListNotations.

Set Warnings "-register-all".

(* ================================================================== *)
(** * Python: text, values, exceptions *)
(* ================================================================== *)

Module Py.

(** A [str] is held as the list of its UTF-8 bytes: a character of ASCII is
    one byte, any other character two to four bytes, the first of them from
    [0xC2] on and the others from [0x80] to [0xBF]. *)
Definition text := list ascii.

Definition T (s : string) : text := list_ascii_of_string s.

Definition dquote : ascii := "034"%char.
Definition backslash : ascii := "092"%char.

(** A text written with an apostrophe where it has a double quote. *)
Definition quote_marks (s : string) : text :=
  map (fun c => if Ascii.eqb c "'" then dquote else c) (T s).

Fixpoint text_eqb (a b : text) : bool :=
  match a, b with
  | [], [] => true
  | x :: a', y :: b' => Ascii.eqb x y && text_eqb a' b'
  | _, _ => false
  end.

(** [s.startswith(p)], and what is left of [s] after [p]. *)
Fixpoint strip_prefix (p s : text) : option text :=
  match p, s with
  | [], _ => Some s
  | x :: p', y :: s' => if Ascii.eqb x y then strip_prefix p' s' else None
  | _ :: _, [] => None
  end.

(** ** White space

    [str.isspace()], which is what [str.strip()] and [str.split()] go by:
    the code points [U+0009] to [U+000D], [U+001C] to [U+0020], [U+0085],
    [U+00A0], [U+1680], [U+2000] to [U+200A], [U+2028], [U+2029], [U+202F],
    [U+205F] and [U+3000]. *)
Definition is_space_code (cp : N) : bool :=
  (((0x09 <=? cp) && (cp <=? 0x0D)) || ((0x1C <=? cp) && (cp <=? 0x20))
   || (cp =? 0x85) || (cp =? 0xA0) || (cp =? 0x1680)
   || ((0x2000 <=? cp) && (cp <=? 0x200A))
   || (cp =? 0x2028) || (cp =? 0x2029) || (cp =? 0x202F) || (cp =? 0x205F)
   || (cp =? 0x3000))%N.

(** A white-space character of one byte. *)
Definition is_space (c : ascii) : bool :=
  let n := nat_of_ascii c in
  ((9 <=? n) && (n <=? 13)) || ((28 <=? n) && (n <=? 32)).

Definition continues (c : ascii) : bool :=
  ((0x80 <=? N_of_ascii c) && (N_of_ascii c <=? 0xBF))%N.

(** A white-space character of two bytes, and of three. *)
Definition wide_space2 (a b : ascii) : bool :=
  ((0xC2 <=? N_of_ascii a) && (N_of_ascii a <=? 0xDF))%N && continues b
  && is_space_code ((N_of_ascii a - 0xC0) * 64 + (N_of_ascii b - 0x80))%N.

Definition wide_space3 (a b c : ascii) : bool :=
  let cp := ((N_of_ascii a - 0xE0) * 4096 + (N_of_ascii b - 0x80) * 64
             + (N_of_ascii c - 0x80))%N in
  ((0xE0 <=? N_of_ascii a) && (N_of_ascii a <=? 0xEF))%N && continues b && continues c
  && (0x800 <=? cp)%N && is_space_code cp.

Section Spaces.
(** Where a white-space character stands, read forwards or backwards. *)
Variable one : ascii -> bool.
Variable two : ascii -> ascii -> bool.
Variable three : ascii -> ascii -> ascii -> bool.

(** The text without the white-space characters it starts with. *)
Fixpoint drop_spaces (s : text) : text :=
  match s with
  | [] => []
  | a :: r =>
    if one a then drop_spaces r
    else
      match r with
      | [] => s
      | b :: r1 =>
        if two a b then drop_spaces r1
        else
          match r1 with
          | [] => s
          | c :: r2 => if three a b c then drop_spaces r2 else s
          end
      end
  end.

End Spaces.

(** [s.lstrip()] *)
Definition lstrip (s : text) : text := drop_spaces is_space wide_space2 wide_space3 s.

(** [s.rstrip()]: the same from the end, where the bytes of a character
    come last byte first. *)
Definition rstrip (s : text) : text :=
  rev (drop_spaces is_space (fun b a => wide_space2 a b) (fun c b a => wide_space3 a b c)
         (rev s)).

(** [s.strip()] *)
Definition strip (s : text) : text := rstrip (lstrip s).

(** [s.lower()] as the program uses it, to compare the result with [y],
    [yes], [n], [no], [exit] and [quit]: the letters of ASCII are lowered.
    (Outside ASCII only [U+212A], the Kelvin sign, lowers to a letter of
    ASCII, and that letter is in none of these words; every other character
    lowers to characters outside ASCII, so a text that holds one is equal to
    none of the words before and after.) *)
Definition lower_char (c : ascii) : ascii :=
  let n := nat_of_ascii c in
  if (65 <=? n) && (n <=? 90) then ascii_of_nat (n + 32) else c.

Definition lower (s : text) : text := map lower_char s.

(** The truth value of a [str]. *)
Definition nonempty_text (s : text) : bool :=
  match s with [] => false | _ :: _ => true end.

(** [sep.join(parts)] *)
Fixpoint join (sep : text) (parts : list text) : text :=
  match parts with
  | [] => []
  | [p] => p
  | p :: rest => p ++ sep ++ join sep rest
  end.

(** Decimal digits of an [int], as [str(n)] writes them. *)
Fixpoint digits_of_pos (fuel : nat) (n : N) (acc : text) : text :=
  match fuel with
  | O => acc
  | S f =>
    let c := ascii_of_N (48 + N.modulo n 10) in
    if N.ltb n 10 then c :: acc else digits_of_pos f (N.div n 10) (c :: acc)
  end.

Definition str_of_N (n : N) : text := digits_of_pos (S (N.to_nat (N.log2 n))) n [].

Definition str_of_Z (z : Z) : text :=
  match z with
  | Z0 => T "0"
  | Zpos p => str_of_N (Npos p)
  | Zneg p => "-"%char :: str_of_N (Npos p)
  end.

(** ** Exceptions *)

Inductive ExcClass : Type :=
| JSONDecodeError
| ValueError
| TypeError
| AttributeError
| RuntimeError
| EOFError
| OverflowError
| IndexError
| OSError
| FileNotFoundError
| ConnectionRefusedError
| SocketTimeout
| TimeoutExpired
| OtherException (name : text)
| KeyboardInterrupt
| SystemExit
| OtherBaseException (name : text).

(** [isinstance(exc, Exception)]: everything but the classes that derive
    from [BaseException] directly. *)
Definition is_Exception (c : ExcClass) : bool :=
  match c with
  | KeyboardInterrupt | SystemExit | OtherBaseException _ => false
  | _ => true
  end.

(** An exception: its class and [str(exc)]. *)
Record PyExc : Type := mkExc { exc_class : ExcClass; exc_str : text }.

Inductive Outcome (A : Type) : Type :=
| Returns (a : A)
| Raises (e : PyExc).
Arguments Returns {A} a.
Arguments Raises {A} e.

(** ** Values *)

Section Values.
Variable pyfloat : Type.

(** [dict] keys are always [str] in this program; a [dict] keeps the order in
    which its keys were first inserted.  [PObject] is any other object (a
    pydantic URL, [bytes], ...): it has the name of its class and a [repr],
    and is not JSON serialisable. *)
Inductive PyVal : Type :=
| PNone
| PBool (b : bool)
| PInt (z : Z)
| PFloat (f : pyfloat)
| PStr (s : text)
| PList (l : list PyVal)
| PTuple (l : list PyVal)
| PDict (d : list (text * PyVal))
| PObject (class_name repr : text).

Definition Dict := list (text * PyVal).

(** [d.get(k)] *)
Fixpoint dict_get (d : Dict) (k : text) : option PyVal :=
  match d with
  | [] => None
  | (k', v) :: d' => if text_eqb k' k then Some v else dict_get d' k
  end.

(** [k in d] *)
Definition dict_has (d : Dict) (k : text) : bool :=
  match dict_get d k with Some _ => true | None => false end.

(** [d[k] = v]: an existing key keeps its place. *)
Fixpoint dict_set (d : Dict) (k : text) (v : PyVal) : Dict :=
  match d with
  | [] => [(k, v)]
  | (k', v') :: d' =>
    if text_eqb k' k then (k', v) :: d' else (k', v') :: dict_set d' k v
  end.

(** [dict(pairs)] *)
Definition dict_of_pairs (pairs : list (text * PyVal)) : Dict :=
  fold_left (fun d kv => dict_set d (fst kv) (snd kv)) pairs [].

End Values.

Arguments PNone {pyfloat}.
Arguments PBool {pyfloat} b.
Arguments PInt {pyfloat} z.
Arguments PFloat {pyfloat} f.
Arguments PStr {pyfloat} s.
Arguments PList {pyfloat} l.
Arguments PTuple {pyfloat} l.
Arguments PDict {pyfloat} d.
Arguments PObject {pyfloat} class_name repr.
Arguments dict_get {pyfloat} d k.
Arguments dict_has {pyfloat} d k.
Arguments dict_set {pyfloat} d k v.
Arguments dict_of_pairs {pyfloat} pairs.
Arguments Dict : clear implicits.

(** ** The built-ins the development leaves open

    Floating-point numbers and the conversions whose exact output no
    statement below depends on are an interface: every theorem holds for any
    implementation of it. *)
Class Runtime (pyfloat : Type) : Type := {
  (** [float(s)] on a JSON number literal, [NaN], [Infinity], [-Infinity] *)
  float_of_literal : text -> pyfloat;
  (** [float(s)]; [None] is [ValueError] *)
  float_of_str : text -> option pyfloat;
  (** [bool(f)] *)
  float_truthy : pyfloat -> bool;
  (** [f <= 0] *)
  float_le_zero : pyfloat -> bool;
  (** [int(f)], which raises on infinities and NaN *)
  float_int : pyfloat -> Outcome Z;
  (** [repr(f)] *)
  float_repr : pyfloat -> text;
  (** what [json.dumps] writes for [f] *)
  float_json : pyfloat -> text;
  (** [round(f, n)] *)
  float_round : pyfloat -> Z -> pyfloat;
  (** [max(f, g)] *)
  float_max : pyfloat -> pyfloat -> pyfloat;
  (** [int(s)]; [None] is [ValueError] *)
  int_of_str : text -> option Z;
  (** [repr(s)] *)
  str_repr : text -> text;
  (** how many arrays and objects, one inside the other, [json.loads] can
      enter before [RecursionError]: what is left of the interpreter's
      recursion limit where the program calls it *)
  decoder_depth : nat
}.


Section Builtins.
Context {pyfloat : Type} {RT : Runtime pyfloat}.

(** [bool(v)] *)
Definition py_truthy (v : PyVal pyfloat) : bool :=
  match v with
  | PNone => false
  | PBool b => b
  | PInt z => negb (z =? 0)%Z
  | PFloat f => float_truthy f
  | PStr s => match s with [] => false | _ :: _ => true end
  | PList l => match l with [] => false | _ :: _ => true end
  | PTuple l => match l with [] => false | _ :: _ => true end
  | PDict d => match d with [] => false | _ :: _ => true end
  | PObject _ _ => true
  end.

(** [type(v).__name__] *)
Definition type_name (v : PyVal pyfloat) : text :=
  match v with
  | PNone => T "NoneType"
  | PBool _ => T "bool"
  | PInt _ => T "int"
  | PFloat _ => T "float"
  | PStr _ => T "str"
  | PList _ => T "list"
  | PTuple _ => T "tuple"
  | PDict _ => T "dict"
  | PObject class_name _ => class_name
  end.

(** [repr(v)] *)
Fixpoint py_repr (v : PyVal pyfloat) : text :=
  match v with
  | PNone => T "None"
  | PBool true => T "True"
  | PBool false => T "False"
  | PInt z => str_of_Z z
  | PFloat f => float_repr f
  | PStr s => str_repr s
  | PList l => T "[" ++ join (T ", ") (map py_repr l) ++ T "]"
  | PTuple l =>
    T "(" ++ join (T ", ") (map py_repr l)
      ++ (match l with [_] => T "," | _ => [] end) ++ T ")"
  | PDict d =>
    T "{" ++ join (T ", ") (map (fun kv => str_repr (fst kv) ++ T ": " ++ py_repr (snd kv)) d)
      ++ T "}"
  | PObject _ r => r
  end.

(** [str(v)], which is also how an f-string writes [v]. *)
Definition py_str (v : PyVal pyfloat) : text :=
  match v with
  | PStr s => s
  | _ => py_repr v
  end.

(** [int(v)] *)
Definition py_int (v : PyVal pyfloat) : Outcome Z :=
  match v with
  | PInt z => Returns z
  | PBool b => Returns (if b then 1 else 0)%Z
  | PFloat f => float_int f
  | PStr s =>
    match int_of_str s with
    | Some z => Returns z
    | None =>
      Raises (mkExc ValueError (T "invalid literal for int() with base 10: " ++ str_repr s))
    end
  | _ =>
    Raises (mkExc TypeError
      (T "int() argument must be a string, a bytes-like object or a real number, not '"
         ++ type_name v ++ T "'"))
  end.

(** [v <= 0] *)
Definition py_le_zero (v : PyVal pyfloat) : Outcome bool :=
  match v with
  | PInt z => Returns (z <=? 0)%Z
  | PBool b => Returns (negb b)
  | PFloat f => Returns (float_le_zero f)
  | _ =>
    Raises (mkExc TypeError
      (T "'<=' not supported between instances of '" ++ type_name v ++ T "' and 'int'"))
  end.

(** Whether [hash(v)] succeeds. *)
Fixpoint hashable (v : PyVal pyfloat) : bool :=
  match v with
  | PList _ | PDict _ => false
  | PTuple l => forallb hashable l
  | _ => true
  end.

(** [obj.get(key, default)]: only a [dict] has the method. *)
Definition py_get (obj : PyVal pyfloat) (key : text) (default : PyVal pyfloat)
  : Outcome (PyVal pyfloat) :=
  match obj with
  | PDict d =>
    Returns (match dict_get d key with Some v => v | None => default end)
  | _ =>
    Raises (mkExc AttributeError
      (T "'" ++ type_name obj ++ T "' object has no attribute 'get'"))
  end.

End Builtins.

(** A runtime to run the model with: a float is held as the text of its
    literal, read and written as it stands.  Arithmetic on floats is not
    modelled ([float_int], [float_round] and [float_max] are stand-ins, and so
    are [int_of_str], which reads plain digits only, and [str_repr], which
    writes the text between apostrophes), and no run in this file depends on
    it. *)
Fixpoint mantissa (f : text) : text :=
  match f with
  | [] => []
  | c :: r => if Ascii.eqb c "e" || Ascii.eqb c "E" then [] else c :: mantissa r
  end.

(** A literal that stands for zero: its digits before the exponent are all
    zeros. *)
Definition literal_is_zero (f : text) : bool :=
  existsb (fun c => Ascii.eqb c "0") (mantissa f)
  && negb (existsb (fun c => let n := nat_of_ascii c in (49 <=? n) && (n <=? 57)) (mantissa f)).

#[export] Instance literal_runtime : Runtime text := {|
  float_of_literal := fun s => s;
  float_of_str := fun s => Some s;
  float_truthy := fun f => negb (literal_is_zero f);
  float_le_zero := fun f =>
    literal_is_zero f || match f with c :: _ => Ascii.eqb c "-" | [] => false end;
  float_int := fun f => Raises (mkExc ValueError (T "float literal"));
  float_repr := fun f => f;
  float_json := fun f => f;
  float_round := fun f _ => f;
  float_max := fun f g => g;
  int_of_str := fun s =>
    if forallb (fun c => let n := nat_of_ascii c in (48 <=? n) && (n <=? 57)) s
    then match s with
         | [] => None
         | _ :: _ =>
           Some (fold_left (fun acc c => (acc * 10 + Z.of_nat (nat_of_ascii c - 48))%Z) s 0%Z)
         end
    else None;
  str_repr := fun s => T "'" ++ s ++ T "'";
  decoder_depth := 1000
|}.

End Py.
Import Py.

(* ================================================================== *)
(** * The [json] module: [json.loads] and [json.dumps] *)
(* ================================================================== *)

Module Json.

(** ** Lexical helpers of [json.decoder] and [json.scanner] *)

(** [WHITESPACE]: space, tab, line feed, carriage return. *)
Definition is_ws (c : ascii) : bool :=
  Ascii.eqb c " " || Ascii.eqb c "009" || Ascii.eqb c "010" || Ascii.eqb c "013".

Fixpoint skip_ws (s : text) : text :=
  match s with
  | c :: r => if is_ws c then skip_ws r else s
  | [] => []
  end.

Definition is_digit (c : ascii) : bool :=
  let n := nat_of_ascii c in (48 <=? n) && (n <=? 57).

Definition hex_val (c : ascii) : option N :=
  let n := N_of_ascii c in
  if (48 <=? n)%N && (n <=? 57)%N then Some (n - 48)%N
  else if (65 <=? n)%N && (n <=? 70)%N then Some (n - 55)%N
  else if (97 <=? n)%N && (n <=? 102)%N then Some (n - 87)%N
  else None.

(** [_decode_uXXXX]: four hexadecimal digits. *)
Definition hex4 (a b c d : ascii) : option N :=
  match hex_val a, hex_val b, hex_val c, hex_val d with
  | Some x, Some y, Some z, Some w => Some (((x * 16 + y) * 16 + z) * 16 + w)%N
  | _, _, _, _ => None
  end.

(** [chr(cp)], as UTF-8 bytes. *)
Definition chr (cp : N) : text :=
  if (cp <? 0x80)%N then [ascii_of_N cp]
  else if (cp <? 0x800)%N then
    [ascii_of_N (0xC0 + cp / 64); ascii_of_N (0x80 + cp mod 64)]
  else if (cp <? 0x10000)%N then
    [ascii_of_N (0xE0 + cp / 4096); ascii_of_N (0x80 + (cp / 64) mod 64);
     ascii_of_N (0x80 + cp mod 64)]
  else
    [ascii_of_N (0xF0 + cp / 262144); ascii_of_N (0x80 + (cp / 4096) mod 64);
     ascii_of_N (0x80 + (cp / 64) mod 64); ascii_of_N (0x80 + cp mod 64)].

(** [BACKSLASH]: the one-character escapes. *)
Definition unescape (esc : ascii) : option ascii :=
  if Ascii.eqb esc dquote then Some dquote
  else if Ascii.eqb esc backslash then Some backslash
  else if Ascii.eqb esc "/" then Some "/"%char
  else if Ascii.eqb esc "b" then Some "008"%char
  else if Ascii.eqb esc "f" then Some "012"%char
  else if Ascii.eqb esc "n" then Some "010"%char
  else if Ascii.eqb esc "r" then Some "013"%char
  else if Ascii.eqb esc "t" then Some "009"%char
  else None.

Definition is_control (c : ascii) : bool := nat_of_ascii c <? 32.

Definition cons_str (pre : text) (r : option (text * text)) : option (text * text) :=
  match r with
  | Some (str, rest) => Some (pre ++ str, rest)
  | None => None
  end.

(** [scanstring(s, end, strict=True)], from just after the opening quote:
    the decoded string and what follows the closing quote; [None] is
    [JSONDecodeError]. *)
Fixpoint scanstring (s : text) : option (text * text) :=
  match s with
  | [] => None
  | c :: r =>
    if Ascii.eqb c dquote then Some ([], r)
    else if Ascii.eqb c backslash then
      match r with
      | [] => None
      | esc :: r1 =>
        if Ascii.eqb esc "u" then
          match r1 with
          | h1 :: h2 :: h3 :: h4 :: r2 =>
            match hex4 h1 h2 h3 h4 with
            | None => None
            | Some uni =>
              let single := cons_str (chr uni) (scanstring r2) in
              if (0xd800 <=? uni)%N && (uni <=? 0xdbff)%N then
                match r2 with
                | b :: u :: r3 =>
                  if Ascii.eqb b backslash && Ascii.eqb u "u" then
                    match r3 with
                    | g1 :: g2 :: g3 :: g4 :: r4 =>
                      match hex4 g1 g2 g3 g4 with
                      | None => None
                      | Some uni2 =>
                        if (0xdc00 <=? uni2)%N && (uni2 <=? 0xdfff)%N then
                          cons_str
                            (chr (0x10000 + ((uni - 0xd800) * 1024 + (uni2 - 0xdc00)))%N)
                            (scanstring r4)
                        else single
                      end
                    | _ => None
                    end
                  else single
                | _ => single
                end
              else single
            end
          | _ => None
          end
        else
          match unescape esc with
          | Some ch => cons_str [ch] (scanstring r1)
          | None => None
          end
      end
    else if is_control c then None
    else cons_str [c] (scanstring r)
  end.

Fixpoint take_digits (s : text) : text * text :=
  match s with
  | c :: r =>
    if is_digit c then let (ds, rest) := take_digits r in (c :: ds, rest)
    else ([], s)
  | [] => ([], [])
  end.

(** The integer part of [NUMBER_RE]: an optional minus sign, then a single
    zero or a non-zero digit followed by digits. *)
Definition match_integer (s : text) : option (text * text) :=
  let (sign, s1) :=
    match s with
    | c :: r => if Ascii.eqb c "-" then ([c], r) else ([], s)
    | [] => ([], s)
    end in
  match s1 with
  | c :: r =>
    if Ascii.eqb c "0" then Some (sign ++ [c], r)
    else if is_digit c then
      let (ds, rest) := take_digits r in Some (sign ++ c :: ds, rest)
    else None
  | [] => None
  end.

(** The optional fraction of [NUMBER_RE]: a dot and at least one digit. *)
Definition match_frac (s : text) : text * text :=
  match s with
  | c :: r =>
    if Ascii.eqb c "." then
      match take_digits r with
      | ([], _) => ([], s)
      | (ds, rest) => (c :: ds, rest)
      end
    else ([], s)
  | [] => ([], s)
  end.

(** The optional exponent of [NUMBER_RE]: [e] or [E], an optional sign, and
    at least one digit. *)
Definition match_exp (s : text) : text * text :=
  match s with
  | e :: r =>
    if Ascii.eqb e "e" || Ascii.eqb e "E" then
      let (sign, r1) :=
        match r with
        | c :: r' => if Ascii.eqb c "-" || Ascii.eqb c "+" then ([c], r') else ([], r)
        | [] => ([], r)
        end in
      match take_digits r1 with
      | ([], _) => ([], s)
      | (ds, rest) => (e :: sign ++ ds, rest)
      end
    else ([], s)
  | [] => ([], s)
  end.

(** [int(s)] on the digits [match_integer] accepts. *)
Definition Z_of_digits (ds : text) : Z :=
  fold_left (fun acc c => (acc * 10 + Z.of_nat (nat_of_ascii c - 48))%Z) ds 0%Z.

Definition int_of_literal (s : text) : Z :=
  match s with
  | c :: r => if Ascii.eqb c "-" then (- Z_of_digits r)%Z else Z_of_digits s
  | [] => 0%Z
  end.

(** [sys.int_info.default_max_str_digits]: [int(s)] refuses a text of more
    digits with a [ValueError], and so does [json.loads] for an integer
    literal; the program leaves the limit as it is. *)
Definition int_max_str_digits : nat := 4300.

Definition int_digits (integer : text) : nat :=
  match integer with
  | c :: r => if Ascii.eqb c "-" then length r else length integer
  | [] => 0
  end.

Definition digits_limit_error (digits : nat) : PyExc :=
  mkExc ValueError
    (T "Exceeds the limit (4300 digits) for integer string conversion: value has "
       ++ str_of_Z (Z.of_nat digits)
       ++ T " digits; use sys.set_int_max_str_digits() to increase the limit").

(** [RecursionError], raised where the scanner enters an object or an array
    and the recursion limit is reached. *)
Definition recursion_error (what : text) : PyExc :=
  mkExc (OtherException (T "RecursionError"))
    (T "maximum recursion depth exceeded while decoding a JSON " ++ what
       ++ T " from a unicode string").

(** The result of a parsing function: a value and the text after it, a
    [JSONDecodeError], an exception of another class, or not enough fuel
    (which [json_loads] never meets, see [json_loads_fuel]). *)
Inductive Parse (A : Type) : Type :=
| Parsed (a : A) (rest : text)
| Malformed
| Failed (e : PyExc)
| NoFuel.
Arguments Parsed {A} a rest.
Arguments Malformed {A}.
Arguments Failed {A} e.
Arguments NoFuel {A}.

(** What [json.loads] ends in: the value, [json.JSONDecodeError] (whose text
    the program never reads), or an exception of another class. *)
Inductive Loaded (A : Type) : Type :=
| Decoded (a : A)
| DecodeError
| OtherError (e : PyExc).
Arguments Decoded {A} a.
Arguments DecodeError {A}.
Arguments OtherError {A} e.

Section Decoder.
Context {pyfloat : Type} {RT : Runtime pyfloat}.

(** The number a literal stands for: [int(integer)], which refuses more
    than 4300 digits, or [float(integer + frac + exp)]. *)
Definition number_value (integer frac exp : text) : Outcome (PyVal pyfloat) :=
  match frac, exp with
  | [], [] =>
    if int_max_str_digits <? int_digits integer
    then Raises (digits_limit_error (int_digits integer))
    else Returns (PInt (int_of_literal integer))
  | _, _ => Returns (PFloat (float_of_literal (integer ++ frac ++ exp)))
  end.

(** [NUMBER_RE.match] and the number it stands for. *)
Definition match_number (s : text) : Parse (PyVal pyfloat) :=
  match match_integer s with
  | None => Malformed
  | Some (integer, r1) =>
    let (frac, r2) := match_frac r1 in
    let (exp, r3) := match_exp r2 in
    match number_value integer frac exp with
    | Returns v => Parsed v r3
    | Raises e => Failed e
    end
  end.

(** The constants of [_scan_once], tried in its order. *)
Definition scan_constant (s : text) : Parse (PyVal pyfloat) :=
  match strip_prefix (T "null") s with
  | Some r => Parsed PNone r
  | None =>
  match strip_prefix (T "true") s with
  | Some r => Parsed (PBool true) r
  | None =>
  match strip_prefix (T "false") s with
  | Some r => Parsed (PBool false) r
  | None =>
  match match_number s with
  | Parsed v r => Parsed v r
  | Failed e => Failed e
  | Malformed | NoFuel =>
  match strip_prefix (T "NaN") s with
  | Some r => Parsed (PFloat (float_of_literal (T "NaN"))) r
  | None =>
  match strip_prefix (T "Infinity") s with
  | Some r => Parsed (PFloat (float_of_literal (T "Infinity"))) r
  | None =>
  match strip_prefix (T "-Infinity") s with
  | Some r => Parsed (PFloat (float_of_literal (T "-Infinity"))) r
  | None => Malformed
  end end end end end end end.

(** [_scan_once], [JSONObject] and [JSONArray].  [parse_members] starts just
    after the opening quote of a key, [parse_elements] at a value.  [room] is
    the number of objects and arrays that can still be entered, one inside
    the other. *)
Fixpoint parse_value (fuel room : nat) (s : text) : Parse (PyVal pyfloat) :=
  match fuel with
  | O => NoFuel
  | S f =>
    match s with
    | [] => Malformed
    | c :: r =>
      if Ascii.eqb c dquote then
        match scanstring r with
        | Some (str, rest) => Parsed (PStr str) rest
        | None => Malformed
        end
      else if Ascii.eqb c "{" then
        match room with
        | O => Failed (recursion_error (T "object"))
        | S inside =>
          match skip_ws r with
          | d :: r1 =>
            if Ascii.eqb d "}" then Parsed (PDict []) r1
            else if Ascii.eqb d dquote then parse_members f inside r1 []
            else Malformed
          | [] => Malformed
          end
        end
      else if Ascii.eqb c "[" then
        match room with
        | O => Failed (recursion_error (T "array"))
        | S inside =>
          match skip_ws r with
          | d :: r1 =>
            if Ascii.eqb d "]" then Parsed (PList []) r1
            else parse_elements f inside (d :: r1) []
          | [] => Malformed
          end
        end
      else scan_constant s
    end
  end

with parse_members (fuel room : nat) (s : text) (pairs : list (text * PyVal pyfloat))
  : Parse (PyVal pyfloat) :=
  match fuel with
  | O => NoFuel
  | S f =>
    match scanstring s with
    | None => Malformed
    | Some (key, s1) =>
      match skip_ws s1 with
      | c :: s2 =>
        if Ascii.eqb c ":" then
          match parse_value f room (skip_ws s2) with
          | Parsed v s3 =>
            match skip_ws s3 with
            | d :: s4 =>
              if Ascii.eqb d "}" then
                Parsed (PDict (dict_of_pairs (pairs ++ [(key, v)]))) s4
              else if Ascii.eqb d "," then
                match skip_ws s4 with
                | q :: s5 =>
                  if Ascii.eqb q dquote
                  then parse_members f room s5 (pairs ++ [(key, v)])
                  else Malformed
                | [] => Malformed
                end
              else Malformed
            | [] => Malformed
            end
          | Malformed => Malformed
          | Failed e => Failed e
          | NoFuel => NoFuel
          end
        else Malformed
      | [] => Malformed
      end
    end
  end

with parse_elements (fuel room : nat) (s : text) (values : list (PyVal pyfloat))
  : Parse (PyVal pyfloat) :=
  match fuel with
  | O => NoFuel
  | S f =>
    match parse_value f room s with
    | Parsed v s1 =>
      match skip_ws s1 with
      | d :: s2 =>
        if Ascii.eqb d "]" then Parsed (PList (values ++ [v])) s2
        else if Ascii.eqb d "," then parse_elements f room (skip_ws s2) (values ++ [v])
        else Malformed
      | [] => Malformed
      end
    | Malformed => Malformed
    | Failed e => Failed e
    | NoFuel => NoFuel
    end
  end.

(** [json.loads(s)].  ([JSONDecoder.decode]: whitespace, one value,
    whitespace, and nothing more.) *)
Definition json_loads (s : text) : Loaded (PyVal pyfloat) :=
  match parse_value (S (2 * length s)) decoder_depth (skip_ws s) with
  | Parsed v rest =>
    match skip_ws rest with
    | [] => Decoded v
    | _ :: _ => DecodeError
    end
  | Malformed => DecodeError
  | Failed e => OtherError e
  | NoFuel => DecodeError
  end.

End Decoder.

(** ** [json.encoder], with [ensure_ascii=False] *)

Definition hex_digit (n : nat) : ascii :=
  if n <? 10 then ascii_of_nat (48 + n) else ascii_of_nat (87 + n).

(** [ESCAPE_DCT] *)
Definition escape_char (c : ascii) : text :=
  if Ascii.eqb c backslash then [backslash; backslash]
  else if Ascii.eqb c dquote then [backslash; dquote]
  else if Ascii.eqb c "008" then [backslash; "b"%char]
  else if Ascii.eqb c "012" then [backslash; "f"%char]
  else if Ascii.eqb c "010" then [backslash; "n"%char]
  else if Ascii.eqb c "013" then [backslash; "r"%char]
  else if Ascii.eqb c "009" then [backslash; "t"%char]
  else if nat_of_ascii c <? 32 then
    [backslash; "u"%char; "0"%char; "0"%char;
     hex_digit (nat_of_ascii c / 16); hex_digit (nat_of_ascii c mod 16)]
  else [c].

(** [encode_basestring] *)
Definition encode_basestring (s : text) : text :=
  dquote :: flat_map escape_char s ++ [dquote].

Fixpoint sequence {A : Type} (l : list (option A)) : option (list A) :=
  match l with
  | [] => Some []
  | None :: _ => None
  | Some a :: l' =>
    match sequence l' with
    | Some r => Some (a :: r)
    | None => None
    end
  end.

Definition newline_indent (indent : option nat) (level : nat) : text :=
  match indent with
  | Some k => "010"%char :: repeat " "%char (k * level)
  | None => []
  end.

Definition item_separator (indent : option nat) (level : nat) : text :=
  match indent with
  | Some _ => ","%char :: newline_indent indent level
  | None => T ", "
  end.

(** A list or a dict around its encoded items. *)
Definition wrap (opening closing : ascii) (indent : option nat) (level : nat)
  (items : list text) : text :=
  match items with
  | [] => [opening; closing]
  | _ :: _ =>
    opening :: newline_indent indent (S level)
      ++ join (item_separator indent (S level)) items
      ++ newline_indent indent level ++ [closing]
  end.

Section Encoder.
Context {pyfloat : Type} {RT : Runtime pyfloat}.

(** [_iterencode]; [None] is the [TypeError] of an object that is not JSON
    serialisable. *)
Fixpoint encode (indent : option nat) (level : nat) (v : PyVal pyfloat) : option text :=
  match v with
  | PNone => Some (T "null")
  | PBool true => Some (T "true")
  | PBool false => Some (T "false")
  | PInt z => Some (str_of_Z z)
  | PFloat f => Some (float_json f)
  | PStr s => Some (encode_basestring s)
  | PList l | PTuple l =>
    option_map (wrap "[" "]" indent level) (sequence (map (encode indent (S level)) l))
  | PDict d =>
    option_map (wrap "{" "}" indent level)
      (sequence (map (fun kv =>
         option_map (fun t => encode_basestring (fst kv) ++ T ": " ++ t)
           (encode indent (S level) (snd kv))) d))
  | PObject _ _ => None
  end.

(** [json.dumps(v, ensure_ascii=False)] *)
Definition json_dumps (v : PyVal pyfloat) : option text := encode None 0 v.

(** The class of the first object in [v], in the order in which it is
    written, that is not JSON serialisable. *)
Fixpoint not_serializable (v : PyVal pyfloat) : option text :=
  match v with
  | PObject class_name _ => Some class_name
  | PList l | PTuple l =>
    hd_error (flat_map (fun item => match not_serializable item with
                                    | Some c => [c]
                                    | None => []
                                    end) l)
  | PDict d =>
    hd_error (flat_map (fun kv => match not_serializable (snd kv) with
                                  | Some c => [c]
                                  | None => []
                                  end) d)
  | _ => None
  end.

(** The [TypeError] of [json.dumps(v)] when it has one. *)
Definition dumps_error (v : PyVal pyfloat) : PyExc :=
  mkExc TypeError
    (T "Object of type "
       ++ match not_serializable v with Some c => c | None => type_name v end
       ++ T " is not JSON serializable").

(** [json.dumps(v, indent=2, ensure_ascii=False)] *)
Definition json_dumps_indent2 (v : PyVal pyfloat) : option text := encode (Some 2) 0 v.

End Encoder.

End Json.

(* ================================================================== *)
(** * [cli_agent.py]: the reply interpreter *)
(* ================================================================== *)

Module Interpreter.

(** [text.find(c, start)]; [None] is [-1]. *)
Fixpoint find_in (c : ascii) (s : text) (idx : nat) : option nat :=
  match s with
  | [] => None
  | x :: r => if Ascii.eqb x c then Some idx else find_in c r (S idx)
  end.

Definition find (s : text) (c : ascii) (start : nat) : option nat :=
  find_in c (skipn start s) start.

(** [text[a:b]] *)
Definition slice (s : text) (a b : nat) : text := firstn (b - a) (skipn a s).

(** The [for idx in range(start, len(text))] loop of [_extract_json_object]
    over the characters from [idx] on: the index at which [depth] comes back
    to zero, where the loop is left (by [return] or by [break]); [None] when
    the text ends first. *)
Fixpoint scan_span (chars : text) (idx : nat) (depth : Z) (in_string escape : bool)
  : option nat :=
  match chars with
  | [] => None
  | char :: rest =>
    if in_string then
      if escape then scan_span rest (S idx) depth in_string false
      else if Ascii.eqb char backslash then scan_span rest (S idx) depth in_string true
      else if Ascii.eqb char dquote then scan_span rest (S idx) depth false escape
      else scan_span rest (S idx) depth in_string escape
    else if Ascii.eqb char dquote then scan_span rest (S idx) depth true escape
    else if Ascii.eqb char "{" then scan_span rest (S idx) (depth + 1) in_string escape
    else if Ascii.eqb char "}" then
      if (depth - 1 =? 0)%Z then Some idx
      else scan_span rest (S idx) (depth - 1) in_string escape
    else scan_span rest (S idx) depth in_string escape
  end.

Section Extract.
Context {pyfloat : Type} {RT : Runtime pyfloat}.

(** One turn of the [while start != -1] loop: the balanced span from [start],
    decoded.  The value is returned; [None] when there is no such span or
    [json.loads] raises [JSONDecodeError] on it (the [break]); an exception
    of another class is not caught. *)
Definition attempt (s : text) (start : nat) : Outcome (option (PyVal pyfloat)) :=
  match scan_span (skipn start s) start 0 false false with
  | Some idx =>
    match Json.json_loads (slice s start (idx + 1)) with
    | Json.Decoded v => Returns (Some v)
    | Json.DecodeError => Returns None
    | Json.OtherError e => Raises e
    end
  | None => Returns None
  end.

Fixpoint extract_loop (fuel : nat) (s : text) (start : nat)
  : Outcome (option (PyVal pyfloat)) :=
  match fuel with
  | O => Returns None
  | S f =>
    match attempt s start with
    | Returns (Some v) => Returns (Some v)
    | Raises e => Raises e
    | Returns None =>
      match find s "{" (start + 1) with
      | Some start' => extract_loop f s start'
      | None => Returns None
      end
    end
  end.

(** [_extract_json_object(text)]: the object, [None], or the exception that
    [json.loads] raised and the function does not catch. *)
Definition _extract_json_object (s : text) : Outcome (option (PyVal pyfloat)) :=
  match find s "{" 0 with
  | Some start => extract_loop (length s) s start
  | None => Returns None
  end.

(** ** What the specification asks for

    An object embedded in the text is a span that starts with an opening
    brace, ends with a closing brace and is decoded by [json.loads]; the first
    one is the one that starts leftmost. *)

Fixpoint first_some {A B : Type} (f : A -> option B) (l : list A) : option B :=
  match l with
  | [] => None
  | a :: l' => match f a with Some b => Some b | None => first_some f l' end
  end.

Definition object_at (s : text) (start n : nat) : option (PyVal pyfloat) :=
  let c := firstn n (skipn start s) in
  match c, rev c with
  | x :: _, y :: _ =>
    if Ascii.eqb x "{" && Ascii.eqb y "}"
    then match Json.json_loads c with Json.Decoded v => Some v | _ => None end
    else None
  | _, _ => None
  end.

Definition objects_from (s : text) (start : nat) : option (PyVal pyfloat) :=
  first_some (object_at s start) (seq 1 (length s - start)).

Definition first_embedded_object (s : text) : option (PyVal pyfloat) :=
  first_some (objects_from s) (seq 0 (length s)).

End Extract.

End Interpreter.

(* ================================================================== *)
(** * The outside: chat service, terminal, worker sessions *)
(* ================================================================== *)

Module Sys.

Section World.
Context {pyfloat : Type}.

(** A transcript entry, [{"role": role, "content": content}]. *)
Record Message : Type := mkMessage { role : text; content : PyVal pyfloat }.

(** [mcp.types]: a content block and a resource, by the attributes
    [_normalize_result] reads ([getattr(block, "type", None)], [block.text],
    [getattr(block, "resource", None)], [model_dump()]). *)
Record ResourceContents : Type := mkResource {
  resource_text : option text;
  resource_dump : PyVal pyfloat
}.

Record ContentBlock : Type := mkBlock {
  block_type : option text;
  block_text : text;
  block_resource : option ResourceContents;
  block_dump : PyVal pyfloat
}.

Record CallToolResult : Type := mkResult {
  isError : bool;
  structuredContent : option (PyVal pyfloat);
  result_content : list ContentBlock;
  result_dump : PyVal pyfloat
}.

(** What the program does to the outside. *)
Inductive Event : Type :=
| EvChat (sent : list Message)
| EvPrint (line : text)
| EvInput (prompt : text)
| EvSession (name : text) (arguments : PyVal pyfloat).

(** The state of a run: the transcript list (one object, changed in place),
    what the program has done so far, oldest first, and what the outside
    will answer: the lines typed at the terminal (after the last one the
    stream is at its end) and the outcomes of the worker sessions.  (The
    replies of the chat service are an argument of the loop that asks for
    them.) *)
Record World : Type := mkWorld {
  messages : list Message;
  trace : list Event;
  stdin : list (Outcome text);
  sessions : list (Outcome CallToolResult)
}.

(** A computation ends with a value, with an exception, or waiting for an
    answer the outside has not given. *)
Inductive Result (A : Type) : Type :=
| Ok (a : A) (w : World)
| Err (e : PyExc) (w : World)
| Blocked (w : World).

Definition M (A : Type) : Type := World -> Result A.

Definition ret {A : Type} (a : A) : M A := fun w => Ok A a w.

Definition bind {A B : Type} (m : M A) (k : A -> M B) : M B :=
  fun w =>
    match m w with
    | Ok _ a w' => k a w'
    | Err _ e w' => Err B e w'
    | Blocked _ w' => Blocked B w'
    end.

Definition raise {A : Type} (e : PyExc) : M A := fun w => Err A e w.

Definition lift {A : Type} (o : Outcome A) : M A :=
  match o with
  | Returns a => ret a
  | Raises e => raise e
  end.

(** [try: m  except Exception as exc: handler(exc)] *)
Definition try_except {A : Type} (m : M A) (handler : PyExc -> M A) : M A :=
  fun w =>
    match m w with
    | Err _ e w' => if is_Exception (exc_class e) then handler e w' else Err A e w'
    | r => r
    end.

(** The world after an event, and after [messages.append(m)]. *)
Definition record_event (ev : Event) (w : World) : World :=
  mkWorld (messages w) (trace w ++ [ev]) (stdin w) (sessions w).

Definition record_message (m : Message) (w : World) : World :=
  mkWorld (messages w ++ [m]) (trace w) (stdin w) (sessions w).

(** The world a computation ends in. *)
Definition final {A : Type} (r : Result A) : World :=
  match r with
  | Ok _ _ w => w
  | Err _ _ w => w
  | Blocked _ w => w
  end.

Definition emit (ev : Event) : M unit := fun w => Ok unit tt (record_event ev w).

(** [messages.append(m)] *)
Definition append_message (m : Message) : M unit :=
  fun w => Ok unit tt (record_message m w).

Definition get_messages : M (list Message) := fun w => Ok _ (messages w) w.

(** [print(line)] *)
Definition print (line : text) : M unit := emit (EvPrint line).

(** [input(prompt)]: the next line of the terminal, or the exception that
    reading it raised; at the end of the stream [input] raises [EOFError].
    The lines are a finite list: a terminal at which nobody ever answers is
    not among the runs. *)
Definition input (prompt : text) : M text :=
  fun w =>
    let w' := record_event (EvInput prompt) w in
    match stdin w with
    | [] => Err text (mkExc EOFError (T "EOF when reading a line")) w'
    | Returns line :: rest =>
      Ok text line (mkWorld (messages w') (trace w') rest (sessions w'))
    | Raises e :: rest =>
      Err text e (mkWorld (messages w') (trace w') rest (sessions w'))
    end.

(** Waiting for an answer that does not come. *)
Definition block {A : Type} : M A := fun w => Blocked A w.

(** One worker session: the process is started, the handshake is made, one
    [session.call_tool(name, arguments)] is sent; the session gives the
    worker's reply, or the exception that the handshake or the call raised
    (a broken stream, a protocol error, an interrupt). *)
Definition call_tool_session (name : text) (arguments : PyVal pyfloat) : M CallToolResult :=
  fun w =>
    let w' := record_event (EvSession name arguments) w in
    match sessions w with
    | [] => Blocked _ w'
    | Returns r :: rest => Ok _ r (mkWorld (messages w') (trace w') (stdin w') rest)
    | Raises e :: rest => Err _ e (mkWorld (messages w') (trace w') (stdin w') rest)
    end.

End World.

Arguments Message : clear implicits.
Arguments ResourceContents : clear implicits.
Arguments ContentBlock : clear implicits.
Arguments CallToolResult : clear implicits.
Arguments Event : clear implicits.
Arguments World : clear implicits.
Arguments Result : clear implicits.
Arguments M : clear implicits.
Arguments Ok {pyfloat A} a w.
Arguments Err {pyfloat A} e w.
Arguments Blocked {pyfloat A} w.
Arguments final {pyfloat A} r.

Declare Scope py_scope.
Delimit Scope py_scope with py.
Notation "x <- m ;; k" := (bind m (fun x => k))
  (at level 61, m at next level, right associativity) : py_scope.
Notation "m ;;; k" := (bind m (fun _ => k))
  (at level 61, right associativity) : py_scope.

End Sys.
Import Sys.

(* ================================================================== *)
(** * [mcp_client.py]: the RPC bridge *)
(* ================================================================== *)

Module McpClient.

Local Open Scope py_scope.

Section Bridge.
Context {pyfloat : Type} {RT : Runtime pyfloat}.

Definition type_is (block_type : option text) (name : text) : bool :=
  match block_type with
  | Some t => text_eqb t name
  | None => false
  end.

(** What one turn of the [for block in result.content] loop appends. *)
Definition reduce_block (block : ContentBlock pyfloat) : PyVal pyfloat :=
  if type_is (block_type block) (T "text") then PStr (block_text block)
  else if type_is (block_type block) (T "resource") then
    match block_resource block with
    | None => block_dump block
    | Some resource =>
      match resource_text resource with
      | Some text_value => PStr text_value
      | None => resource_dump resource
      end
    end
  else block_dump block.

(** [_normalize_result(result)] *)
Definition _normalize_result (result : CallToolResult pyfloat) : Outcome (PyVal pyfloat) :=
  if isError result then
    Raises (mkExc RuntimeError (T "Tool call failed: " ++ py_str (result_dump result)))
  else
    match structuredContent result with
    | Some payload => Returns payload
    | None =>
      let blocks := map reduce_block (result_content result) in
      match blocks with
      | [] => Returns PNone
      | [b] => Returns b
      | _ :: _ :: _ => Returns (PList blocks)
      end
    end.

(** What leaves the two task groups of [_call_tool_async] (the one of
    [stdio_client] and the one of [ClientSession]) when their body raises
    [e]: a task group of anyio raises its failures as a group, so an
    exception of class [Exception] comes out inside two [ExceptionGroup]s,
    and the text of the outer one is all that [str] gives.  A
    [KeyboardInterrupt] or a [SystemExit] stops the event loop and leaves
    [anyio.run] as it is. *)
Definition task_group_error (e : PyExc) : PyExc :=
  match exc_class e with
  | KeyboardInterrupt | SystemExit => e
  | c =>
    mkExc (if is_Exception c then OtherException (T "ExceptionGroup")
           else OtherBaseException (T "BaseExceptionGroup"))
      (T "unhandled errors in a TaskGroup (1 sub-exception)")
  end.

(** The two [async with] statements around a body. *)
Definition within_task_groups {A : Type} (body : M pyfloat A) : M pyfloat A :=
  fun w =>
    match body w with
    | Err e w' => Err (task_group_error e) w'
    | r => r
    end.

(** [_call_tool(name, arguments)]: [anyio.run(_call_tool_async, name,
    arguments)], one session and, inside it, the normalisation of its
    reply. *)
Definition _call_tool (name : text) (arguments : PyVal pyfloat) : M pyfloat (PyVal pyfloat) :=
  within_task_groups
    (result <- call_tool_session name arguments ;;
     lift (_normalize_result result)).

Definition read_file (path : PyVal pyfloat) : M pyfloat (PyVal pyfloat) :=
  _call_tool (T "read_file") (PDict [(T "path", path)]).

Definition append_log (path text_ : PyVal pyfloat) : M pyfloat (PyVal pyfloat) :=
  _call_tool (T "append_log") (PDict [(T "path", path); (T "text", text_)]).

Definition run_command (command timeout : PyVal pyfloat) : M pyfloat (PyVal pyfloat) :=
  nonpositive <- lift (py_le_zero timeout) ;;
  if nonpositive then raise (mkExc ValueError (T "timeout must be positive"))
  else _call_tool (T "run_command") (PDict [(T "command", command); (T "timeout", timeout)]).

Definition system_info : M pyfloat (PyVal pyfloat) :=
  _call_tool (T "system_info") (PDict []).

Definition ping_host (host count timeout : PyVal pyfloat) : M pyfloat (PyVal pyfloat) :=
  _call_tool (T "ping_host")
    (PDict [(T "host", host); (T "count", count); (T "timeout", timeout)]).

Definition scan_port (host port timeout : PyVal pyfloat) : M pyfloat (PyVal pyfloat) :=
  _call_tool (T "scan_port")
    (PDict [(T "host", host); (T "port", port); (T "timeout", timeout)]).

Definition ssh_command (host command user port key_path timeout : PyVal pyfloat)
  : M pyfloat (PyVal pyfloat) :=
  let args := [(T "host", host); (T "command", command); (T "port", port);
               (T "timeout", timeout)] in
  let args := if py_truthy user then dict_set args (T "user") user else args in
  let args := if py_truthy key_path then dict_set args (T "key_path") key_path else args in
  _call_tool (T "ssh_command") (PDict args).

(** ** Calling a function with a mapping of keyword arguments

    A signature is the names of the parameters, each with its default when
    it has one. *)
Definition Signature : Type := list (text * option (PyVal pyfloat)).

Definition sig_read_file : Signature := [(T "path", None)].
Definition sig_append_log : Signature := [(T "path", None); (T "text", None)].
Definition sig_run_command : Signature := [(T "command", None); (T "timeout", Some (PInt 30))].
Definition sig_system_info : Signature := [].
Definition sig_ping_host : Signature :=
  [(T "host", None); (T "count", Some (PInt 4)); (T "timeout", Some (PInt 2))].
Definition sig_scan_port : Signature :=
  [(T "host", None); (T "port", None); (T "timeout", Some (PFloat (float_of_literal (T "2.0"))))].
Definition sig_ssh_command : Signature :=
  [(T "host", None); (T "command", None); (T "user", Some PNone); (T "port", Some (PInt 22));
   (T "key_path", Some PNone); (T "timeout", Some (PInt 30))].

Definition quoted (name : text) : text := T "'" ++ name ++ T "'".

(** The names in the message of a call that misses arguments. *)
Fixpoint name_list_tail (names : list text) : text :=
  match names with
  | [] => []
  | [a] => T "and " ++ quoted a
  | a :: rest => quoted a ++ T ", " ++ name_list_tail rest
  end.

Definition name_list (names : list text) : text :=
  match names with
  | [] => []
  | [a] => quoted a
  | [a; b] => quoted a ++ T " and " ++ quoted b
  | a :: rest => quoted a ++ T ", " ++ name_list_tail rest
  end.

(** The parameters with their values when [fname] is called with the
    keyword arguments [args]; a [TypeError] when [args] is no mapping, names
    no parameter, or leaves a parameter without a value. *)
Definition bind_kwargs (fname : text) (sig : Signature) (args : PyVal pyfloat)
  : Outcome (Dict pyfloat) :=
  match args with
  | PDict d =>
    match filter (fun kv => negb (existsb (fun p => text_eqb (fst p) (fst kv)) sig)) d with
    | (k, _) :: _ =>
      Raises (mkExc TypeError
        (fname ++ T "() got an unexpected keyword argument " ++ quoted k))
    | [] =>
      let missing :=
        map fst (filter (fun p =>
          match snd p with
          | None => negb (dict_has d (fst p))
          | Some _ => false
          end) sig) in
      match missing with
      | [] =>
        Returns (map (fun p =>
          (fst p,
           match dict_get d (fst p), snd p with
           | Some v, _ => v
           | None, Some default => default
           | None, None => PNone
           end)) sig)
      | _ :: _ =>
        Raises (mkExc TypeError
          (fname ++ T "() missing " ++ str_of_Z (Z.of_nat (length missing))
             ++ T " required positional argument"
             ++ (match missing with [_] => T ": " | _ => T "s: " end)
             ++ name_list missing))
      end
    end
  | _ =>
    Raises (mkExc TypeError
      (T "mcp_client." ++ fname ++ T "() argument after ** must be a mapping, not "
         ++ type_name args))
  end.

(** The value bound to a parameter. *)
Definition param (bound : Dict pyfloat) (name : text) : PyVal pyfloat :=
  match dict_get bound name with
  | Some v => v
  | None => PNone
  end.

End Bridge.

End McpClient.

(* ================================================================== *)
(** * [cli_agent.py]: confirmation, dispatch, the loop *)
(* ================================================================== *)

Module CliAgent.

Local Open Scope py_scope.

Section Agent.
Context {pyfloat : Type} {RT : Runtime pyfloat}.

Inductive Tool : Type :=
| ReadFile | AppendLog | RunCommand | SystemInfo | PingHost | ScanPort | SshCommand.

Definition TOOL_MAP : list (text * Tool) :=
  [(T "read_file", ReadFile);
   (T "append_log", AppendLog);
   (T "run_command", RunCommand);
   (T "system_info", SystemInfo);
   (T "ping_host", PingHost);
   (T "scan_port", ScanPort);
   (T "ssh_command", SshCommand)].

Fixpoint assoc {A : Type} (k : text) (l : list (text * A)) : option A :=
  match l with
  | [] => None
  | (k', a) :: l' => if text_eqb k' k then Some a else assoc k l'
  end.

(** [TOOL_MAP.get(tool_name)]: the key is hashed first; only a [str] can be
    equal to a key of the table. *)
Definition tool_map_get (tool_name : PyVal pyfloat) : Outcome (option (text * Tool)) :=
  if hashable tool_name then
    Returns
      (match tool_name with
       | PStr name =>
         match assoc name TOOL_MAP with
         | Some tool => Some (name, tool)
         | None => None
         end
       | _ => None
       end)
  else Raises (mkExc TypeError (T "unhashable type: '" ++ type_name tool_name ++ T "'")).

(** The call of the function the table gives, with [args] as its keyword
    arguments. *)
Definition call_tool_function (tool : Tool) (args : PyVal pyfloat) : M pyfloat (PyVal pyfloat) :=
  match tool with
  | ReadFile =>
    b <- lift (McpClient.bind_kwargs (T "read_file") McpClient.sig_read_file args) ;;
    McpClient.read_file (McpClient.param b (T "path"))
  | AppendLog =>
    b <- lift (McpClient.bind_kwargs (T "append_log") McpClient.sig_append_log args) ;;
    McpClient.append_log (McpClient.param b (T "path")) (McpClient.param b (T "text"))
  | RunCommand =>
    b <- lift (McpClient.bind_kwargs (T "run_command") McpClient.sig_run_command args) ;;
    McpClient.run_command (McpClient.param b (T "command")) (McpClient.param b (T "timeout"))
  | SystemInfo =>
    b <- lift (McpClient.bind_kwargs (T "system_info") McpClient.sig_system_info args) ;;
    McpClient.system_info
  | PingHost =>
    b <- lift (McpClient.bind_kwargs (T "ping_host") McpClient.sig_ping_host args) ;;
    McpClient.ping_host (McpClient.param b (T "host")) (McpClient.param b (T "count"))
      (McpClient.param b (T "timeout"))
  | ScanPort =>
    b <- lift (McpClient.bind_kwargs (T "scan_port") McpClient.sig_scan_port args) ;;
    McpClient.scan_port (McpClient.param b (T "host")) (McpClient.param b (T "port"))
      (McpClient.param b (T "timeout"))
  | SshCommand =>
    b <- lift (McpClient.bind_kwargs (T "ssh_command") McpClient.sig_ssh_command args) ;;
    McpClient.ssh_command (McpClient.param b (T "host")) (McpClient.param b (T "command"))
      (McpClient.param b (T "user")) (McpClient.param b (T "port"))
      (McpClient.param b (T "key_path")) (McpClient.param b (T "timeout"))
  end.

(** [_pretty(obj)] *)
Definition _pretty (obj : PyVal pyfloat) : text :=
  match obj with
  | PStr s => s
  | _ =>
    match Json.json_dumps_indent2 obj with
    | Some out => out
    | None => py_str obj
    end
  end.

(** [int(args.get(key, default) or default)] *)
Definition int_arg (args : PyVal pyfloat) (key : text) (default : Z) : M pyfloat Z :=
  v <- lift (py_get args key (PInt default)) ;;
  lift (py_int (if py_truthy v then v else PInt default)).

(** [str(args.get(key, "")).strip()] *)
Definition str_arg (args : PyVal pyfloat) (key : text) : M pyfloat text :=
  v <- lift (py_get args key (PStr [])) ;;
  ret (strip (py_str v)).

(** The first part of [_confirm_tool]: the command that will be run, when it
    can be told. *)
Definition preview_of (tool_name : text) (args : PyVal pyfloat) : M pyfloat (option text) :=
  if text_eqb tool_name (T "run_command") then
    cmd <- lift (py_get args (T "command") PNone) ;;
    match cmd with
    | PStr c => if nonempty_text (strip c) then ret (Some c) else ret None
    | _ => ret None
    end
  else if text_eqb tool_name (T "ping_host") then
    host <- str_arg args (T "host") ;;
    if nonempty_text host then
      count <- int_arg args (T "count") 4 ;;
      timeout <- int_arg args (T "timeout") 2 ;;
      ret (Some (T "ping -c " ++ str_of_Z count ++ T " -W " ++ str_of_Z timeout
                   ++ T " " ++ host))
    else ret None
  else if text_eqb tool_name (T "ssh_command") then
    host <- str_arg args (T "host") ;;
    command <- str_arg args (T "command") ;;
    if nonempty_text host && nonempty_text command then
      user <- str_arg args (T "user") ;;
      port <- int_arg args (T "port") 22 ;;
      key_path <- str_arg args (T "key_path") ;;
      let target := if nonempty_text user then user ++ T "@" ++ host else host in
      let parts := [T "ssh"; T "-p"; str_of_Z port; T "-o"; T "BatchMode=yes"] in
      let parts := if nonempty_text key_path then parts ++ [T "-i"; key_path] else parts in
      let parts := parts ++ [target; command] in
      ret (Some (join (T " ") parts))
    else ret None
  else ret None.

Definition answers_yes (choice : text) : bool :=
  text_eqb choice (T "y") || text_eqb choice (T "yes").

Definition answers_no (choice : text) : bool :=
  text_eqb choice (T "n") || text_eqb choice (T "no") || text_eqb choice [].

(** The [while True] loop of [_confirm_tool].  Every turn reads a line, so
    the lines left on [stdin] bound the turns ([_confirm_tool] below). *)
Fixpoint confirm_loop (fuel : nat) (prompt : text) : M pyfloat bool :=
  match fuel with
  | O => block
  | S f =>
    line <- input prompt ;;
    let choice := lower (strip line) in
    if answers_yes choice then ret true
    else if answers_no choice then ret false
    else print (T "Please answer 'y' or 'n'.") ;;; confirm_loop f prompt
  end.

(** [_confirm_tool(tool_name, args)] *)
Definition _confirm_tool (tool_name : text) (args : PyVal pyfloat) : M pyfloat bool :=
  preview <- preview_of tool_name args ;;
  let prompt :=
    match preview with
    | Some (c :: p) => T "Execute: " ++ (c :: p) ++ T "? [y/N]: "
    | _ =>
      T "Execute tool '" ++ tool_name ++ T "' with args " ++ _pretty args ++ T "? [y/N]: "
    end in
  fun w => confirm_loop (S (length (stdin w))) prompt w.

(** The result dispatch makes of a failed invocation. *)
Definition error_result (exc : PyExc) : PyVal pyfloat :=
  PDict [(T "status", PStr (T "error")); (T "error", PStr (exc_str exc))].

(** The invocation inside its [try ... except Exception as exc]. *)
Definition invoke (tool : Tool) (args : PyVal pyfloat) : M pyfloat (PyVal pyfloat) :=
  try_except (call_tool_function tool args) (fun exc => ret (error_result exc)).

(** What is shown of a result: its [stdout] when it has one. *)
Definition display_of (result : PyVal pyfloat) : text :=
  let display :=
    match result with
    | PDict d =>
      match dict_get d (T "stdout") with
      | Some (PStr out) => Some out
      | _ =>
        match dict_get d (T "result") with
        | Some (PDict inner) =>
          match dict_get inner (T "stdout") with
          | Some (PStr out) => Some out
          | _ => None
          end
        | _ => None
        end
      end
    | _ => None
    end in
  match display with
  | Some out => out
  | None => _pretty result
  end.

Definition assistant (c : PyVal pyfloat) : Message pyfloat := mkMessage (T "assistant") c.
Definition user (c : text) : Message pyfloat := mkMessage (T "user") (PStr c).

Definition unknown_tool_notice (tool_name : PyVal pyfloat) : text :=
  T "Unknown tool '" ++ py_str tool_name ++ T "'.".

Definition declined_notice (tool_name : text) : text :=
  T "User declined to run tool " ++ tool_name ++ T ".".

Definition tool_result_message (tool_name js : text) : Message pyfloat :=
  user (T "Tool " ++ tool_name ++ T " result: " ++ js).

(** How a turn of the [while True] loop of [process_assistant] ends. *)
Inductive Flow : Type := Continue | Break.

(** [data.get("args", {}) or {}] *)
Definition tool_args (data : Dict pyfloat) : PyVal pyfloat :=
  match dict_get data (T "args") with
  | Some a => if py_truthy a then a else PDict []
  | None => PDict []
  end.

(** The [if isinstance(data, dict) and "tool" in data] branch. *)
Definition dispatch (reply : text) (d : Dict pyfloat) (tool_name : PyVal pyfloat)
  (assistant_logged : bool) : M pyfloat Flow :=
  let args := tool_args d in
  func <- lift (tool_map_get tool_name) ;;
  (if assistant_logged then ret tt else append_message (assistant (PStr reply))) ;;;
  match func with
  | None =>
    print (T "assistant> " ++ unknown_tool_notice tool_name) ;;;
    append_message (user (unknown_tool_notice tool_name)) ;;;
    ret Break
  | Some (name, tool) =>
    confirmed <- _confirm_tool name args ;;
    if negb confirmed then
      print (T "assistant> " ++ declined_notice name) ;;;
      append_message (user (declined_notice name)) ;;;
      ret Break
    else
      result <- invoke tool args ;;
      print (T "[tool:" ++ name ++ T "] " ++ display_of result) ;;;
      match Json.json_dumps result with
      | Some js => append_message (tool_result_message name js) ;;; ret Continue
      | None => raise (Json.dumps_error result)
      end
  end.

(** The fallback at the end of the loop body. *)
Definition plain_reply (reply : text) : M pyfloat Flow :=
  print (T "assistant> " ++ reply) ;;;
  append_message (assistant (PStr reply)) ;;;
  ret Break.

(** The loop body from the first [isinstance(data, dict)] test on. *)
Definition act_on (reply : text) (data : PyVal pyfloat) (assistant_logged : bool)
  : M pyfloat Flow :=
  match data with
  | PDict d =>
    match dict_get d (T "tool") with
    | Some tool_name => dispatch reply d tool_name assistant_logged
    | None =>
      match dict_get d (T "final") with
      | Some final_message =>
        (if assistant_logged then ret tt
         else print (T "assistant> " ++ py_str final_message)) ;;;
        append_message (assistant final_message) ;;;
        ret Break
      | None => plain_reply reply
      end
    end
  | _ => plain_reply reply
  end.

(** The loop body after [reply = ask_ollama(messages)].  Only
    [json.JSONDecodeError] is caught: another exception of [json.loads], on
    the reply or on a span of it, leaves the loop. *)
Definition interpret_reply (reply : text) : M pyfloat Flow :=
  match Json.json_loads reply with
  | Json.Decoded data => act_on reply data false
  | Json.OtherError e => raise e
  | Json.DecodeError =>
    match Interpreter._extract_json_object reply with
    | Raises e => raise e
    | Returns None => plain_reply reply
    | Returns (Some data) =>
      print (T "assistant> " ++ reply) ;;;
      append_message (assistant (PStr reply)) ;;;
      act_on reply data true
    end
  end.

(** [ask_ollama(messages)], answered by [answer]. *)
Definition ask_ollama (answer : Outcome text) : M pyfloat text :=
  sent <- get_messages ;;
  emit (EvChat sent) ;;;
  lift answer.

(** [process_assistant(messages)], the chat service answering the
    successive requests with [chat]; when it has no answer left the program
    waits on its request. *)
Fixpoint process_assistant (chat : list (Outcome text)) : M pyfloat unit :=
  match chat with
  | [] =>
    sent <- get_messages ;;
    emit (EvChat sent) ;;;
    block
  | answer :: later =>
    reply <- ask_ollama answer ;;
    flow <- interpret_reply reply ;;
    match flow with
    | Continue => process_assistant later
    | Break => ret tt
    end
  end.

End Agent.

End CliAgent.

(* ================================================================== *)
(** * [mcp_server.py]: the capability workers *)
(* ================================================================== *)

(** A capability takes its arguments, typed as its signature declares them,
    and the answers of the operating system to what it asks. *)
Module McpServer.

(** [subprocess.CompletedProcess], run with [capture_output=True, text=True] *)
Record CompletedProcess : Type := mkProcess {
  returncode : Z;
  stdout : text;
  stderr : text
}.

(** [s.split()]: the words between white space.  [word] is the word being
    read, last byte first. *)
Definition end_word (word : text) (words : list text) : list text :=
  match word with
  | [] => words
  | _ :: _ => rev word :: words
  end.

Fixpoint split_from (s word : text) : list text :=
  match s with
  | [] => end_word word []
  | a :: r =>
    if is_space a then end_word word (split_from r [])
    else
      match r with
      | [] => split_from r (a :: word)
      | b :: r1 =>
        if wide_space2 a b then end_word word (split_from r1 [])
        else
          match r1 with
          | [] => split_from r (a :: word)
          | c :: r2 =>
            if wide_space3 a b c then end_word word (split_from r2 [])
            else split_from r (a :: word)
          end
      end
  end.

Definition split (s : text) : list text := split_from s [].

(** [shlex.quote(s)] *)
Definition is_safe (c : ascii) : bool :=
  let n := nat_of_ascii c in
  ((48 <=? n) && (n <=? 57)) || ((65 <=? n) && (n <=? 90)) || ((97 <=? n) && (n <=? 122))
  || existsb (Ascii.eqb c) (T "_@%+=:,./-").

Definition shlex_quote (s : text) : text :=
  match s with
  | [] => T "''"
  | _ :: _ =>
    if forallb is_safe s then s
    else
      T "'" ++ flat_map (fun c =>
                 if Ascii.eqb c "'" then [c; dquote; c; dquote; c] else [c]) s
        ++ T "'"
  end.

(** What [os.getloadavg] gives. *)
Inductive LoadAvg (pyfloat : Type) : Type :=
| NoGetloadavg
| LoadUnobtainable
| Load (one five fifteen : pyfloat).
Arguments NoGetloadavg {pyfloat}.
Arguments LoadUnobtainable {pyfloat}.
Arguments Load {pyfloat} one five fifteen.

(** The host as [system_info] sees it: the [platform] module, [os.cpu_count],
    [os.getloadavg], and the content of [/proc/uptime] when it can be read. *)
Record Host (pyfloat : Type) : Type := mkHost {
  host_platform : text;
  host_system : text;
  host_release : text;
  host_python : text;
  host_machine : text;
  host_cpu_count : option Z;
  host_loadavg : LoadAvg pyfloat;
  host_uptime : option text
}.
Arguments host_platform {pyfloat} h.
Arguments host_system {pyfloat} h.
Arguments host_release {pyfloat} h.
Arguments host_python {pyfloat} h.
Arguments host_machine {pyfloat} h.
Arguments host_cpu_count {pyfloat} h.
Arguments host_loadavg {pyfloat} h.
Arguments host_uptime {pyfloat} h.

(** What [scan_port] does to its socket. *)
Inductive SocketEvent (pyfloat : Type) : Type :=
| SockOpen
| SockSetTimeout (seconds : pyfloat)
| SockConnect (host : text) (port : Z)
| SockClose.
Arguments SockOpen {pyfloat}.
Arguments SockSetTimeout {pyfloat} seconds.
Arguments SockConnect {pyfloat} host port.
Arguments SockClose {pyfloat}.

Section Server.
Context {pyfloat : Type} {RT : Runtime pyfloat}.

Definition error_dict (message : text) : PyVal pyfloat :=
  PDict [(T "status", PStr (T "error")); (T "error", PStr message)].

(** [_proc_result(result)] *)
Definition _proc_result (result : CompletedProcess) : Dict pyfloat :=
  [(T "status", PStr (if (returncode result =? 0)%Z then T "ok" else T "error"));
   (T "returncode", PInt (returncode result));
   (T "stdout", PStr (strip (stdout result)));
   (T "stderr", PStr (strip (stderr result)))].

(** [read_file(path)]; [opened] is the outcome of opening the file and
    reading it. *)
Definition read_file (path : text) (opened : Outcome text) : Outcome (PyVal pyfloat) :=
  match opened with
  | Returns data => Returns (PDict [(T "content", PStr data)])
  | Raises e =>
    match exc_class e with
    | FileNotFoundError =>
      Returns (PDict [(T "error", PStr (T "file not found")); (T "content", PStr [])])
    | c =>
      if is_Exception c
      then Returns (PDict [(T "error", PStr (exc_str e)); (T "content", PStr [])])
      else Raises e
    end
  end.

(** [append_log(path, text)]; [written] is the outcome of opening the file
    and writing the line. *)
Definition append_log (path text_ : text) (written : Outcome unit) : Outcome (PyVal pyfloat) :=
  match written with
  | Returns _ => Returns (PDict [(T "status", PStr (T "ok"))])
  | Raises e =>
    if is_Exception (exc_class e) then Returns (error_dict (exc_str e)) else Raises e
  end.

(** The [except] clauses after a [subprocess.run]. *)
Definition process_failure (e : PyExc) (timed_out : text) : Outcome (PyVal pyfloat) :=
  match exc_class e with
  | TimeoutExpired => Returns (error_dict timed_out)
  | c => if is_Exception c then Returns (error_dict (exc_str e)) else Raises e
  end.

(** [run_command(command, timeout)]; [ran] is the outcome of
    [subprocess.run]. *)
Definition run_command (command : text) (timeout : Z) (ran : Outcome CompletedProcess)
  : Outcome (PyVal pyfloat) :=
  if negb (nonempty_text (strip command)) then Returns (error_dict (T "command cannot be empty"))
  else
    match ran with
    | Returns result =>
      Returns (PDict (dict_set (_proc_result result) (T "command") (PStr command)))
    | Raises e =>
      process_failure e (T "command timed out after " ++ str_of_Z timeout ++ T "s")
    end.

(** [system_info()] *)
Definition system_info (host : Host pyfloat) : PyVal pyfloat :=
  let info : Dict pyfloat :=
    [(T "platform", PStr (host_platform host));
     (T "system", PStr (host_system host));
     (T "release", PStr (host_release host));
     (T "python", PStr (host_python host));
     (T "architecture", PStr (host_machine host));
     (T "cpu_count", match host_cpu_count host with Some n => PInt n | None => PNone end);
     (T "load_avg", PNone);
     (T "uptime_seconds", PNone)] in
  let info :=
    match host_loadavg host with
    | Load a b c => dict_set info (T "load_avg") (PTuple [PFloat a; PFloat b; PFloat c])
    | NoGetloadavg | LoadUnobtainable => info
    end in
  let info :=
    match host_uptime host with
    | Some data =>
      match split data with
      | first :: _ =>
        match float_of_str first with
        | Some uptime_value =>
          dict_set info (T "uptime_seconds") (PFloat (float_round uptime_value 2))
        | None => info
        end
      | [] => info
      end
    | None => info
    end in
  PDict info.

(** [ping_host(host, count, timeout)]; [which] is [shutil.which("ping")]. *)
Definition ping_host (host : text) (count timeout : Z) (which : option text)
  (ran : Outcome CompletedProcess) : Outcome (PyVal pyfloat) :=
  if negb (nonempty_text (strip host)) then Returns (error_dict (T "host is required"))
  else
    match which with
    | None => Returns (error_dict (T "ping binary not available"))
    | Some ping_bin =>
      let count := Z.max 1 (Z.min count 10) in
      let timeout := Z.max 1 timeout in
      let command := [ping_bin; T "-c"; str_of_Z count; T "-W"; str_of_Z timeout; host] in
      match ran with
      | Returns result =>
        Returns (PDict (dict_set (_proc_result result) (T "command")
                          (PStr (join (T " ") (map shlex_quote command)))))
      | Raises e => process_failure e (T "ping operation timed out")
      end
    end.

(** The [try] statement of [scan_port], with its [finally]: the result and
    what is done to the socket. *)
Definition scan_attempt (host : text) (port : Z) (connected : Outcome pyfloat)
  : Outcome (PyVal pyfloat) * list (SocketEvent pyfloat) :=
  let events := [SockConnect host port; SockClose] in
  match connected with
  | Returns took =>
    (Returns (PDict [(T "status", PStr (T "ok")); (T "host", PStr host);
                     (T "port", PInt port); (T "open", PBool true);
                     (T "latency", PFloat (float_round took 4))]), events)
  | Raises e =>
    match exc_class e with
    | SocketTimeout | ConnectionRefusedError =>
      (Returns (PDict [(T "status", PStr (T "ok")); (T "host", PStr host);
                       (T "port", PInt port); (T "open", PBool false)]), events)
    | c =>
      if is_Exception c then (Returns (error_dict (exc_str e)), events)
      else (Raises e, events)
    end
  end.

(** [scan_port(host, port, timeout)]; [created] is the outcome of
    [socket.socket(...)], [limited] the outcome of [sock.settimeout(...)] and
    [connected] the outcome of [sock.connect(...)], with the time it took
    when it succeeds.  The function gives its result and what it did to the
    socket: [SockOpen] when a socket was made, then the calls on it.  The
    first two calls stand before the [try] statement: an exception of
    either leaves the function, and after one of [settimeout] the socket is
    not closed. *)
Definition scan_port (host : text) (port : Z) (timeout : pyfloat)
  (created limited : Outcome unit) (connected : Outcome pyfloat)
  : Outcome (PyVal pyfloat) * list (SocketEvent pyfloat) :=
  if negb (nonempty_text (strip host)) then (Returns (error_dict (T "host is required")), [])
  else if negb ((0 <? port)%Z && (port <? 65536)%Z) then
    (Returns (error_dict (T "port must be between 1 and 65535")), [])
  else
    match created with
    | Raises e => (Raises e, [])
    | Returns _ =>
      let setting := SockSetTimeout (float_max (float_of_literal (T "0.1")) timeout) in
      match limited with
      | Raises e => (Raises e, [SockOpen; setting])
      | Returns _ =>
        let (result, events) := scan_attempt host port connected in
        (result, SockOpen :: setting :: events)
      end
    end.

(** [ssh_command(host, command, user, port, key_path, timeout)]; [which] is
    [shutil.which("ssh")]. *)
Definition ssh_command (host command : text) (user : option text) (port : Z)
  (key_path : option text) (timeout : Z) (which : option text)
  (ran : Outcome CompletedProcess) : Outcome (PyVal pyfloat) :=
  if negb (nonempty_text (strip host)) then Returns (error_dict (T "host is required"))
  else if negb (nonempty_text (strip command)) then
    Returns (error_dict (T "command is required"))
  else
    match which with
    | None => Returns (error_dict (T "ssh binary not available"))
    | Some ssh_bin =>
      let target :=
        match user with
        | Some (c :: u) => (c :: u) ++ T "@" ++ host
        | _ => host
        end in
      let ssh_cmd := [ssh_bin; T "-p"; str_of_Z port; T "-o"; T "BatchMode=yes"] in
      let ssh_cmd :=
        match key_path with
        | Some (c :: k) => ssh_cmd ++ [T "-i"; c :: k]
        | _ => ssh_cmd
        end in
      let ssh_cmd := ssh_cmd ++ [target; command] in
      match ran with
      | Returns result =>
        Returns (PDict (dict_set (_proc_result result) (T "command")
                          (PStr (join (T " ") (map shlex_quote ssh_cmd)))))
      | Raises e =>
        process_failure e (T "ssh command timed out after " ++ str_of_Z timeout ++ T "s")
      end
    end.

End Server.

End McpServer.

(* ================================================================== *)
(** * [cli_agent.py]: the interactive session *)
(* ================================================================== *)

Module CliMain.

Local Open Scope py_scope.

Definition newline : ascii := "010"%char.

(** [SYSTEM_PROMPT], line by line. *)
Definition SYSTEM_PROMPT : text :=
  join [newline]
    [ [];
      T "You are a helpful command-line automation assistant.";
      [];
      T "You can call tools by replying with JSON in the following shape:";
      quote_marks "{ 'tool': '<tool_name>', 'args': { ... } }";
      [];
      T "Available tools:";
      T "- read_file(path: str)";
      T "- append_log(path: str, text: str)";
      T "- run_command(command: str, timeout: int = 30)";
      T "- system_info()";
      T "- ping_host(host: str, count: int = 4, timeout: int = 2)";
      T "- scan_port(host: str, port: int, timeout: float = 2.0)";
      T "- ssh_command(host: str, command: str, user?: str, port: int = 22, key_path?: str, timeout: int = 30)";
      [];
      T "When you reach a conclusion, respond with JSON:";
      quote_marks "{ 'final': '<your summary or answer>' }";
      [];
      T "For short, conversational replies that don't require tool usage, respond with plain text.";
      [] ].

Section Main.
Context {pyfloat : Type} {RT : Runtime pyfloat}.

(** [process_assistant(messages)] as [main] calls it, one call after the
    other on the same chat service: the value is the answers the service has
    not given yet when the call returns. *)
Fixpoint process_assistant_from (chat : list (Outcome text))
  : M pyfloat (list (Outcome text)) :=
  match chat with
  | [] =>
    sent <- get_messages ;;
    emit (EvChat sent) ;;;
    block
  | answer :: later =>
    reply <- CliAgent.ask_ollama answer ;;
    flow <- CliAgent.interpret_reply reply ;;
    match flow with
    | CliAgent.Continue => process_assistant_from later
    | CliAgent.Break => ret later
    end
  end.

(** [messages = [...]]: a new transcript list. *)
Definition new_transcript (initial : list (Message pyfloat)) : M pyfloat unit :=
  fun w => Ok tt (mkWorld initial (trace w) (stdin w) (sessions w)).

(** [except (EOFError, KeyboardInterrupt)] *)
Definition ends_input (e : PyExc) : bool :=
  match exc_class e with
  | EOFError | KeyboardInterrupt => true
  | _ => false
  end.

(** [user_input.lower() in {"exit", "quit"}] *)
Definition asks_to_leave (user_input : text) : bool :=
  text_eqb (lower user_input) (T "exit") || text_eqb (lower user_input) (T "quit").

(** The [while True] loop of [main].  Every turn reads a line, so the lines
    left on [stdin] bound the turns ([main] below). *)
Fixpoint main_loop (fuel : nat) (chat : list (Outcome text)) : M pyfloat unit :=
  match fuel with
  | O => block
  | S f =>
    fun w =>
      match input (T "you> ") w with
      | Err e w' =>
        if ends_input e then print (newline :: T "Exiting.") w' else Err e w'
      | Blocked w' => Blocked w'
      | Ok line w' =>
        let user_input := strip line in
        if negb (nonempty_text user_input) then main_loop f chat w'
        else if asks_to_leave user_input then print (T "Goodbye.") w'
        else
          (append_message (CliAgent.user user_input) ;;;
           later <- process_assistant_from chat ;;
           main_loop f later) w'
      end
  end.

(** [main()], the chat service answering with [chat]. *)
Definition main (chat : list (Outcome text)) : M pyfloat unit :=
  print (T "Interactive automation chat. Type 'exit' to quit.") ;;;
  new_transcript [mkMessage (T "system") (PStr (strip SYSTEM_PROMPT))] ;;;
  fun w => main_loop (S (length (stdin w))) chat w.

End Main.

End CliMain.

(* ================================================================== *)
(** * [agent.py]: the log-monitoring agent *)
(* ================================================================== *)

Module LogAgent.

Local Open Scope py_scope.

Definition newline : ascii := "010"%char.

(** [SYSTEM_PROMPT], line by line (the f-string has no field: its doubled
    braces are single ones in the text). *)
Definition SYSTEM_PROMPT : text :=
  join [newline]
    [ [];
      T "You are an autonomous agent for log monitoring.";
      [];
      T "Tools available:";
      [];
      T "1) read_file:";
      quote_marks "   { 'tool': 'read_file', 'args': {'path': '<filepath>'} }";
      [];
      T "2) append_log:";
      quote_marks "   { 'tool': 'append_log', 'args': {'path': '<filepath>', 'text': '<text>'} }";
      [];
      T "Rules:";
      T "- Use read_file to inspect logs.";
      T "- Use append_log to write findings.";
      T "- When finished, output ONLY:";
      quote_marks "  { 'final': '<summary>' }";
      [] ].

(** [needle in s], for two [str]. *)
Fixpoint is_infix (needle s : text) : bool :=
  match strip_prefix needle s with
  | Some _ => true
  | None =>
    match s with
    | [] => false
    | _ :: r => is_infix needle r
    end
  end.

Section Agent.
Context {pyfloat : Type} {RT : Runtime pyfloat}.

(** [v == s], for a [str] [s] *)
Definition equals_str (v : PyVal pyfloat) (s : text) : bool :=
  match v with
  | PStr t => text_eqb t s
  | _ => false
  end.

(** [key in v], for a [str] key: a key of a [dict], a part of a [str], an
    item of a sequence; a value of another type is no container. *)
Definition contains (v : PyVal pyfloat) (key : text) : Outcome bool :=
  match v with
  | PDict d => Returns (dict_has d key)
  | PStr s => Returns (is_infix key s)
  | PList l | PTuple l => Returns (existsb (fun item => equals_str item key) l)
  | _ =>
    Raises (mkExc TypeError (T "argument of type '" ++ type_name v ++ T "' is not iterable"))
  end.

(** [v[key]], for a [str] key *)
Definition getitem (v : PyVal pyfloat) (key : text) : Outcome (PyVal pyfloat) :=
  match v with
  | PDict d =>
    match dict_get d key with
    | Some item => Returns item
    | None => Raises (mkExc (OtherException (T "KeyError")) (str_repr key))
    end
  | PStr _ => Raises (mkExc TypeError (T "string indices must be integers, not 'str'"))
  | PList _ => Raises (mkExc TypeError (T "list indices must be integers or slices, not str"))
  | PTuple _ => Raises (mkExc TypeError (T "tuple indices must be integers or slices, not str"))
  | _ => Raises (mkExc TypeError (T "'" ++ type_name v ++ T "' object is not subscriptable"))
  end.

(** [ask_ollama(prompt)], answered by [answer]: every request is the system
    prompt and one user message. *)
Definition request (prompt : text) : list (Message pyfloat) :=
  [mkMessage (T "system") (PStr SYSTEM_PROMPT); mkMessage (T "user") (PStr prompt)].

Definition ask_ollama (prompt : text) (answer : Outcome text) : M pyfloat text :=
  emit (EvChat (request prompt)) ;;;
  lift answer.

(** How a turn of the [while True] loop of [run_agent] ends: by [continue]
    with a new task, at the [time.sleep(2)] after the [try] statement, or by
    [break]. *)
Inductive Next : Type :=
| Resume (task : text)
| Pause
| Stop.

(** The [except Exception] clause. *)
Definition raw_output (reply : text) : M pyfloat Next :=
  print (newline :: T "===== FINAL RAW OUTPUT =====" ++ [newline]) ;;;
  print reply ;;;
  ret Stop.

(** The body of the [try] statement after [data = json.loads(reply)]. *)
Definition act_on (data : PyVal pyfloat) : M pyfloat Next :=
  has_tool <- lift (contains data (T "tool")) ;;
  if has_tool then
    tool_name <- lift (getitem data (T "tool")) ;;
    args <- lift (py_get data (T "args") (PDict [])) ;;
    if equals_str tool_name (T "read_file") then
      path <- lift (getitem args (T "path")) ;;
      result <- McpClient.read_file path ;;
      print (T "Tool result: " ++ py_str result) ;;;
      ret (Resume (T "Tool result: " ++ py_str result ++ T ". Continue."))
    else if equals_str tool_name (T "append_log") then
      path <- lift (getitem args (T "path")) ;;
      text_ <- lift (getitem args (T "text")) ;;
      result <- McpClient.append_log path text_ ;;
      print (T "Logged: " ++ py_str result) ;;;
      ret (Resume (T "Logged: " ++ py_str result ++ T ". Continue."))
    else ret Pause
  else
    has_final <- lift (contains data (T "final")) ;;
    if has_final then
      print (newline :: T "===== FINAL AGENT SUMMARY =====" ++ [newline]) ;;;
      final_message <- lift (getitem data (T "final")) ;;
      print (py_str final_message) ;;;
      ret Stop
    else ret Pause.

(** The [try] statement of the loop body: [json.loads] and what follows it
    are inside, and [except Exception] takes every failure of either. *)
Definition turn (reply : text) : M pyfloat Next :=
  match Json.json_loads reply with
  | Json.Decoded data => try_except (act_on data) (fun _ => raw_output reply)
  | Json.DecodeError => raw_output reply
  | Json.OtherError e => try_except (raise e) (fun _ => raw_output reply)
  end.

(** The [while True] loop of [run_agent], the chat service answering the
    successive requests with [chat]; when it has no answer left the program
    waits on its request.  ([time.sleep(2)] changes nothing of the world.) *)
Fixpoint agent_loop (chat : list (Outcome text)) (task : text) : M pyfloat unit :=
  match chat with
  | [] =>
    print (newline :: Json.chr 0x1F4E1 ++ T " Asking LLM..." ++ [newline]) ;;;
    emit (EvChat (request task)) ;;;
    block
  | answer :: later =>
    print (newline :: Json.chr 0x1F4E1 ++ T " Asking LLM..." ++ [newline]) ;;;
    reply <- ask_ollama task answer ;;
    print (T "LLM Reply:" ++ [newline] ++ T " " ++ reply) ;;;
    next <- turn reply ;;
    match next with
    | Resume task' => agent_loop later task'
    | Pause => agent_loop later task
    | Stop => ret tt
    end
  end.

(** [run_agent()]; [AUTH_LOG] and [THREAT_LOG] are the two paths of
    [config.yaml]. *)
Definition run_agent (AUTH_LOG THREAT_LOG : text) (chat : list (Outcome text))
  : M pyfloat unit :=
  agent_loop chat
    (T "Analyze " ++ AUTH_LOG ++ T " for suspicious activity and write notes to "
       ++ THREAT_LOG ++ T ".").

End Agent.

End LogAgent.

(* ================================================================== *)
(** * The vocabulary of the statements *)
(* ================================================================== *)

Import Json Interpreter.

(** ** The scanner on pieces of text *)
Module LexSpec.

Definition plain (c : ascii) : bool :=
  negb (Ascii.eqb c dquote) && negb (Ascii.eqb c "{") && negb (Ascii.eqb c "}").

(** Outside a string and inside some object: the scanner passes over [cs]
    and is in the state it started in. *)
Definition neutral (cs : text) : Prop :=
  forall rest idx depth, (1 <= depth)%Z ->
    scan_span (cs ++ rest) idx depth false false
    = scan_span rest (idx + length cs) depth false false.

(** Inside a string: the scanner passes over [cs] and has left the string. *)
Definition closes (cs : text) : Prop :=
  forall rest idx depth,
    scan_span (cs ++ rest) idx depth true false
    = scan_span rest (idx + length cs) depth false false.

(** The same, for a text that goes on after the string. *)
Definition enters (cs : text) : Prop :=
  forall rest idx depth, (1 <= depth)%Z ->
    scan_span (cs ++ rest) idx depth true false
    = scan_span rest (idx + length cs) depth false false.

(** What a successful parse says about the text it read. *)
Definition value_ok (s rest : text) : Prop :=
  exists cs, s = cs ++ rest /\ neutral cs /\ cs <> [] /\
    (forall r, s = "{"%char :: r ->
       exists inner, cs = "{"%char :: inner ++ ["}"%char] /\ neutral inner).

Definition members_ok (s rest : text) : Prop :=
  exists inner, s = inner ++ "}"%char :: rest /\ enters inner.

Definition elements_ok (s rest : text) : Prop :=
  exists inner, s = inner ++ "]"%char :: rest /\ neutral inner.

(** The exceptions of the decoder other than [JSONDecodeError]. *)
Definition decoder_error (e : PyExc) : Prop :=
  (exists digits, e = digits_limit_error digits)
  \/ e = recursion_error (T "object") \/ e = recursion_error (T "array").

Section Extract.
Context {pyfloat : Type} {RT : Runtime pyfloat}.

(** What the loop gives from a brace on: the first object from there, or the
    exception of the first span on which [json.loads] raises one that is not
    caught, no object starting before that span. *)
Definition loop_result (s : text) (start : nat) (r : Outcome (option (PyVal pyfloat)))
  : Prop :=
  match r with
  | Returns found => found = first_some (objects_from s) (seq start (length s - start))
  | Raises e =>
    exists at_, start <= at_ < length s /\ attempt s at_ = Raises e /\
      first_some (objects_from s) (seq start (at_ - start)) = None
  end.

(** The embedded objects, found by looking at the opening braces only. *)
Definition object_tried (s : text) (start : nat) : option (PyVal pyfloat) :=
  match nth_error s start with
  | Some c =>
    if Ascii.eqb c "{"
    then match attempt s start with Returns found => found | Raises _ => None end
    else None
  | None => None
  end.

End Extract.

(** The literal of an integer of [digits] digits, as a member of an object
    that is no JSON, before a well-formed object. *)
Definition long_integer_reply (digits : nat) : text :=
  quote_marks "Answer: {'n': " ++ repeat "1"%char digits
  ++ quote_marks ", oops} {'final': 'done'}".

End LexSpec.

(** ** The shape of a tool result *)
Module ServerSpec.
Import McpServer.

(** The [status] of a result, when it is a mapping that has one. *)
Definition status_of {pyfloat : Type} (v : PyVal pyfloat) : option text :=
  match v with
  | PDict d =>
    match dict_get d (T "status") with
    | Some (PStr s) => Some s
    | _ => None
    end
  | _ => None
  end.

Definition has_field {pyfloat : Type} (v : PyVal pyfloat) (key : text) : bool :=
  match v with
  | PDict d => dict_has d key
  | _ => false
  end.

Definition has_error_message {pyfloat : Type} (v : PyVal pyfloat) : bool :=
  match v with
  | PDict d =>
    match dict_get d (T "error") with
    | Some (PStr _) => true
    | _ => false
    end
  | _ => false
  end.

(** A result with a status: [ok], or [error] with its message. *)
Definition status_result {pyfloat : Type} (v : PyVal pyfloat) : Prop :=
  status_of v = Some (T "ok")
  \/ (status_of v = Some (T "error") /\ has_error_message v = true).

(** The result of a process that ended with a return code other than zero:
    status [error], no message, the return code and the output instead. *)
Definition failed_process_result {pyfloat : Type} (v : PyVal pyfloat) : Prop :=
  status_of v = Some (T "error") /\ has_error_message v = false
  /\ has_field v (T "returncode") = true /\ has_field v (T "stdout") = true
  /\ has_field v (T "stderr") = true.

(** A host with neither [os.getloadavg] nor [/proc/uptime]. *)
Definition bare_host : Host text :=
  mkHost text (T "Windows-10") (T "Windows") (T "10") (T "3.11.4") (T "AMD64") (Some 8%Z)
    NoGetloadavg None.

End ServerSpec.

(** ** Runs of the dispatch loop *)
Module AgentSpec.
Import McpClient CliAgent.

Section Spec.
Context {pyfloat : Type} {RT : Runtime pyfloat}.

(** The computation adds events to the trace, all of them in [P]. *)
Definition emits_only {A : Type} (P : Event pyfloat -> Prop) (m : M pyfloat A) : Prop :=
  forall w, exists evs, trace (final (m w)) = trace w ++ evs /\ Forall P evs.

(** The computation does not touch the transcript. *)
Definition keeps_messages {A : Type} (m : M pyfloat A) : Prop :=
  forall w, messages (final (m w)) = messages w.

(** The computation returns or raises, and leaves the world as it was. *)
Definition leaves_world {A : Type} (m : M pyfloat A) : Prop :=
  forall w, (exists a, m w = Ok a w) \/ (exists e, m w = Err e w).

Definition is_terminal (ev : Event pyfloat) : Prop :=
  match ev with
  | EvPrint _ | EvInput _ => True
  | _ => False
  end.

Definition is_session (ev : Event pyfloat) : Prop :=
  match ev with
  | EvSession _ _ => True
  | _ => False
  end.

Definition not_chat (ev : Event pyfloat) : Prop :=
  match ev with
  | EvChat _ => False
  | _ => True
  end.

(** How the loop body reads a reply: the data, and whether the reply has
    been shown and logged already (it has when the data was extracted from
    the text around it); [None] when it gets no data from it. *)
Definition decode (reply : text) : option (PyVal pyfloat * bool) :=
  match json_loads reply with
  | Decoded data => Some (data, false)
  | DecodeError =>
    match _extract_json_object reply with
    | Returns (Some data) => Some (data, true)
    | _ => None
    end
  | OtherError _ => None
  end.

(** The exception with which reading the reply leaves the loop: one that
    [json.loads] raises, on the reply or on a span of it, and that is no
    [JSONDecodeError]. *)
Definition decode_failure (reply : text) : option PyExc :=
  match json_loads reply with
  | Decoded _ => None
  | DecodeError =>
    match _extract_json_object reply with
    | Raises e => Some e
    | Returns _ => None
    end
  | OtherError e => Some e
  end.

(** A reply that is no JSON and holds no object: plain text. *)
Definition plain_text (reply : text) : Prop :=
  json_loads reply = DecodeError /\ _extract_json_object reply = Returns None.

Definition shown (reply : text) (logged : bool) (w : World pyfloat) : World pyfloat :=
  if logged
  then record_message (assistant (PStr reply)) (record_event (EvPrint (T "assistant> " ++ reply)) w)
  else w.

(** The world once the model's call is in the transcript. *)
Definition call_logged (reply : text) (logged : bool) (w : World pyfloat) : World pyfloat :=
  if logged then shown reply true w else record_message (assistant (PStr reply)) w.

Definition in_table (tool_name : PyVal pyfloat) : bool :=
  match tool_name with
  | PStr name => match assoc name TOOL_MAP with Some _ => true | None => false end
  | _ => false
  end.


(** The world once a notice has been shown and appended. *)
Definition noticed (notice : text) (w : World pyfloat) : World pyfloat :=
  record_message (user notice) (record_event (EvPrint (T "assistant> " ++ notice)) w).

(** The world once the result of a tool has been shown and appended, [js]
    being what [json.dumps] writes for it. *)
Definition answered (name : text) (result : PyVal pyfloat) (js : text) (invoked : World pyfloat)
  : World pyfloat :=
  record_message (tool_result_message name js)
    (record_event (EvPrint (T "[tool:" ++ name ++ T "] " ++ display_of result)) invoked).



(** The text [json.dumps] writes for the result of a failed invocation. *)
Definition error_json (message : text) : text :=
  T "{" ++ encode_basestring (T "status") ++ T ": " ++ encode_basestring (T "error")
    ++ T ", " ++ encode_basestring (T "error") ++ T ": " ++ encode_basestring message ++ T "}".

End Spec.

(** A world with the system prompt and one user message in the transcript. *)
Definition start (typed : list text) (workers : list (Outcome (CallToolResult text)))
  : World text :=
  mkWorld [mkMessage (T "system") (PStr (T "You are a helpful assistant."));
           mkMessage (T "user") (PStr (T "what is in notes.txt?"))]
    [] (map Returns typed) workers.

Definition read_notes : text := quote_marks "{'tool': 'read_file', 'args': {'path': 'notes.txt'}}".

(** What the session raises when the worker is gone, and what the task
    groups make of it. *)
Definition broken_pipe : PyExc := mkExc (OtherException (T "BrokenResourceError")) [].




(** A call whose tool name is a list. *)
Definition list_name_call : text := quote_marks "{'tool': ['read_file'], 'args': {}}".

(** The scenario of the specification: the model asks for a port scan, the
    user confirms, the worker answers, the model concludes. *)
Definition scan_call : text :=
  quote_marks "{'tool':'scan_port','args':{'host':'example.com','port':80,'timeout':2.0}}".

Definition scan_answer : CallToolResult text :=
  mkResult false
    (Some (PDict [(T "status", PStr (T "ok")); (T "host", PStr (T "example.com"));
                  (T "port", PInt 80); (T "open", PBool true);
                  (T "latency", PFloat (T "0.1234"))]))
    [] PNone.

Definition scan_conclusion : text := quote_marks "{'final':'Port 80 is open.'}".





Definition read_notes_prompt : text :=
  T "Execute tool 'read_file' with args "
    ++ CliAgent._pretty (PDict [(T "path", PStr (T "notes.txt") : PyVal text)])
    ++ T "? [y/N]: ".




(** A call whose arguments are a string. *)
Definition string_args : text := quote_marks "{'tool': 'run_command', 'args': 'ls'}".

End AgentSpec.

(** ** What the operating system answers a worker *)
Module WorkerSpec.
Import McpServer.

(** An outcome that is a value or an exception of class [Exception]. *)
Definition recoverable {A : Type} (o : Outcome A) : Prop :=
  match o with
  | Returns _ => True
  | Raises e => is_Exception (exc_class e) = true
  end.

(** The bytes of one white-space character, in the order they are read,
    forwards or backwards. *)
Definition group (one : ascii -> bool) (two : ascii -> ascii -> bool)
  (three : ascii -> ascii -> ascii -> bool) (w : text) : Prop :=
  match w with
  | [a] => one a = true
  | [a; b] => two a b = true
  | [a; b; c] => three a b c = true
  | _ => False
  end.

(** The bytes of one white-space character. *)
Definition space_char (w : text) : Prop :=
  match w with
  | [a] => is_space a = true
  | [a; b] => wide_space2 a b = true
  | [a; b; c] => wide_space3 a b c = true
  | _ => False
  end.

(** A text of white-space characters only (the empty text is one). *)
Definition blank (s : text) : Prop :=
  exists spaces, s = concat spaces /\ Forall space_char spaces.

(** [U+00A0], the no-break space, and [U+2003], the em space, in UTF-8. *)
Definition no_break_space : text := map ascii_of_nat [194; 160].
Definition em_space : text := map ascii_of_nat [226; 128; 131].

(** The items of a mapping, when the value is one. *)
Definition items {pyfloat : Type} (v : PyVal pyfloat) : Dict pyfloat :=
  match v with
  | PDict d => d
  | _ => []
  end.

(** What a worker reports of a process that ran: the status, which is [ok]
    when the return code is zero and [error] otherwise, the return code, the
    two outputs without the white space around them, and the command. *)
Definition reports {pyfloat : Type} (d : Dict pyfloat) (proc : CompletedProcess) : Prop :=
  map fst d = [T "status"; T "returncode"; T "stdout"; T "stderr"; T "command"]
  /\ dict_get d (T "status")
     = Some (PStr (if (returncode proc =? 0)%Z then T "ok" else T "error"))
  /\ dict_get d (T "returncode") = Some (PInt (returncode proc))
  /\ dict_get d (T "stdout") = Some (PStr (strip (stdout proc)))
  /\ dict_get d (T "stderr") = Some (PStr (strip (stderr proc))).

(** The count and the timeout [ping_host] passes to [ping]. *)
Definition clamped_count (count : Z) : Z := Z.max 1 (Z.min count 10).
Definition clamped_wait (timeout : Z) : Z := Z.max 1 timeout.

End WorkerSpec.

(** ** What a run does to the world *)
Module RunSpec.
Import McpClient CliAgent.

Section Spec.
Context {pyfloat : Type} {RT : Runtime pyfloat}.

(** Every run of the computation takes a world to one related to it. *)
Definition steps {A : Type} (R : World pyfloat -> World pyfloat -> Prop) (m : M pyfloat A)
  : Prop :=
  forall w, R w (final (m w)).

Definition chat_role (m : Message pyfloat) : Prop :=
  role m = T "assistant" \/ role m = T "user".

(** The second world comes from the first by appending messages of the
    assistant and of the user to the transcript, adding events to the trace,
    and reading answers from the front of [stdin] and of [sessions]. *)
Definition grows (w w' : World pyfloat) : Prop :=
  (exists added, messages w' = messages w ++ added /\ Forall chat_role added)
  /\ (exists evs, trace w' = trace w ++ evs)
  /\ (exists read, stdin w = read ++ stdin w')
  /\ (exists used, sessions w = used ++ sessions w').

(** A line typed at the terminal that reads [y] or [yes]. *)
Definition says_yes (o : Outcome text) : bool :=
  match o with
  | Returns line => answers_yes (lower (strip line))
  | Raises _ => false
  end.

Definition opens_session (ev : Event pyfloat) : bool :=
  match ev with
  | EvSession _ _ => true
  | _ => false
  end.

Definition yes_count (typed : list (Outcome text)) : nat := length (filter says_yes typed).

Definition session_count (evs : list (Event pyfloat)) : nat :=
  length (filter opens_session evs).

(** The second world comes from the first by events and lines read, with
    no more worker sessions opened than [credit] and the lines that say yes. *)
Definition licensed (credit : nat) (w w' : World pyfloat) : Prop :=
  exists evs read,
    trace w' = trace w ++ evs
    /\ stdin w = read ++ stdin w'
    /\ session_count evs <= credit + yes_count read.

End Spec.

End RunSpec.

(** ** Turns of the dispatch loop, confirmations, calls *)
Module TurnSpec.
Import McpClient CliAgent.

Section Spec.
Context {pyfloat : Type} {RT : Runtime pyfloat}.

(** A line that is no answer to the confirmation prompt. *)
Definition unrecognised (line : text) : Prop :=
  answers_yes (lower (strip line)) = false /\ answers_no (lower (strip line)) = false.

(** The prompt of [_confirm_tool], given the preview. *)
Definition prompt_for (tool_name : text) (args : PyVal pyfloat) (preview : option text) : text :=
  match preview with
  | Some (c :: p) => T "Execute: " ++ (c :: p) ++ T "? [y/N]: "
  | _ => T "Execute tool '" ++ tool_name ++ T "' with args " ++ _pretty args ++ T "? [y/N]: "
  end.

(** What the terminal sees while the lines [skipped] are read: the prompt
    and the notice, once for each. *)
Definition reprompts (prompt : text) (skipped : list text) : list (Event pyfloat) :=
  flat_map (fun _ => [EvInput prompt; EvPrint (T "Please answer 'y' or 'n'.")]) skipped.

(** The world after the confirmation has been asked, [skipped] read, and
    the answer (or the end of input) met, [rest] being left on [stdin]. *)
Definition asked (prompt : text) (skipped : list text) (rest : list (Outcome text))
  (w : World pyfloat) : World pyfloat :=
  mkWorld (messages w) (trace w ++ reprompts prompt skipped ++ [EvInput prompt]) rest
    (sessions w).

(** Data that asks for no tool and gives no final answer. *)
Definition no_request (data : PyVal pyfloat) : Prop :=
  match data with
  | PDict d => dict_get d (T "tool") = None /\ dict_get d (T "final") = None
  | _ => True
  end.

(** The function of [mcp_client] a tool of the table stands for: its name
    and its parameters. *)
Definition function_name (tool : Tool) : text :=
  match tool with
  | ReadFile => T "read_file"
  | AppendLog => T "append_log"
  | RunCommand => T "run_command"
  | SystemInfo => T "system_info"
  | PingHost => T "ping_host"
  | ScanPort => T "scan_port"
  | SshCommand => T "ssh_command"
  end.

Definition signature_of (tool : Tool) : Signature :=
  match tool with
  | ReadFile => sig_read_file
  | AppendLog => sig_append_log
  | RunCommand => sig_run_command
  | SystemInfo => sig_system_info
  | PingHost => sig_ping_host
  | ScanPort => sig_scan_port
  | SshCommand => sig_ssh_command
  end.

Definition parameters (tool : Tool) : list text := map fst (signature_of tool).

(** The parameters without a default. *)
Definition required (tool : Tool) : list text :=
  map fst (filter (fun p => match snd p with None => true | Some _ => false end)
             (signature_of tool)).

End Spec.

End TurnSpec.

(** ** The interactive session *)
Module SessionSpec.
Import McpClient CliAgent CliMain.

Section Spec.
Context {pyfloat : Type} {RT : Runtime pyfloat}.

Definition banner : text := T "Interactive automation chat. Type 'exit' to quit.".

(** The first message of every transcript of [main]. *)
Definition system_message : Message pyfloat :=
  mkMessage (T "system") (PStr (strip SYSTEM_PROMPT)).

(** What the terminal sees while the blank lines [blanks] are read: the
    prompt, once for each. *)
Definition prompts (blanks : list text) : list (Event pyfloat) :=
  flat_map (fun _ => [EvInput (T "you> ")]) blanks.

(** The world when [main] has started, read the blank lines [blanks] and
    asked for the next line, [rest] being left on [stdin]. *)
Definition opened (blanks : list text) (rest : list (Outcome text)) (w : World pyfloat)
  : World pyfloat :=
  mkWorld [system_message]
    (trace w ++ EvPrint banner :: prompts blanks ++ [EvInput (T "you> ")])
    rest (sessions w).

End Spec.

End SessionSpec.

(** ** The log-monitoring agent *)
Module LogSpec.
Import McpClient LogAgent.

Section Spec.
Context {pyfloat : Type} {RT : Runtime pyfloat}.

(** What the agent of [agent.py] may do: print, ask the chat service with
    the system prompt and one user message, and open a session for
    [read_file] or for [append_log].  It never reads the terminal. *)
Definition allowed (ev : Event pyfloat) : Prop :=
  match ev with
  | EvPrint _ => True
  | EvChat sent => exists task, sent = request task
  | EvSession name _ => name = T "read_file" \/ name = T "append_log"
  | EvInput _ => False
  end.

Definition asking : text := newline :: chr 0x1F4E1 ++ T " Asking LLM..." ++ [newline].

(** The world after a request for [task] was answered by [reply]. *)
Definition answered (task reply : text) (w : World pyfloat) : World pyfloat :=
  mkWorld (messages w)
    (trace w ++ [EvPrint asking; EvChat (request task);
                 EvPrint (T "LLM Reply:" ++ [newline] ++ T " " ++ reply)])
    (stdin w) (sessions w).

(** The world after the [except] clause has printed the reply. *)
Definition gave_up (reply : text) (w : World pyfloat) : World pyfloat :=
  mkWorld (messages w)
    (trace w ++ [EvPrint (newline :: T "===== FINAL RAW OUTPUT =====" ++ [newline]);
                 EvPrint reply])
    (stdin w) (sessions w).

(** An object that asks for a tool the agent does not have, or that has
    neither a [tool] nor a [final] key. *)
Definition no_action (d : Dict pyfloat) : Prop :=
  match dict_get d (T "tool") with
  | Some name => equals_str name (T "read_file") = false
                 /\ equals_str name (T "append_log") = false
  | None => dict_get d (T "final") = None
  end.

End Spec.

(** A call the agent has no tool for, and the answer of a worker to
    [read_file]. *)
Definition list_files : text := quote_marks "{'tool': 'run_command', 'args': {'command': 'ls'}}".

Definition file_content : CallToolResult text :=
  mkResult false (Some (PDict [(T "content", PStr (T "hello"))])) [] PNone.

End LogSpec.

(* ================================================================== *)
(** * Text and the JSON decoder *)
(* ================================================================== *)

Module PyFacts.

Lemma text_eqb_spec (a b : text) : text_eqb a b = true <-> a = b.
Proof.
  revert b; induction a as [|x a IH]; intros [|y b]; simpl; try (split; congruence).
  rewrite andb_true_iff, Ascii.eqb_eq, IH. split.
  - intros [-> ->]; reflexivity.
  - intros H; injection H; auto.
Qed.

Lemma strip_prefix_app (p s r : text) : strip_prefix p s = Some r -> s = p ++ r.
Proof.
  revert s; induction p as [|x p IH]; intros s H; simpl in *.
  - congruence.
  - destruct s as [|y s]; [discriminate|].
    destruct (Ascii.eqb x y) eqn:E; [|discriminate].
    apply Ascii.eqb_eq in E; subst y. f_equal; auto.
Qed.

End PyFacts.

Module Lexing.
Import Interpreter LexSpec PyFacts.

Lemma neutral_nil : neutral [].
Proof. intros rest idx depth _; simpl; rewrite Nat.add_0_r; reflexivity. Qed.

Lemma neutral_app (a b : text) : neutral a -> neutral b -> neutral (a ++ b).
Proof.
  intros Ha Hb rest idx depth Hd.
  rewrite <- app_assoc, Ha, Hb by assumption.
  rewrite length_app, Nat.add_assoc; reflexivity.
Qed.

Lemma neutral_plain (c : ascii) : plain c = true -> neutral [c].
Proof.
  unfold plain; intros H rest idx depth _.
  apply andb_true_iff in H as [H H3]; apply andb_true_iff in H as [H1 H2].
  apply negb_true_iff in H1, H2, H3.
  simpl; rewrite H1, H2, H3. f_equal; lia.
Qed.

Lemma neutral_all_plain (cs : text) : forallb plain cs = true -> neutral cs.
Proof.
  induction cs as [|c cs IH]; simpl; intros H.
  - apply neutral_nil.
  - apply andb_true_iff in H as [Hc Hcs].
    change (c :: cs) with ([c] ++ cs). apply neutral_app; auto using neutral_plain.
Qed.

Lemma closes_enters (cs : text) : closes cs -> enters cs.
Proof. intros H rest idx depth _; apply H. Qed.

Lemma enters_app (a b : text) : enters a -> neutral b -> enters (a ++ b).
Proof.
  intros Ha Hb rest idx depth Hd.
  rewrite <- app_assoc, Ha, Hb by assumption.
  rewrite length_app, Nat.add_assoc; reflexivity.
Qed.

Lemma closes_quote : closes [dquote].
Proof. intros rest idx depth; simpl. f_equal; lia. Qed.

Lemma closes_char (c : ascii) (cs : text) :
  Ascii.eqb c dquote = false -> Ascii.eqb c backslash = false ->
  closes cs -> closes (c :: cs).
Proof.
  intros H1 H2 H rest idx depth; simpl. rewrite H1, H2, H. f_equal; lia.
Qed.

Lemma closes_escape (x : ascii) (cs : text) : closes cs -> closes (backslash :: x :: cs).
Proof.
  intros H rest idx depth; simpl. rewrite H. f_equal; lia.
Qed.

Lemma neutral_string (cs : text) : enters cs -> neutral (dquote :: cs).
Proof.
  intros H rest idx depth Hd; simpl. rewrite H by assumption. f_equal; lia.
Qed.

Lemma neutral_object (inner : text) :
  neutral inner -> neutral ("{"%char :: inner ++ ["}"%char]).
Proof.
  intros H rest idx depth Hd; simpl.
  rewrite <- app_assoc, H by lia. simpl.
  replace (depth + 1 - 1 =? 0)%Z with false by (symmetry; apply Z.eqb_neq; lia).
  rewrite length_app; simpl. f_equal; lia.
Qed.

Lemma object_hit (inner rest : text) (idx : nat) :
  neutral inner ->
  scan_span (("{"%char :: inner ++ ["}"%char]) ++ rest) idx 0 false false
  = Some (idx + S (length inner)).
Proof.
  intros H; simpl. rewrite <- app_assoc, H by lia. simpl. f_equal; lia.
Qed.

Lemma is_ws_plain (c : ascii) : is_ws c = true -> plain c = true.
Proof.
  unfold is_ws; intros H.
  repeat (apply orb_true_iff in H as [H|H]); apply Ascii.eqb_eq in H; subst c; reflexivity.
Qed.

Lemma skip_ws_split (s : text) :
  exists w, s = w ++ skip_ws s /\ forallb is_ws w = true.
Proof.
  induction s as [|c s [w [Hs Hw]]]; simpl.
  - exists []; auto.
  - destruct (is_ws c) eqn:E.
    + exists (c :: w); simpl; rewrite E, Hw; split; [f_equal; exact Hs | reflexivity].
    + exists []; auto.
Qed.

Lemma all_ws_neutral (w : text) : forallb is_ws w = true -> neutral w.
Proof.
  intros H; apply neutral_all_plain.
  rewrite forallb_forall in *; intros c Hc; apply is_ws_plain; auto.
Qed.

Lemma skip_ws_neutral (s r : text) :
  skip_ws s = r -> exists w, s = w ++ r /\ neutral w.
Proof.
  intros <-; destruct (skip_ws_split s) as [w [Hs Hw]].
  exists w; split; [exact Hs | apply all_ws_neutral; exact Hw].
Qed.

Lemma hex_val_char (c : ascii) (n : N) :
  hex_val c = Some n -> Ascii.eqb c dquote = false /\ Ascii.eqb c backslash = false.
Proof.
  intros H; split; apply Ascii.eqb_neq; intros ->; vm_compute in H; discriminate.
Qed.

Lemma hex4_closes (a b c d : ascii) (n : N) (cs : text) :
  hex4 a b c d = Some n -> closes cs -> closes (a :: b :: c :: d :: cs).
Proof.
  unfold hex4; intros H Hcs.
  destruct (hex_val a) eqn:Ea; [|discriminate].
  destruct (hex_val b) eqn:Eb; [|discriminate].
  destruct (hex_val c) eqn:Ec; [|discriminate].
  destruct (hex_val d) eqn:Ed; [|discriminate].
  apply hex_val_char in Ea as [? ?], Eb as [? ?], Ec as [? ?], Ed as [? ?].
  repeat apply closes_char; assumption.
Qed.

Lemma cons_str_some (pre : text) (r : option (text * text)) (str rest : text) :
  cons_str pre r = Some (str, rest) -> exists str', r = Some (str', rest).
Proof.
  destruct r as [[s' r']|]; simpl; intros H; [|discriminate].
  injection H as _ <-; eauto.
Qed.

Lemma scanstring_closes_len (n : nat) :
  forall s str rest, length s <= n -> scanstring s = Some (str, rest) ->
  exists cs, s = cs ++ rest /\ closes cs.
Proof.
  induction n as [|n IH]; intros s str rest Hlen H.
  - destruct s; [discriminate | simpl in Hlen; lia].
  - destruct s as [|c r]; [discriminate|]. simpl in Hlen.
    cbn [scanstring] in H.
    destruct (Ascii.eqb c dquote) eqn:Eq.
    { injection H as _ <-. apply Ascii.eqb_eq in Eq; subst c.
      exists [dquote]; split; [reflexivity | apply closes_quote]. }
    destruct (Ascii.eqb c backslash) eqn:Eb.
    { apply Ascii.eqb_eq in Eb; subst c.
      destruct r as [|esc r1]; [discriminate|].
      destruct (Ascii.eqb esc "u") eqn:Eu.
      - destruct r1 as [|h1 [|h2 [|h3 [|h4 r2]]]]; try discriminate.
        destruct (hex4 h1 h2 h3 h4) as [uni|] eqn:Eh; [|discriminate].
        assert (Hsingle : cons_str (chr uni) (scanstring r2) = Some (str, rest) ->
                  exists cs, backslash :: esc :: h1 :: h2 :: h3 :: h4 :: r2 = cs ++ rest /\ closes cs).
        { intros Hs. apply cons_str_some in Hs as [str' Hs].
          apply IH in Hs as [cs [-> Hcs]]; [|simpl in Hlen; lia].
          exists (backslash :: esc :: h1 :: h2 :: h3 :: h4 :: cs); split; [reflexivity|].
          apply closes_escape. eapply hex4_closes; eauto. }
        destruct ((0xd800 <=? uni)%N && (uni <=? 0xdbff)%N); [|auto].
        destruct r2 as [|b [|u r3]]; auto.
        destruct (Ascii.eqb b backslash && Ascii.eqb u "u") eqn:Ebu; [|auto].
        apply andb_true_iff in Ebu as [Eb' Eu']. apply Ascii.eqb_eq in Eb'; subst b.
        destruct r3 as [|g1 [|g2 [|g3 [|g4 r4]]]]; try discriminate.
        destruct (hex4 g1 g2 g3 g4) as [uni2|] eqn:Eg; [|discriminate].
        destruct ((0xdc00 <=? uni2)%N && (uni2 <=? 0xdfff)%N); [|auto].
        apply cons_str_some in H as [str' Hs].
        apply IH in Hs as [cs [-> Hcs]]; [|simpl in Hlen; lia].
        exists (backslash :: esc :: h1 :: h2 :: h3 :: h4 :: backslash :: u :: g1 :: g2 :: g3 :: g4 :: cs).
        split; [reflexivity|].
        apply closes_escape. eapply hex4_closes; eauto.
        apply closes_escape. eapply hex4_closes; eauto.
      - destruct (unescape esc); [|discriminate].
        apply cons_str_some in H as [str' Hs].
        apply IH in Hs as [cs [-> Hcs]]; [|simpl in Hlen; lia].
        exists (backslash :: esc :: cs); split; [reflexivity | apply closes_escape; exact Hcs]. }
    destruct (is_control c); [discriminate|].
    apply cons_str_some in H as [str' Hs].
    apply IH in Hs as [cs [-> Hcs]]; [|lia].
    exists (c :: cs); split; [reflexivity | apply closes_char; assumption].
Qed.

Lemma scanstring_closes (s str rest : text) :
  scanstring s = Some (str, rest) -> exists cs, s = cs ++ rest /\ closes cs.
Proof. apply (scanstring_closes_len (length s)); lia. Qed.

Lemma is_digit_plain (c : ascii) : is_digit c = true -> plain c = true.
Proof.
  destruct c as [[] [] [] [] [] [] [] []]; vm_compute; intros H; congruence.
Qed.

Lemma take_digits_split (s ds rest : text) :
  take_digits s = (ds, rest) -> s = ds ++ rest /\ forallb plain ds = true.
Proof.
  revert ds rest; induction s as [|c s IH]; simpl; intros ds rest H.
  - injection H as <- <-; auto.
  - destruct (is_digit c) eqn:E.
    + destruct (take_digits s) as [ds' rest'] eqn:Et.
      injection H as <- <-. destruct (IH _ _ eq_refl) as [-> Hp].
      simpl; rewrite Hp, (is_digit_plain _ E); auto.
    + injection H as <- <-; auto.
Qed.

Lemma match_integer_split (s i rest : text) :
  match_integer s = Some (i, rest) ->
  s = i ++ rest /\ forallb plain i = true /\ i <> [].
Proof.
  unfold match_integer; intros H.
  assert (Hgen : forall sign s1, forallb plain sign = true ->
    match s1 with
    | [] => None
    | c :: r =>
      if Ascii.eqb c "0" then Some (sign ++ [c], r)
      else if is_digit c then let (ds, rest0) := take_digits r in Some (sign ++ c :: ds, rest0)
      else None
    end = Some (i, rest) ->
    sign ++ s1 = i ++ rest /\ forallb plain i = true /\ i <> []).
  { intros sign s1 Hsign H1. destruct s1 as [|c r]; [discriminate|].
    destruct (Ascii.eqb c "0") eqn:E0.
    - injection H1 as <- <-. apply Ascii.eqb_eq in E0; subst c.
      rewrite <- app_assoc, forallb_app, Hsign; simpl.
      repeat split; auto. destruct sign; discriminate.
    - destruct (is_digit c) eqn:Ed; [|discriminate].
      destruct (take_digits r) as [ds rest0] eqn:Et. injection H1 as <- <-.
      apply take_digits_split in Et as [-> Hp].
      rewrite <- app_assoc, forallb_app, Hsign; simpl.
      rewrite (is_digit_plain _ Ed), Hp.
      repeat split; auto. destruct sign; discriminate. }
  destruct s as [|c r].
  - apply (Hgen [] []) in H; auto.
  - destruct (Ascii.eqb c "-") eqn:Em.
    + apply Ascii.eqb_eq in Em; subst c. apply (Hgen ["-"%char] r) in H; auto.
    + apply (Hgen [] (c :: r)) in H; auto.
Qed.

Lemma match_frac_split (s f rest : text) :
  match_frac s = (f, rest) -> s = f ++ rest /\ forallb plain f = true.
Proof.
  unfold match_frac; intros H. destruct s as [|c r].
  - injection H as <- <-; auto.
  - destruct (Ascii.eqb c ".") eqn:E.
    + apply Ascii.eqb_eq in E; subst c.
      destruct (take_digits r) as [ds rest0] eqn:Et.
      apply take_digits_split in Et as [-> Hp].
      destruct ds; injection H as <- <-; auto.
    + injection H as <- <-; auto.
Qed.

Lemma match_exp_split (s e rest : text) :
  match_exp s = (e, rest) -> s = e ++ rest /\ forallb plain e = true.
Proof.
  unfold match_exp; intros H. destruct s as [|c r].
  - injection H as <- <-; auto.
  - destruct (Ascii.eqb c "e" || Ascii.eqb c "E") eqn:E.
    + assert (Hc : plain c = true).
      { apply orb_true_iff in E as [E|E]; apply Ascii.eqb_eq in E; subst c; reflexivity. }
      destruct r as [|d r'].
      * simpl in H. injection H as <- <-; auto.
      * destruct (Ascii.eqb d "-" || Ascii.eqb d "+") eqn:Es.
        -- assert (Hd : plain d = true).
           { apply orb_true_iff in Es as [Es|Es]; apply Ascii.eqb_eq in Es; subst d; reflexivity. }
           destruct (take_digits r') as [ds rest0] eqn:Et.
           apply take_digits_split in Et as [-> Hp].
           destruct ds; injection H as <- <-; auto.
           simpl in *. rewrite Hc, Hd. auto.
        -- destruct (take_digits (d :: r')) as [ds rest0] eqn:Et.
           apply take_digits_split in Et as [Heq Hp].
           destruct ds; injection H as <- <-; auto.
           simpl in *. rewrite Hc. rewrite Heq. auto.
    + injection H as <- <-; auto.
Qed.

Ltac by_prefix H E :=
  injection H as _ <-; apply strip_prefix_app in E;
  eexists; repeat split; [exact E | reflexivity | discriminate].

Lemma decoder_error_class (e : PyExc) :
  decoder_error e -> is_Exception (exc_class e) = true /\ exc_class e <> JSONDecodeError.
Proof.
  intros [[digits ->]|[->| ->]]; split; try reflexivity; discriminate.
Qed.

Section Lex.
Context {pyfloat : Type} {RT : Runtime pyfloat}.

Lemma match_number_split (s : text) (v : PyVal pyfloat) (rest : text) :
  match_number s = Parsed v rest ->
  exists cs, s = cs ++ rest /\ forallb plain cs = true /\ cs <> [].
Proof.
  unfold match_number; intros H.
  destruct (match_integer s) as [[i r1]|] eqn:Ei; [|discriminate].
  destruct (match_frac r1) as [f r2] eqn:Ef.
  destruct (match_exp r2) as [e r3] eqn:Ee.
  destruct (number_value i f e) as [v'|e']; [|discriminate].
  injection H as _ <-.
  apply match_integer_split in Ei as [-> [Hi Hne]].
  apply match_frac_split in Ef as [-> Hf].
  apply match_exp_split in Ee as [-> He].
  exists (i ++ f ++ e); repeat split.
  - repeat rewrite <- app_assoc; reflexivity.
  - repeat rewrite forallb_app; rewrite Hi, Hf, He; reflexivity.
  - destruct i; [congruence | discriminate].
Qed.

Lemma scan_constant_split (s : text) (v : PyVal pyfloat) (rest : text) :
  scan_constant s = Parsed v rest ->
  exists cs, s = cs ++ rest /\ forallb plain cs = true /\ cs <> [].
Proof.
  unfold scan_constant; intros H.
  destruct (strip_prefix (T "null") s) eqn:E1; [by_prefix H E1|].
  destruct (strip_prefix (T "true") s) eqn:E2; [by_prefix H E2|].
  destruct (strip_prefix (T "false") s) eqn:E3; [by_prefix H E3|].
  assert (Hconst :
    match strip_prefix (T "NaN") s with
    | Some r => Parsed (PFloat (float_of_literal (T "NaN"))) r
    | None =>
      match strip_prefix (T "Infinity") s with
      | Some r => Parsed (PFloat (float_of_literal (T "Infinity"))) r
      | None =>
        match strip_prefix (T "-Infinity") s with
        | Some r => Parsed (PFloat (float_of_literal (T "-Infinity"))) r
        | None => Malformed
        end
      end
    end = Parsed v rest ->
    exists cs, s = cs ++ rest /\ forallb plain cs = true /\ cs <> []).
  { intros H'.
    destruct (strip_prefix (T "NaN") s) eqn:E5; [by_prefix H' E5|].
    destruct (strip_prefix (T "Infinity") s) eqn:E6; [by_prefix H' E6|].
    destruct (strip_prefix (T "-Infinity") s) eqn:E7; [by_prefix H' E7|].
    discriminate. }
  destruct (match_number s) as [v' r'|  |e|] eqn:E4; auto.
  - injection H as <- <-; eapply match_number_split; eauto.
  - discriminate.
Qed.

(** The decoder fails with a [ValueError] for a literal of too many digits
    or a [RecursionError], and with nothing else. *)
Lemma scan_constant_failed (s : text) (e : PyExc) :
  scan_constant (pyfloat := pyfloat) s = Failed e -> decoder_error e.
Proof.
  unfold scan_constant; intros H.
  destruct (strip_prefix (T "null") s); [discriminate|].
  destruct (strip_prefix (T "true") s); [discriminate|].
  destruct (strip_prefix (T "false") s); [discriminate|].
  destruct (match_number s) as [v' r'|  |e'|] eqn:E4; try discriminate.
  - destruct (strip_prefix (T "NaN") s); [discriminate|].
    destruct (strip_prefix (T "Infinity") s); [discriminate|].
    destruct (strip_prefix (T "-Infinity") s); discriminate.
  - injection H as ->. unfold match_number in E4.
    destruct (match_integer s) as [[i r1]|]; [|discriminate].
    destruct (match_frac r1) as [f r2]. destruct (match_exp r2) as [x r3].
    unfold number_value in E4.
    destruct f; [destruct x|]; try discriminate.
    destruct (int_max_str_digits <? int_digits i); [|discriminate].
    injection E4 as <-. left. eexists; reflexivity.
  - destruct (strip_prefix (T "NaN") s); [discriminate|].
    destruct (strip_prefix (T "Infinity") s); [discriminate|].
    destruct (strip_prefix (T "-Infinity") s); discriminate.
Qed.

Lemma value_ok_plain (s cs rest : text) (c : ascii) (r : text) :
  s = c :: r -> Ascii.eqb c "{" = false ->
  s = cs ++ rest -> neutral cs -> cs <> [] -> value_ok s rest.
Proof.
  intros Hs Hc Heq Hn Hne. exists cs; repeat split; auto.
  intros r' Hr. rewrite Hs in Hr. injection Hr as -> _. discriminate.
Qed.

Lemma neutral_cons (c : ascii) (cs : text) : plain c = true -> neutral cs -> neutral (c :: cs).
Proof.
  intros Hc Hcs. change (c :: cs) with ([c] ++ cs).
  apply neutral_app; auto using neutral_plain.
Qed.

Lemma parse_lex (fuel : nat) :
  (forall room s v rest, parse_value fuel room s = Parsed v rest -> value_ok s rest) /\
  (forall room s pairs v rest,
     parse_members fuel room s pairs = Parsed v rest -> members_ok s rest) /\
  (forall room s values v rest,
     parse_elements fuel room s values = Parsed v rest -> elements_ok s rest).
Proof.
  induction fuel as [|f [IHv [IHm IHe]]].
  { repeat split; intros; discriminate. }
  repeat split.
  - (* parse_value *)
    intros room s v rest H. simpl in H.
    destruct s as [|c r]; [discriminate|].
    destruct (Ascii.eqb c dquote) eqn:Eq.
    { destruct (scanstring r) as [[str rest']|] eqn:Es; [|discriminate].
      injection H as _ <-. apply scanstring_closes in Es as [cs [-> Hcs]].
      apply Ascii.eqb_eq in Eq; subst c.
      eapply value_ok_plain with (cs := dquote :: cs); try reflexivity; try discriminate.
      apply neutral_string, closes_enters, Hcs. }
    destruct (Ascii.eqb c "{") eqn:Eo.
    { apply Ascii.eqb_eq in Eo; subst c.
      destruct room as [|inside]; [discriminate|].
      destruct (skip_ws r) as [|d r1] eqn:Ew; [discriminate|].
      apply skip_ws_neutral in Ew as [w [-> Hw]].
      destruct (Ascii.eqb d "}") eqn:Ec.
      - injection H as _ <-. apply Ascii.eqb_eq in Ec; subst d.
        exists ("{"%char :: w ++ ["}"%char]); repeat split.
        + simpl; rewrite <- app_assoc; reflexivity.
        + apply neutral_object, Hw.
        + discriminate.
        + intros r' _; exists w; auto.
      - destruct (Ascii.eqb d dquote) eqn:Ed; [|discriminate].
        apply Ascii.eqb_eq in Ed; subst d.
        apply IHm in H as [inner [-> Hin]].
        assert (Hn : neutral (w ++ dquote :: inner)).
        { apply neutral_app; [exact Hw | apply neutral_string, Hin]. }
        exists ("{"%char :: (w ++ dquote :: inner) ++ ["}"%char]); repeat split.
        + simpl; repeat rewrite <- app_assoc; reflexivity.
        + apply neutral_object, Hn.
        + discriminate.
        + intros r' _; exists (w ++ dquote :: inner); auto. }
    destruct (Ascii.eqb c "[") eqn:Ea.
    { apply Ascii.eqb_eq in Ea; subst c.
      destruct room as [|inside]; [discriminate|].
      destruct (skip_ws r) as [|d r1] eqn:Ew; [discriminate|].
      apply skip_ws_neutral in Ew as [w [-> Hw]].
      destruct (Ascii.eqb d "]") eqn:Ec.
      - injection H as _ <-. apply Ascii.eqb_eq in Ec; subst d.
        eapply value_ok_plain with (cs := "["%char :: w ++ ["]"%char]); try reflexivity.
        + simpl; rewrite <- app_assoc; reflexivity.
        + apply neutral_cons; [reflexivity|].
          apply neutral_app; [exact Hw | apply neutral_plain; reflexivity].
        + discriminate.
      - apply IHe in H as [inner [Heq Hin]].
        eapply value_ok_plain with (cs := "["%char :: w ++ inner ++ ["]"%char]); try reflexivity.
        + simpl; rewrite Heq; repeat rewrite <- app_assoc; reflexivity.
        + apply neutral_cons; [reflexivity|].
          repeat apply neutral_app; auto. apply neutral_plain; reflexivity.
        + discriminate. }
    apply scan_constant_split in H as [cs [Heq [Hp Hne]]].
    eapply value_ok_plain; eauto using neutral_all_plain.
  - (* parse_members *)
    intros room s pairs v rest H. simpl in H.
    destruct (scanstring s) as [[key s1]|] eqn:Es; [|discriminate].
    apply scanstring_closes in Es as [k [-> Hk]].
    destruct (skip_ws s1) as [|c s2] eqn:Ew1; [discriminate|].
    apply skip_ws_neutral in Ew1 as [w1 [-> Hw1]].
    destruct (Ascii.eqb c ":") eqn:Ec; [|discriminate].
    apply Ascii.eqb_eq in Ec; subst c.
    destruct (parse_value f room (skip_ws s2)) as [v1 s3| | |] eqn:Ev; try discriminate.
    apply IHv in Ev as [cv [Hcv [Hnv _]]].
    destruct (skip_ws_neutral s2 _ eq_refl) as [w2 [Hs2 Hw2]].
    rewrite Hcv in Hs2. clear Hcv.
    destruct (skip_ws s3) as [|d s4] eqn:Ew3; [discriminate|].
    apply skip_ws_neutral in Ew3 as [w3 [-> Hw3]].
    assert (Hpre : enters (k ++ w1 ++ [":"%char] ++ w2 ++ cv ++ w3)).
    { apply enters_app; [apply closes_enters, Hk|].
      repeat apply neutral_app; auto. apply neutral_plain; reflexivity. }
    destruct (Ascii.eqb d "}") eqn:Ed.
    + injection H as _ <-. apply Ascii.eqb_eq in Ed; subst d.
      exists (k ++ w1 ++ [":"%char] ++ w2 ++ cv ++ w3); split; [|exact Hpre].
      rewrite Hs2; repeat (rewrite <- app_assoc; simpl); reflexivity.
    + destruct (Ascii.eqb d ",") eqn:Ecm; [|discriminate].
      apply Ascii.eqb_eq in Ecm; subst d.
      destruct (skip_ws s4) as [|q s5] eqn:Ew4; [discriminate|].
      apply skip_ws_neutral in Ew4 as [w4 [-> Hw4]].
      destruct (Ascii.eqb q dquote) eqn:Eq; [|discriminate].
      apply Ascii.eqb_eq in Eq; subst q.
      apply IHm in H as [inner [-> Hin]].
      exists ((k ++ w1 ++ [":"%char] ++ w2 ++ cv ++ w3) ++ [","%char] ++ w4 ++ dquote :: inner).
      split.
      * rewrite Hs2; repeat (rewrite <- app_assoc; simpl); reflexivity.
      * apply enters_app; [exact Hpre|].
        repeat apply neutral_app; auto; [apply neutral_plain; reflexivity|].
        apply neutral_string, Hin.
  - (* parse_elements *)
    intros room s values v rest H. simpl in H.
    destruct (parse_value f room s) as [v1 s1| | |] eqn:Ev; try discriminate.
    apply IHv in Ev as [cv [-> [Hnv _]]].
    destruct (skip_ws s1) as [|d s2] eqn:Ew1; [discriminate|].
    apply skip_ws_neutral in Ew1 as [w1 [-> Hw1]].
    destruct (Ascii.eqb d "]") eqn:Ed.
    + injection H as _ <-. apply Ascii.eqb_eq in Ed; subst d.
      exists (cv ++ w1); split; [repeat rewrite <- app_assoc; reflexivity|].
      apply neutral_app; auto.
    + destruct (Ascii.eqb d ",") eqn:Ecm; [|discriminate].
      apply Ascii.eqb_eq in Ecm; subst d.
      apply IHe in H as [inner [Heq Hin]].
      destruct (skip_ws_neutral s2 _ eq_refl) as [w2 [Hs2 Hw2]].
      exists (cv ++ w1 ++ [","%char] ++ w2 ++ inner); split.
      * rewrite Hs2, Heq; repeat (rewrite <- app_assoc; simpl); reflexivity.
      * repeat apply neutral_app; auto. apply neutral_plain; reflexivity.
Qed.

End Lex.

(** ** The parser never runs out of fuel *)

Lemma skip_ws_length (s : text) : length (skip_ws s) <= length s.
Proof.
  destruct (skip_ws_split s) as [w [Hs _]].
  rewrite Hs at 2. rewrite length_app; lia.
Qed.

Lemma skip_ws_cons_length (s : text) (c : ascii) (r : text) :
  skip_ws s = c :: r -> length r < length s.
Proof. intros H; pose proof (skip_ws_length s) as L; rewrite H in L; simpl in L; lia. Qed.

Lemma closes_nonempty (cs : text) : closes cs -> cs <> [].
Proof.
  intros H ->. specialize (H ["}"%char] 0 1%Z). simpl in H. discriminate.
Qed.

Lemma scanstring_length (s str rest : text) :
  scanstring s = Some (str, rest) -> length rest < length s.
Proof.
  intros H; apply scanstring_closes in H as [cs [-> Hcs]].
  apply closes_nonempty in Hcs. rewrite length_app. destruct cs; [congruence | simpl; lia].
Qed.

Section Fuel.
Context {pyfloat : Type} {RT : Runtime pyfloat}.

Lemma parse_value_length (f room : nat) (s : text) (v : PyVal pyfloat) (rest : text) :
  parse_value f room s = Parsed v rest -> length rest < length s.
Proof.
  intros H; apply (proj1 (parse_lex f)) in H as [cs [-> [_ [Hne _]]]].
  rewrite length_app. destruct cs; [congruence | simpl; lia].
Qed.

Lemma scan_constant_fuel (s : text) : scan_constant (pyfloat := pyfloat) s <> NoFuel.
Proof.
  unfold scan_constant.
  destruct (strip_prefix (T "null") s); [discriminate|].
  destruct (strip_prefix (T "true") s); [discriminate|].
  destruct (strip_prefix (T "false") s); [discriminate|].
  destruct (match_number s); try discriminate;
    (destruct (strip_prefix (T "NaN") s); [discriminate|];
     destruct (strip_prefix (T "Infinity") s); [discriminate|];
     destruct (strip_prefix (T "-Infinity") s); discriminate).
Qed.

Lemma parse_fuel (fuel : nat) :
  (forall room s, 2 * length s < fuel -> parse_value fuel room s <> NoFuel) /\
  (forall room s pairs, 2 * length s < fuel -> parse_members fuel room s pairs <> NoFuel) /\
  (forall room s values,
     2 * length s + 1 < fuel -> parse_elements fuel room s values <> NoFuel).
Proof.
  induction fuel as [|f [IHv [IHm IHe]]].
  { repeat split; intros; lia. }
  repeat split.
  - intros room s Hlen. simpl.
    destruct s as [|c r]; [discriminate|]. simpl in Hlen.
    destruct (Ascii.eqb c dquote).
    { destruct (scanstring r) as [[? ?]|]; discriminate. }
    destruct (Ascii.eqb c "{").
    { destruct room as [|inside]; [discriminate|].
      destruct (skip_ws r) as [|d r1] eqn:Ew; [discriminate|].
      apply skip_ws_cons_length in Ew.
      destruct (Ascii.eqb d "}"); [discriminate|].
      destruct (Ascii.eqb d dquote); [|discriminate].
      apply IHm; lia. }
    destruct (Ascii.eqb c "[").
    { destruct room as [|inside]; [discriminate|].
      destruct (skip_ws r) as [|d r1] eqn:Ew; [discriminate|].
      apply skip_ws_cons_length in Ew.
      destruct (Ascii.eqb d "]"); [discriminate|].
      apply IHe; simpl; lia. }
    apply scan_constant_fuel.
  - intros room s pairs Hlen. simpl.
    destruct (scanstring s) as [[key s1]|] eqn:Es; [|discriminate].
    apply scanstring_length in Es.
    destruct (skip_ws s1) as [|c s2] eqn:Ew1; [discriminate|].
    apply skip_ws_cons_length in Ew1.
    destruct (Ascii.eqb c ":"); [|discriminate].
    pose proof (skip_ws_length s2) as L2.
    destruct (parse_value f room (skip_ws s2)) as [v1 s3| | |] eqn:Ev; try discriminate.
    + apply parse_value_length in Ev.
      destruct (skip_ws s3) as [|d s4] eqn:Ew3; [discriminate|].
      apply skip_ws_cons_length in Ew3.
      destruct (Ascii.eqb d "}"); [discriminate|].
      destruct (Ascii.eqb d ","); [|discriminate].
      destruct (skip_ws s4) as [|q s5] eqn:Ew4; [discriminate|].
      apply skip_ws_cons_length in Ew4.
      destruct (Ascii.eqb q dquote); [|discriminate].
      apply IHm; lia.
    + exfalso; apply (IHv room (skip_ws s2)); [lia | exact Ev].
  - intros room s values Hlen. simpl.
    destruct (parse_value f room s) as [v1 s1| | |] eqn:Ev; try discriminate.
    + apply parse_value_length in Ev.
      destruct (skip_ws s1) as [|d s2] eqn:Ew1; [discriminate|].
      apply skip_ws_cons_length in Ew1.
      destruct (Ascii.eqb d "]"); [discriminate|].
      destruct (Ascii.eqb d ","); [|discriminate].
      pose proof (skip_ws_length s2) as L2.
      apply IHe; lia.
    + exfalso; apply (IHv room s); [lia | exact Ev].
Qed.

(** [json_loads] gives the parser enough fuel: a [DecodeError] is a
    malformed text. *)
Lemma json_loads_fuel (s : text) :
  parse_value (S (2 * length s)) decoder_depth (skip_ws s) <> NoFuel.
Proof.
  apply (proj1 (parse_fuel _)). pose proof (skip_ws_length s); lia.
Qed.

Lemma parse_failed (fuel : nat) :
  (forall room s e, parse_value fuel room s = Failed e -> decoder_error e) /\
  (forall room s pairs e, parse_members fuel room s pairs = Failed e -> decoder_error e) /\
  (forall room s values e, parse_elements fuel room s values = Failed e -> decoder_error e).
Proof.
  induction fuel as [|f [IHv [IHm IHe]]].
  { repeat split; intros; discriminate. }
  repeat split.
  - intros room s e H. simpl in H.
    destruct s as [|c r]; [discriminate|].
    destruct (Ascii.eqb c dquote).
    { destruct (scanstring r) as [[? ?]|]; discriminate. }
    destruct (Ascii.eqb c "{").
    { destruct room as [|inside]; [injection H as <-; right; left; reflexivity|].
      destruct (skip_ws r) as [|d r1]; [discriminate|].
      destruct (Ascii.eqb d "}"); [discriminate|].
      destruct (Ascii.eqb d dquote); [|discriminate].
      eapply IHm; exact H. }
    destruct (Ascii.eqb c "[").
    { destruct room as [|inside]; [injection H as <-; right; right; reflexivity|].
      destruct (skip_ws r) as [|d r1]; [discriminate|].
      destruct (Ascii.eqb d "]"); [discriminate|].
      eapply IHe; exact H. }
    eapply scan_constant_failed; exact H.
  - intros room s pairs e H. simpl in H.
    destruct (scanstring s) as [[key s1]|]; [|discriminate].
    destruct (skip_ws s1) as [|c s2]; [discriminate|].
    destruct (Ascii.eqb c ":"); [|discriminate].
    destruct (parse_value f room (skip_ws s2)) as [v1 s3| |e1|] eqn:Ev; try discriminate.
    + destruct (skip_ws s3) as [|d s4]; [discriminate|].
      destruct (Ascii.eqb d "}"); [discriminate|].
      destruct (Ascii.eqb d ","); [|discriminate].
      destruct (skip_ws s4) as [|q s5]; [discriminate|].
      destruct (Ascii.eqb q dquote); [|discriminate].
      eapply IHm; exact H.
    + injection H as <-. eapply IHv; exact Ev.
  - intros room s values e H. simpl in H.
    destruct (parse_value f room s) as [v1 s1| |e1|] eqn:Ev; try discriminate.
    + destruct (skip_ws s1) as [|d s2]; [discriminate|].
      destruct (Ascii.eqb d "]"); [discriminate|].
      destruct (Ascii.eqb d ","); [|discriminate].
      eapply IHe; exact H.
    + injection H as <-. eapply IHv; exact Ev.
Qed.

(** What [json.loads] raises besides [JSONDecodeError] is of class
    [Exception]. *)
Lemma json_loads_error (s : text) (e : PyExc) :
  json_loads (pyfloat := pyfloat) s = OtherError e -> decoder_error e.
Proof.
  unfold json_loads. intros H.
  destruct (parse_value (S (2 * length s)) decoder_depth (skip_ws s)) as [v rest| |e'|] eqn:Ep;
    try discriminate.
  - destruct (skip_ws rest); discriminate.
  - injection H as <-. eapply (proj1 (parse_failed _)); exact Ep.
Qed.

End Fuel.

End Lexing.

(* ================================================================== *)
(** * The reply interpreter finds the first embedded object *)
(* ================================================================== *)

Module FirstObject.
Import Interpreter LexSpec Lexing.

(** ** Where the scanner stops *)

Lemma scan_span_hit (cs : text) :
  forall idx depth i e j,
  scan_span cs idx depth i e = Some j ->
  idx <= j /\ nth_error cs (j - idx) = Some "}"%char.
Proof.
  induction cs as [|c cs IH]; intros idx depth i e j H; [discriminate|].
  assert (Hrec : forall d i' e', scan_span cs (S idx) d i' e' = Some j ->
            idx <= j /\ nth_error (c :: cs) (j - idx) = Some "}"%char).
  { intros d i' e' H'. apply IH in H' as [Hle Hn]. split; [lia|].
    replace (j - idx) with (S (j - S idx)) by lia. exact Hn. }
  simpl in H.
  destruct i.
  - destruct e; [eauto|].
    destruct (Ascii.eqb c backslash); [eauto|].
    destruct (Ascii.eqb c dquote); eauto.
  - destruct (Ascii.eqb c dquote); [eauto|].
    destruct (Ascii.eqb c "{"); [eauto|].
    destruct (Ascii.eqb c "}") eqn:Ec; [|eauto].
    destruct (depth - 1 =? 0)%Z; [|eauto].
    injection H as <-. apply Ascii.eqb_eq in Ec; subst c.
    split; [lia|]. rewrite Nat.sub_diag; reflexivity.
Qed.

Lemma find_in_spec (c : ascii) (s : text) :
  forall idx,
  match find_in c s idx with
  | Some j => idx <= j /\ nth_error s (j - idx) = Some c /\
              forall i, i < j - idx -> nth_error s i <> Some c
  | None => forall i, nth_error s i <> Some c
  end.
Proof.
  induction s as [|x s IH]; intros idx; simpl.
  - intros [|i]; discriminate.
  - destruct (Ascii.eqb x c) eqn:E.
    + apply Ascii.eqb_eq in E; subst x. rewrite Nat.sub_diag. repeat split; auto. lia.
    + apply Ascii.eqb_neq in E. specialize (IH (S idx)).
      destruct (find_in c s (S idx)) as [j|].
      * destruct IH as [Hle [Hn Hbefore]]. split; [lia|].
        replace (j - idx) with (S (j - S idx)) by lia. split; [exact Hn|].
        intros [|i] Hi; simpl; [congruence | apply Hbefore; lia].
      * intros [|i]; simpl; [congruence | apply IH].
Qed.

Lemma find_spec (s : text) (c : ascii) (k : nat) :
  match find s c k with
  | Some j => k <= j /\ nth_error s j = Some c /\
              forall i, k <= i < j -> nth_error s i <> Some c
  | None => forall i, k <= i -> nth_error s i <> Some c
  end.
Proof.
  unfold find. pose proof (find_in_spec c (skipn k s) k) as H.
  destruct (find_in c (skipn k s) k) as [j|].
  - destruct H as [Hle [Hn Hb]]. rewrite nth_error_skipn in Hn.
    replace (k + (j - k)) with j in Hn by lia. repeat split; auto.
    intros i Hi. specialize (Hb (i - k)). rewrite nth_error_skipn in Hb.
    replace (k + (i - k)) with i in Hb by lia. apply Hb; lia.
  - intros i Hi. specialize (H (i - k)). rewrite nth_error_skipn in H.
    replace (k + (i - k)) with i in H by lia. exact H.
Qed.

Lemma firstn_snoc {A : Type} (l : list A) (n : nat) (x : A) :
  nth_error l n = Some x -> firstn (S n) l = firstn n l ++ [x].
Proof.
  revert l; induction n as [|n IH]; intros [|y l] H; try discriminate.
  - injection H as ->; reflexivity.
  - simpl in H. change (firstn (S (S n)) (y :: l)) with (y :: firstn (S n) l).
    rewrite (IH l H). reflexivity.
Qed.

(** ** [first_some] *)

Lemma first_some_in {A B : Type} (f : A -> option B) (l : list A) (b : B) :
  first_some f l = Some b -> exists a, In a l /\ f a = Some b.
Proof.
  induction l as [|a l IH]; simpl; [discriminate|].
  destruct (f a) eqn:E.
  - intros H; injection H as <-; eauto.
  - intros H; destruct (IH H) as [a' [Hin Ha]]; eauto.
Qed.

Lemma first_some_none {A B : Type} (f : A -> option B) (l : list A) :
  first_some f l = None <-> forall a, In a l -> f a = None.
Proof.
  induction l as [|a l IH]; simpl.
  - split; [intros _ a [] | reflexivity].
  - destruct (f a) eqn:E.
    + split; [discriminate | intros H; rewrite (H a) in E by auto; discriminate].
    + rewrite IH. split.
      * intros H a' [<-|Hin]; auto.
      * intros H a' Hin; auto.
Qed.

Lemma first_some_skip {A : Type} (f : nat -> option A) (a b n : nat) :
  a <= b -> b <= a + n ->
  (forall i, a <= i < b -> f i = None) ->
  first_some f (seq a n) = first_some f (seq b (a + n - b)).
Proof.
  intros Hab. revert a n Hab. induction b as [|b IH]; intros a n Hab Hbn Hnone.
  - assert (a = 0) by lia; subst a. f_equal. f_equal. lia.
  - destruct (Nat.eq_dec a (S b)) as [->|Hne].
    + f_equal. f_equal. lia.
    + rewrite (IH a n) by (try lia; intros i Hi; apply Hnone; lia).
      replace (a + n - b) with (S (a + n - S b)) by lia.
      simpl. rewrite Hnone by lia. reflexivity.
Qed.

Section Refinement.
Context {pyfloat : Type} {RT : Runtime pyfloat}.

Lemma skip_ws_nil_all (r : text) : skip_ws r = [] -> forallb is_ws r = true.
Proof.
  intros H. destruct (skip_ws_split r) as [w [Hr Hw]].
  rewrite H, app_nil_r in Hr. subst w. exact Hw.
Qed.

(** A text that parses, starts with an opening brace and ends with a closing
    one: the scanner started on its first character stops on its last. *)
Lemma object_span (c tail : text) (v : PyVal pyfloat) (r c' : text) (idx : nat) :
  c = "{"%char :: r -> c = c' ++ ["}"%char] ->
  json_loads c = Decoded v ->
  scan_span (c ++ tail) idx 0 false false = Some (idx + length c - 1).
Proof.
  intros Hstart Hend H. unfold json_loads in H.
  assert (Hws : skip_ws c = c) by (rewrite Hstart; reflexivity).
  rewrite Hws in H.
  destruct (parse_value (S (2 * length c)) decoder_depth c) as [v' rest| | |] eqn:Ep;
    try discriminate.
  destruct (skip_ws rest) eqn:Er; [|discriminate].
  apply skip_ws_nil_all in Er.
  apply (proj1 (parse_lex _)) in Ep as [cs [Hc [_ [_ Hobj]]]].
  destruct (Hobj r Hstart) as [inner [Hcs Hin]].
  assert (rest = []).
  { clear Hobj Hcs. induction rest as [|z rest' _] using rev_ind; [reflexivity|].
    exfalso. rewrite app_assoc, Hend in Hc.
    apply app_inj_tail in Hc as [_ <-].
    rewrite forallb_app in Er. simpl in Er.
    apply andb_true_iff in Er as [_ Er]. discriminate. }
  subst rest. rewrite app_nil_r in Hc. subst cs. rewrite Hcs.
  rewrite object_hit by exact Hin.
  f_equal. simpl. rewrite length_app. simpl. lia.
Qed.

Lemma object_at_shape (s : text) (start n : nat) (v : PyVal pyfloat) :
  object_at s start n = Some v ->
  exists r c', firstn n (skipn start s) = "{"%char :: r /\
    firstn n (skipn start s) = c' ++ ["}"%char] /\
    json_loads (firstn n (skipn start s)) = Decoded v.
Proof.
  unfold object_at; cbv zeta.
  remember (firstn n (skipn start s)) as c eqn:Ec. clear Ec. intros H.
  destruct c as [|x r]; [discriminate|].
  destruct (rev (x :: r)) as [|y l] eqn:Er; [discriminate|].
  destruct (Ascii.eqb x "{" && Ascii.eqb y "}") eqn:E; [|discriminate].
  apply andb_true_iff in E as [Ex Ey].
  apply Ascii.eqb_eq in Ex, Ey; subst x y.
  exists r, (rev l). repeat split; auto.
  - rewrite <- (rev_involutive ("{"%char :: r)), Er. reflexivity.
  - destruct (json_loads ("{"%char :: r)); congruence.
Qed.

(** At a given start, an embedded object is the span the loop tries. *)
Lemma object_at_attempt (s : text) (start n : nat) (v : PyVal pyfloat) :
  start + n <= length s ->
  object_at s start n = Some v ->
  scan_span (skipn start s) start 0 false false = Some (start + n - 1) /\
  attempt s start = Returns (Some v).
Proof.
  intros Hn H. apply object_at_shape in H as [r [c' [Hstart [Hend Hv]]]].
  assert (Hlen : length (firstn n (skipn start s)) = n).
  { rewrite firstn_length_le; [reflexivity | rewrite length_skipn; lia]. }
  assert (Hscan : scan_span (skipn start s) start 0 false false = Some (start + n - 1)).
  { rewrite <- (firstn_skipn n (skipn start s)) at 1.
    rewrite (object_span _ _ v r c') by assumption. rewrite Hlen. reflexivity. }
  split; [exact Hscan|].
  unfold attempt, slice. rewrite Hscan.
  assert (n <> 0) by (intros ->; discriminate).
  replace (start + n - 1 + 1 - start) with n by lia. rewrite Hv. reflexivity.
Qed.

Lemma attempt_object_at (s : text) (start : nat) (v : PyVal pyfloat) :
  nth_error s start = Some "{"%char ->
  attempt s start = Returns (Some v) ->
  exists n, 1 <= n /\ start + n <= length s /\ object_at s start n = Some v.
Proof.
  unfold attempt, slice. intros Hbrace H.
  destruct (scan_span (skipn start s) start 0 false false) as [idx|] eqn:Es; [|discriminate].
  apply scan_span_hit in Es as [Hle Hn].
  assert (Hlt : idx - start < length (skipn start s)) by (apply nth_error_Some; congruence).
  rewrite length_skipn in Hlt.
  exists (idx + 1 - start). repeat split; try lia.
  unfold object_at.
  set (c := firstn (idx + 1 - start) (skipn start s)) in *.
  assert (Hc : c = firstn (idx - start) (skipn start s) ++ ["}"%char]).
  { unfold c. replace (idx + 1 - start) with (S (idx - start)) by lia.
    apply firstn_snoc, Hn. } 
  assert (Hhead : exists r, c = "{"%char :: r).
  { unfold c. rewrite <- (Nat.add_0_r start) in Hbrace. rewrite <- nth_error_skipn in Hbrace.
    destruct (skipn start s) as [|x t]; [discriminate|]. injection Hbrace as ->.
    replace (idx + 1 - start) with (S (idx - start)) by lia. simpl. eauto. }
  destruct Hhead as [r Hr].
  fold c in H. clearbody c.
  assert (Hrev : rev c = "}"%char :: rev (firstn (idx - start) (skipn start s)))
    by (rewrite Hc, rev_app_distr; reflexivity).
  destruct c as [|x l]; [discriminate|]. injection Hr as -> ->.
  rewrite Hrev. simpl.
  destruct (json_loads _); congruence.
Qed.

(** The objects that start at a brace are what the attempt there returns;
    none where the attempt raises. *)
Lemma objects_from_attempt (s : text) (start : nat) :
  nth_error s start = Some "{"%char ->
  objects_from s start
  = match attempt s start with Returns r => r | Raises _ => None end.
Proof.
  intros Hbrace. unfold objects_from.
  destruct (attempt s start) as [[v|]|e] eqn:Ea.
  - destruct (attempt_object_at s start v Hbrace Ea) as [n [H1 [Hn Ho]]].
    destruct (first_some (object_at s start) (seq 1 (length s - start))) as [v'|] eqn:Ef.
    + apply first_some_in in Ef as [n' [Hin Ho']].
      apply in_seq in Hin.
      apply object_at_attempt in Ho'; [|lia].
      destruct Ho' as [_ Ho']. congruence.
    + rewrite first_some_none in Ef. rewrite Ef in Ho; [discriminate|].
      apply in_seq; lia.
  - apply first_some_none. intros n Hin. apply in_seq in Hin.
    destruct (object_at s start n) as [v|] eqn:Eo; [|reflexivity].
    apply object_at_attempt in Eo; [|lia]. destruct Eo as [_ Eo]; congruence.
  - apply first_some_none. intros n Hin. apply in_seq in Hin.
    destruct (object_at s start n) as [v|] eqn:Eo; [|reflexivity].
    apply object_at_attempt in Eo; [|lia]. destruct Eo as [_ Eo]; congruence.
Qed.

Lemma objects_from_no_brace (s : text) (start : nat) :
  nth_error s start <> Some "{"%char -> objects_from s start = None.
Proof.
  intros Hno. apply first_some_none. intros n _.
  destruct (object_at s start n) as [v|] eqn:Eo; [|reflexivity].
  apply object_at_shape in Eo as [r [_ [Hstart _]]].
  exfalso; apply Hno.
  rewrite <- (Nat.add_0_r start), <- nth_error_skipn.
  destruct (skipn start s) as [|x t]; [destruct n; discriminate|].
  destruct n; [discriminate|]. simpl in Hstart. injection Hstart as -> _. reflexivity.
Qed.

Lemma extract_loop_spec (fuel : nat) (s : text) :
  forall start,
  nth_error s start = Some "{"%char -> length s - start <= fuel ->
  loop_result s start (extract_loop fuel s start).
Proof.
  induction fuel as [|fuel IH]; intros start Hbrace Hfuel.
  - assert (start < length s) by (apply nth_error_Some; congruence). lia.
  - assert (Hlt : start < length s) by (apply nth_error_Some; congruence).
    pose proof (objects_from_attempt s start Hbrace) as Hhere.
    simpl. destruct (attempt s start) as [[v|]|e] eqn:Ea.
    + unfold loop_result.
      replace (length s - start) with (S (length s - S start)) by lia.
      simpl. rewrite Hhere. reflexivity.
    + pose proof (find_spec s "{" (start + 1)) as Hf.
      destruct (find s "{" (start + 1)) as [start'|].
      * destruct Hf as [Hle [Hn Hbefore]].
        assert (start' < length s) by (apply nth_error_Some; congruence).
        specialize (IH start' Hn ltac:(lia)).
        destruct (extract_loop fuel s start') as [found|e]; unfold loop_result in *.
        -- replace (length s - start) with (S (length s - S start)) by lia.
           simpl. rewrite Hhere.
           rewrite (first_some_skip _ (S start) start') by
             (try lia; intros i Hi; apply objects_from_no_brace, Hbefore; lia).
           rewrite IH. f_equal. f_equal. lia.
        -- destruct IH as [at_ [Hat [Hraise Hnone]]].
           exists at_. repeat split; try lia; [exact Hraise|].
           apply first_some_none. intros i Hi. apply in_seq in Hi.
           destruct (Nat.eq_dec i start) as [->|Hne]; [exact Hhere|].
           destruct (Nat.lt_ge_cases i start') as [Hlow|Hhigh].
           ++ apply objects_from_no_brace, Hbefore. lia.
           ++ rewrite first_some_none in Hnone. apply Hnone, in_seq. lia.
      * unfold loop_result. symmetry. apply first_some_none. intros i Hin.
        apply in_seq in Hin.
        destruct (Nat.eq_dec i start) as [->|Hne]; [exact Hhere|].
        apply objects_from_no_brace, Hf. lia.
    + exists start. repeat split; try lia; [exact Ea|].
      rewrite Nat.sub_diag. reflexivity.
Qed.

Lemma extract_spec (s : text) :
  match _extract_json_object s with
  | Returns found => found = first_embedded_object s
  | Raises e =>
    exists start, start < length s /\ attempt s start = Raises e /\
      first_some (objects_from s) (seq 0 start) = None
  end.
Proof.
  unfold _extract_json_object, first_embedded_object.
  pose proof (find_spec s "{" 0) as Hf.
  destruct (find s "{" 0) as [start|].
  - destruct Hf as [_ [Hn Hbefore]].
    assert (start < length s) by (apply nth_error_Some; congruence).
    pose proof (extract_loop_spec (length s) s start Hn ltac:(lia)) as Hloop.
    assert (Hskip : forall i, 0 <= i < start -> objects_from s i = None)
      by (intros i Hi; apply objects_from_no_brace, Hbefore; lia).
    destruct (extract_loop (length s) s start) as [found|e]; unfold loop_result in Hloop.
    + rewrite (first_some_skip _ 0 start) by (try lia; exact Hskip).
      rewrite Hloop. reflexivity.
    + destruct Hloop as [at_ [Hat [Hraise Hnone]]].
      exists at_. repeat split; try lia; [exact Hraise|].
      apply first_some_none. intros i Hi. apply in_seq in Hi.
      destruct (Nat.lt_ge_cases i start) as [Hlow|Hhigh]; [apply Hskip; lia|].
      rewrite first_some_none in Hnone. apply Hnone, in_seq. lia.
  - symmetry. apply first_some_none. intros i _.
    apply objects_from_no_brace, Hf. lia.
Qed.

Lemma attempt_raises (s : text) (start : nat) (e : PyExc) :
  attempt (pyfloat := pyfloat) s start = Raises e -> decoder_error e.
Proof.
  unfold attempt. intros H.
  destruct (scan_span (skipn start s) start 0 false false) as [idx|]; [|discriminate].
  destruct (json_loads (slice s start (idx + 1))) as [v| |e'] eqn:El; try discriminate.
  injection H as <-. exact (json_loads_error _ _ El).
Qed.

(** What leaves [_extract_json_object] is what the decoder raised. *)
Lemma extract_raises (s : text) (e : PyExc) :
  _extract_json_object (pyfloat := pyfloat) s = Raises e -> decoder_error e.
Proof.
  intros H. pose proof (extract_spec s) as Hs. rewrite H in Hs.
  destruct Hs as [start [_ [Hraise _]]]. exact (attempt_raises _ _ _ Hraise).
Qed.

Lemma objects_from_tried (s : text) (start : nat) :
  objects_from s start = object_tried s start.
Proof.
  unfold object_tried. destruct (nth_error s start) as [c|] eqn:En.
  - destruct (Ascii.eqb c "{") eqn:Ec.
    + apply Ascii.eqb_eq in Ec; subst c. apply objects_from_attempt, En.
    + apply objects_from_no_brace. rewrite En. intros H; injection H as ->.
      discriminate.
  - apply objects_from_no_brace. rewrite En. discriminate.
Qed.

Lemma first_some_ext {A B : Type} (f g : A -> option B) (l : list A) :
  (forall a, f a = g a) -> first_some f l = first_some g l.
Proof.
  intros H. induction l as [|a l IH]; simpl; [reflexivity|].
  rewrite H, IH. reflexivity.
Qed.

Lemma first_embedded_object_tried (s : text) :
  first_embedded_object s = first_some (object_tried s) (seq 0 (length s)).
Proof. apply first_some_ext, objects_from_tried. Qed.




End Refinement.

(** A balanced span that is no JSON: the scan goes on from the next brace. *)
Example extract_resumes_after_failure :
  _extract_json_object (quote_marks "use { braces } like {'final': 'ok'}" : text)
  = Returns (Some (PDict [(T "final", PStr (T "ok"))] : PyVal text)).
Proof. vm_compute. reflexivity. Qed.

Example extract_nothing :
  _extract_json_object (quote_marks "nothing { to 'see' here" : text)
  = Returns (None : option (PyVal text)).
Proof. vm_compute. reflexivity. Qed.


(** C1.  A balanced span that is no JSON and holds an integer literal of more
    than 4300 digits before the place where it stops being JSON: the specification
    has the scan resume at the next opening brace and recover the object that
    follows; [json.loads] raises a [ValueError], the [except
    json.JSONDecodeError] clause does not catch it, and the exception leaves
    [_extract_json_object].  With 4300 digits the scan resumes and the object
    that follows is returned. *)
Theorem long_integer_stops_the_scan :
  json_loads (pyfloat := text) (long_integer_reply 4301) = DecodeError
  /\ first_embedded_object (long_integer_reply 4301)
     = Some (PDict [(T "final", PStr (T "done"))] : PyVal text)
  /\ _extract_json_object (pyfloat := text) (long_integer_reply 4301)
     = Raises (digits_limit_error 4301)
  /\ _extract_json_object (long_integer_reply 4300)
     = Returns (Some (PDict [(T "final", PStr (T "done"))] : PyVal text)).
Proof.
  split; [|split; [|split]].
  - vm_compute. reflexivity.
  - rewrite first_embedded_object_tried. vm_compute. reflexivity.
  - vm_compute. reflexivity.
  - vm_compute. reflexivity.
Qed.

End FirstObject.

(* ================================================================== *)
(** * The RPC bridge *)
(* ================================================================== *)

Module BridgeFacts.
Import McpClient.

Section Bridge.
Context {pyfloat : Type} {RT : Runtime pyfloat}.

(** C2.  [_normalize_result]: an error flag raises a failure that carries
    the dump of the worker's reply; otherwise a structured payload is returned
    as it is; otherwise every content block is reduced (a text block to its
    text; a resource block to the inline text of its resource, to the dump of
    the resource when it has no text, to the dump of the block when it has no
    resource; any other block to its dump) and no block gives [None], one
    block its reduced value, two or more the list of the reduced values in
    the order of the blocks. *)
Theorem normalize_result_cases (result : CallToolResult pyfloat) :
  (isError result = true ->
     _normalize_result result
     = Raises (mkExc RuntimeError (T "Tool call failed: " ++ py_str (result_dump result))))
  /\ (isError result = false ->
      forall payload, structuredContent result = Some payload ->
      _normalize_result result = Returns payload)
  /\ (isError result = false -> structuredContent result = None ->
      (result_content result = [] -> _normalize_result result = Returns PNone)
      /\ (forall b, result_content result = [b] ->
          _normalize_result result = Returns (reduce_block b))
      /\ (forall b1 b2 more, result_content result = b1 :: b2 :: more ->
          _normalize_result result
          = Returns (PList (map reduce_block (b1 :: b2 :: more)))))
  /\ (forall block : ContentBlock pyfloat,
      (block_type block = Some (T "text") -> reduce_block block = PStr (block_text block))
      /\ (block_type block = Some (T "resource") ->
          forall resource, block_resource block = Some resource ->
          (forall inline, resource_text resource = Some inline ->
             reduce_block block = PStr inline)
          /\ (resource_text resource = None ->
              reduce_block block = resource_dump resource))
      /\ (block_type block = Some (T "resource") -> block_resource block = None ->
          reduce_block block = block_dump block)
      /\ (type_is (block_type block) (T "text") = false ->
          type_is (block_type block) (T "resource") = false ->
          reduce_block block = block_dump block)).
Proof.
  unfold _normalize_result. split; [|split; [|split]].
  - intros ->; reflexivity.
  - intros -> payload ->; reflexivity.
  - intros -> ->. split; [|split].
    + intros ->; reflexivity.
    + intros b ->; reflexivity.
    + intros b1 b2 more ->; reflexivity.
  - intros block. unfold reduce_block. split; [|split; [|split]].
    + intros ->; reflexivity.
    + intros -> resource ->. split.
      * intros inline ->; reflexivity.
      * intros ->; reflexivity.
    + intros -> ->; reflexivity.
    + intros -> ->; reflexivity.
Qed.

(** C8.  [run_command] with a timeout that is not positive raises
    [ValueError] and leaves the world as it was: no session is opened, no
    answer of a worker is used.  With a positive timeout the call is the
    bridge's call of the worker's [run_command], whose first act is to open
    the session. *)
Theorem run_command_timeout_boundary
  (command : PyVal pyfloat) (timeout : Z) (w : World pyfloat) :
  ((timeout <= 0)%Z ->
     run_command command (PInt timeout) w
     = Err (mkExc ValueError (T "timeout must be positive")) w)
  /\ ((0 < timeout)%Z ->
      let arguments := PDict [(T "command", command); (T "timeout", PInt timeout)] in
      run_command command (PInt timeout) w = _call_tool (T "run_command") arguments w
      /\ exists later,
           trace (final (run_command command (PInt timeout) w))
           = trace w ++ EvSession (T "run_command") arguments :: later).
Proof.
  unfold run_command, bind, lift, py_le_zero, ret, raise. split.
  - intros H. apply Z.leb_le in H. rewrite H. reflexivity.
  - intros H. assert (E : (timeout <=? 0)%Z = false) by (apply Z.leb_gt; exact H).
    rewrite E. cbv zeta. split; [reflexivity|].
    unfold _call_tool, within_task_groups, bind, call_tool_session.
    destruct (sessions w) as [|[r|e] rest]; simpl.
    + exists []; reflexivity.
    + exists []. destruct (_normalize_result r); reflexivity.
    + exists []; reflexivity.
Qed.

End Bridge.
End BridgeFacts.

(* ================================================================== *)
(** * The capability workers *)
(* ================================================================== *)

Module ServerFacts.
Import McpServer ServerSpec.

Section Server.
Context {pyfloat : Type} {RT : Runtime pyfloat}.

Lemma error_dict_status (message : text) : status_result (error_dict (pyfloat := pyfloat) message).
Proof. right; split; reflexivity. Qed.

Lemma process_failure_status (e : PyExc) (timed_out : text) (v : PyVal pyfloat) :
  process_failure e timed_out = Returns v -> status_result v.
Proof.
  unfold process_failure. intros H.
  destruct (exc_class e); simpl in H; try discriminate;
    injection H as <-; apply error_dict_status.
Qed.

Lemma proc_result_status (result : CompletedProcess) (command : PyVal pyfloat) :
  let v := PDict (dict_set (_proc_result result) (T "command") command) in
  status_result v \/ failed_process_result v.
Proof.
  unfold _proc_result. cbv zeta.
  destruct (returncode result =? 0)%Z eqn:E.
  - left; left. reflexivity.
  - right. repeat split; reflexivity.
Qed.

(** A value [scan_port] returns is one of its two refusals or the value of
    its [try] statement. *)
Lemma scan_port_attempt (host : text) (port : Z) (timeout : pyfloat)
  (created limited : Outcome unit) (connected : Outcome pyfloat) (v : PyVal pyfloat) :
  fst (scan_port host port timeout created limited connected) = Returns v ->
  v = error_dict (T "host is required")
  \/ v = error_dict (T "port must be between 1 and 65535")
  \/ fst (scan_attempt host port connected) = Returns v.
Proof.
  unfold scan_port. intros H.
  destruct (negb (nonempty_text (strip host))).
  { injection H as <-. auto. }
  destruct (negb ((0 <? port)%Z && (port <? 65536)%Z)).
  { injection H as <-. auto. }
  destruct created as [[]|e]; [|discriminate].
  destruct limited as [[]|e]; [|discriminate].
  destruct (scan_attempt host port connected) as [result events]. auto.
Qed.

(** C5, as the code has it.  The values [append_log], [run_command],
    [ping_host], [scan_port] and [ssh_command] return, and the result
    dispatch makes of a failed invocation, are mappings with a [status] that
    is [ok] or [error]; with [error] comes an [error] message, except in the
    result of a process that ran and ended with a return code other than
    zero, which has [returncode], [stdout] and [stderr] instead.  The values
    [read_file] and [system_info] return have no [status]. *)
Theorem tool_results_shape :
  (forall path text_ written (v : PyVal pyfloat),
     append_log path text_ written = Returns v -> status_result v)
  /\ (forall command timeout ran (v : PyVal pyfloat),
      run_command command timeout ran = Returns v ->
      status_result v \/ failed_process_result v)
  /\ (forall host count timeout which ran (v : PyVal pyfloat),
      ping_host host count timeout which ran = Returns v ->
      status_result v \/ failed_process_result v)
  /\ (forall host port timeout created limited connected (v : PyVal pyfloat),
      fst (scan_port host port timeout created limited connected) = Returns v ->
      status_result v)
  /\ (forall host command user port key_path timeout which ran (v : PyVal pyfloat),
      ssh_command host command user port key_path timeout which ran = Returns v ->
      status_result v \/ failed_process_result v)
  /\ (forall exc, status_result (CliAgent.error_result (pyfloat := pyfloat) exc))
  /\ (forall path opened (v : PyVal pyfloat), read_file path opened = Returns v -> status_of v = None)
  /\ (forall host : Host pyfloat, status_of (system_info host) = None).
Proof.
  repeat match goal with |- _ /\ _ => split end.
  - intros path text_ written v H. unfold append_log in H.
    destruct written as [[]|e].
    + injection H as <-. left; reflexivity.
    + destruct (is_Exception (exc_class e)); [|discriminate].
      injection H as <-. apply error_dict_status.
  - intros command timeout ran v H. unfold run_command in H.
    destruct (negb (nonempty_text (strip command))).
    { injection H as <-. left; apply error_dict_status. }
    destruct ran as [result|e].
    + injection H as <-. apply proc_result_status.
    + left; eapply process_failure_status; eauto.
  - intros host count timeout which ran v H. unfold ping_host in H.
    destruct (negb (nonempty_text (strip host))).
    { injection H as <-. left; apply error_dict_status. }
    destruct which as [ping_bin|].
    2:{ injection H as <-. left; apply error_dict_status. }
    destruct ran as [result|e].
    + injection H as <-. apply proc_result_status.
    + left; eapply process_failure_status; eauto.
  - intros host port timeout created limited connected v H.
    apply scan_port_attempt in H as [H|[H|H]]; try (subst v; apply error_dict_status).
    unfold scan_attempt in H. destruct connected as [took|e].
    + injection H as <-. left; reflexivity.
    + destruct (exc_class e); simpl in H; try discriminate; injection H as <-;
        solve [apply error_dict_status | left; reflexivity].
  - intros host command user port key_path timeout which ran v H. unfold ssh_command in H.
    destruct (negb (nonempty_text (strip host))).
    { injection H as <-. left; apply error_dict_status. }
    destruct (negb (nonempty_text (strip command))).
    { injection H as <-. left; apply error_dict_status. }
    destruct which as [ssh_bin|].
    2:{ injection H as <-. left; apply error_dict_status. }
    destruct ran as [result|e].
    + injection H as <-. apply proc_result_status.
    + left; eapply process_failure_status; eauto.
  - intros exc. right; split; reflexivity.
  - intros path opened v H. unfold read_file in H.
    destruct opened as [data|e].
    + injection H as <-. reflexivity.
    + destruct (exc_class e); simpl in H; try discriminate; injection H as <-; reflexivity.
  - intros host. unfold system_info.
    destruct (host_loadavg host); destruct (host_uptime host) as [data|];
      try destruct (split data) as [|first rest];
      try destruct (float_of_str first); reflexivity.
Qed.

(** C9, as the code has it.  [system_info] always returns the mapping of the
    eight host facts; a load average the platform cannot give and an uptime
    it cannot give are there with the value [None]. *)
Theorem system_info_total (host : Host pyfloat) :
  exists info,
    system_info host = PDict info
    /\ map fst info
       = [T "platform"; T "system"; T "release"; T "python"; T "architecture";
          T "cpu_count"; T "load_avg"; T "uptime_seconds"]
    /\ ((host_loadavg host = NoGetloadavg \/ host_loadavg host = LoadUnobtainable) ->
        dict_get info (T "load_avg") = Some PNone)
    /\ (host_uptime host = None -> dict_get info (T "uptime_seconds") = Some PNone).
Proof.
  unfold system_info.
  destruct (host_loadavg host) eqn:El; destruct (host_uptime host) as [data|] eqn:Eu;
    try destruct (split data) as [|first rest];
    try destruct (float_of_str first);
    eexists; (split; [reflexivity|]); (split; [reflexivity|]);
    (split; [intros [H|H]; try discriminate H; reflexivity
            | intros H; try discriminate H; reflexivity]).
Qed.

(** C10.  A [scan_port] with a host that is not empty and a port from 1 to
    65535 whose connection attempt ends in a timeout or a refusal returns
    status [ok] with [open] false, and no [latency]; a result has a
    [latency] exactly when its [open] is true. *)
Theorem scan_port_closed (host : text) (port : Z) (timeout : pyfloat)
  (created limited : Outcome unit) (e : PyExc) :
  host <> [] -> (1 <= port <= 65535)%Z ->
  exc_class e = SocketTimeout \/ exc_class e = ConnectionRefusedError ->
  In (SockConnect host port)
    (snd (scan_port host port timeout created limited (Raises e))) ->
  let closed : PyVal pyfloat :=
    PDict [(T "status", PStr (T "ok")); (T "host", PStr host);
           (T "port", PInt port); (T "open", PBool false)] in
  fst (scan_port host port timeout created limited (Raises e)) = Returns closed
  /\ has_field closed (T "latency") = false
  /\ (forall created' limited' connected (v : PyVal pyfloat),
        fst (scan_port host port timeout created' limited' connected) = Returns v ->
        has_field v (T "latency") = true <->
        (exists d, v = PDict d /\ dict_get d (T "open") = Some (PBool true))).
Proof.
  intros _ Hport Hclass Hconn closed. unfold closed.
  split; [|split].
  - unfold scan_port in *.
    destruct (negb (nonempty_text (strip host))); [simpl in Hconn; contradiction|].
    destruct (negb ((0 <? port)%Z && (port <? 65536)%Z)); [simpl in Hconn; contradiction|].
    destruct created as [[]|e1]; [|simpl in Hconn; contradiction].
    destruct limited as [[]|e2];
      [|simpl in Hconn; destruct Hconn as [Hc|[Hc|[]]]; discriminate].
    unfold scan_attempt. destruct Hclass as [-> | ->]; reflexivity.
  - reflexivity.
  - intros created' limited' connected v H.
    apply scan_port_attempt in H as [H|[H|H]];
      try (subst v; split; [discriminate | intros [d [Hd Ho]]; injection Hd as <-; discriminate]).
    unfold scan_attempt in H. destruct connected as [took|e'].
    + injection H as <-. split; [intros _; eexists; split; reflexivity | reflexivity].
    + destruct (exc_class e'); simpl in H; try discriminate; injection H as <-;
        (split; [discriminate | intros [d [Hd Ho]]; injection Hd as <-; discriminate]).
Qed.

End Server.

(** The counterexample to C5 as it is worded: a file that is read gives a
    mapping with the content and no [status]. *)
Lemma read_file_has_no_status :
  read_file (T "notes.txt") (Returns (T "hello"))
  = Returns (PDict [(T "content", PStr (T "hello"))] : PyVal text)
  /\ has_field (PDict [(T "content", PStr (T "hello"))] : PyVal text) (T "status") = false.
Proof. split; reflexivity. Qed.

(** The counterexample to C9 as it is worded: on a host with neither
    [os.getloadavg] nor [/proc/uptime] the two fields are in the mapping. *)
Lemma system_info_keeps_unsupported_fields :
  has_field (system_info bare_host) (T "load_avg") = true
  /\ has_field (system_info bare_host) (T "uptime_seconds") = true.
Proof. split; reflexivity. Qed.

Lemma scan_port_closed_witness :
  fst (scan_port (T "example.com") 80 (T "2.0") (Returns tt) (Returns tt)
         (Raises (mkExc SocketTimeout (T "timed out"))))
  = Returns (PDict [(T "status", PStr (T "ok")); (T "host", PStr (T "example.com"));
                    (T "port", PInt 80); (T "open", PBool false)] : PyVal text).
Proof.
  apply (scan_port_closed (T "example.com") 80 (T "2.0") (Returns tt) (Returns tt)
           (mkExc SocketTimeout (T "timed out"))).
  - discriminate.
  - lia.
  - left; reflexivity.
  - vm_compute. auto.
Defined.

End ServerFacts.

(* ================================================================== *)
(** * What a computation leaves untouched *)
(* ================================================================== *)

Module Frame.
Import AgentSpec.

Section Combinators.
Context {pyfloat : Type} {RT : Runtime pyfloat}.

Lemma terminal_not_chat (ev : Event pyfloat) : is_terminal ev -> not_chat ev.
Proof. destruct ev; simpl; auto. Qed.

Lemma session_not_chat (ev : Event pyfloat) : is_session ev -> not_chat ev.
Proof. destruct ev; simpl; auto. Qed.

Lemma emits_weaken {A : Type} (P Q : Event pyfloat -> Prop) (m : M pyfloat A) :
  (forall ev, P ev -> Q ev) -> emits_only P m -> emits_only Q m.
Proof.
  intros HPQ Hm w. destruct (Hm w) as [evs [Ht Hall]].
  exists evs; split; [exact Ht | eapply Forall_impl; eauto].
Qed.

Lemma emits_ret {A : Type} (P : Event pyfloat -> Prop) (a : A) : emits_only P (ret a).
Proof. intros w; exists []; simpl; rewrite app_nil_r; auto. Qed.

Lemma emits_raise {A : Type} (P : Event pyfloat -> Prop) (e : PyExc) :
  emits_only P (raise (A := A) e).
Proof. intros w; exists []; simpl; rewrite app_nil_r; auto. Qed.

Lemma emits_block {A : Type} (P : Event pyfloat -> Prop) : emits_only P (block (A := A)).
Proof. intros w; exists []; simpl; rewrite app_nil_r; auto. Qed.

Lemma emits_lift {A : Type} (P : Event pyfloat -> Prop) (o : Outcome A) :
  emits_only P (lift o).
Proof. destruct o; [apply emits_ret | apply emits_raise]. Qed.

Lemma emits_bind {A B : Type} (P : Event pyfloat -> Prop)
  (m : M pyfloat A) (k : A -> M pyfloat B) :
  emits_only P m -> (forall a, emits_only P (k a)) -> emits_only P (bind m k).
Proof.
  intros Hm Hk w. unfold bind. destruct (Hm w) as [evs [Ht Hall]].
  destruct (m w) as [a w1|e w1|w1]; simpl in *.
  - destruct (Hk a w1) as [evs' [Ht' Hall']].
    exists (evs ++ evs'); split; [rewrite Ht', Ht, app_assoc; reflexivity|].
    apply Forall_app; auto.
  - exists evs; auto.
  - exists evs; auto.
Qed.

Lemma emits_try_except {A : Type} (P : Event pyfloat -> Prop)
  (m : M pyfloat A) (handler : PyExc -> M pyfloat A) :
  emits_only P m -> (forall e, emits_only P (handler e)) ->
  emits_only P (try_except m handler).
Proof.
  intros Hm Hh w. unfold try_except. destruct (Hm w) as [evs [Ht Hall]].
  destruct (m w) as [a w1|e w1|w1]; simpl in *; try (exists evs; auto; fail).
  destruct (is_Exception (exc_class e)); [|exists evs; auto].
  destruct (Hh e w1) as [evs' [Ht' Hall']].
  exists (evs ++ evs'); split; [rewrite Ht', Ht, app_assoc; reflexivity|].
  apply Forall_app; auto.
Qed.

Lemma emits_within {A : Type} (P : Event pyfloat -> Prop) (body : M pyfloat A) :
  emits_only P body -> emits_only P (McpClient.within_task_groups body).
Proof.
  intros Hm w. unfold McpClient.within_task_groups. destruct (Hm w) as [evs [Ht Hall]].
  exists evs. destruct (body w); auto.
Qed.

Lemma keeps_within {A : Type} (body : M pyfloat A) :
  keeps_messages body -> keeps_messages (McpClient.within_task_groups body).
Proof.
  intros Hm w. unfold McpClient.within_task_groups. specialize (Hm w).
  destruct (body w); auto.
Qed.

Lemma emits_emit (P : Event pyfloat -> Prop) (ev : Event pyfloat) :
  P ev -> emits_only P (emit ev).
Proof. intros H w; exists [ev]; simpl; auto. Qed.

Lemma emits_append_message (P : Event pyfloat -> Prop) (m : Message pyfloat) :
  emits_only P (append_message m).
Proof. intros w; exists []; simpl; rewrite app_nil_r; auto. Qed.

Lemma emits_get_messages (P : Event pyfloat -> Prop) : emits_only P get_messages.
Proof. intros w; exists []; simpl; rewrite app_nil_r; auto. Qed.

Lemma emits_input (P : Event pyfloat -> Prop) (prompt : text) :
  P (EvInput prompt) -> emits_only P (input prompt).
Proof.
  intros H w; exists [EvInput prompt]; unfold input.
  destruct (stdin w) as [|[line|e] rest]; simpl; auto.
Qed.

Lemma emits_session (P : Event pyfloat -> Prop) (name : text) (arguments : PyVal pyfloat) :
  P (EvSession name arguments) -> emits_only P (call_tool_session name arguments).
Proof.
  intros H w; exists [EvSession name arguments]; unfold call_tool_session.
  destruct (sessions w) as [|[r|e] rest]; simpl; auto.
Qed.

Lemma emits_with_world {A : Type} (P : Event pyfloat -> Prop)
  (f : World pyfloat -> M pyfloat A) :
  (forall w0, emits_only P (f w0)) -> emits_only P (fun w => f w w).
Proof. intros H w; apply (H w w). Qed.

Lemma leaves_ret {A : Type} (a : A) : leaves_world (ret (pyfloat := pyfloat) a).
Proof. intros w; left; exists a; reflexivity. Qed.

Lemma leaves_raise {A : Type} (e : PyExc) :
  leaves_world (raise (pyfloat := pyfloat) (A := A) e).
Proof. intros w; right; exists e; reflexivity. Qed.

Lemma leaves_lift {A : Type} (o : Outcome A) : leaves_world (lift (pyfloat := pyfloat) o).
Proof. destruct o; [apply leaves_ret | apply leaves_raise]. Qed.

Lemma leaves_bind {A B : Type} (m : M pyfloat A) (k : A -> M pyfloat B) :
  leaves_world m -> (forall a, leaves_world (k a)) -> leaves_world (bind m k).
Proof.
  intros Hm Hk w. unfold bind.
  destruct (Hm w) as [[a Ha]|[e He]]; [rewrite Ha; apply Hk | rewrite He; right; eauto].
Qed.

Lemma keeps_ret {A : Type} (a : A) : keeps_messages (ret (pyfloat := pyfloat) a).
Proof. intros w; reflexivity. Qed.

Lemma keeps_raise {A : Type} (e : PyExc) : keeps_messages (raise (pyfloat := pyfloat) (A := A) e).
Proof. intros w; reflexivity. Qed.

Lemma keeps_block {A : Type} : keeps_messages (block (pyfloat := pyfloat) (A := A)).
Proof. intros w; reflexivity. Qed.

Lemma keeps_lift {A : Type} (o : Outcome A) : keeps_messages (lift (pyfloat := pyfloat) o).
Proof. destruct o; intros w; reflexivity. Qed.

Lemma keeps_bind {A B : Type} (m : M pyfloat A) (k : A -> M pyfloat B) :
  keeps_messages m -> (forall a, keeps_messages (k a)) -> keeps_messages (bind m k).
Proof.
  intros Hm Hk w. unfold bind. specialize (Hm w).
  destruct (m w) as [a w1|e w1|w1]; simpl in *; auto.
  rewrite Hk; exact Hm.
Qed.

Lemma keeps_try_except {A : Type} (m : M pyfloat A) (handler : PyExc -> M pyfloat A) :
  keeps_messages m -> (forall e, keeps_messages (handler e)) ->
  keeps_messages (try_except m handler).
Proof.
  intros Hm Hh w. unfold try_except. specialize (Hm w).
  destruct (m w) as [a w1|e w1|w1]; simpl in *; auto.
  destruct (is_Exception (exc_class e)); simpl; auto.
  rewrite Hh; exact Hm.
Qed.

Lemma keeps_emit (ev : Event pyfloat) : keeps_messages (emit ev).
Proof. intros w; reflexivity. Qed.

Lemma keeps_input (prompt : text) : keeps_messages (input (pyfloat := pyfloat) prompt).
Proof. intros w; unfold input; destruct (stdin w) as [|[line|e] rest]; reflexivity. Qed.

Lemma keeps_session (name : text) (arguments : PyVal pyfloat) :
  keeps_messages (call_tool_session name arguments).
Proof.
  intros w; unfold call_tool_session; destruct (sessions w) as [|[r|e] rest]; reflexivity.
Qed.

Lemma keeps_with_world {A : Type} (f : World pyfloat -> M pyfloat A) :
  (forall w0, keeps_messages (f w0)) -> keeps_messages (fun w => f w w).
Proof. intros H w; apply (H w w). Qed.

End Combinators.

(** One step of a frame proof: the combinator at the head of the
    computation, or a case analysis on what it branches on. *)
Ltac frame_step :=
  first
    [ apply emits_ret | apply emits_raise | apply emits_block | apply emits_lift
    | apply emits_append_message | apply emits_get_messages
    | apply emits_emit; simpl; exact I
    | apply emits_input; simpl; exact I
    | apply emits_session; simpl; exact I
    | apply emits_bind; [|intros ?]
    | apply emits_try_except; [|intros ?]
    | apply emits_within | apply keeps_within
    | apply leaves_ret | apply leaves_raise | apply leaves_lift
    | apply leaves_bind; [|intros ?]
    | apply keeps_ret | apply keeps_raise | apply keeps_block | apply keeps_lift
    | apply keeps_emit | apply keeps_input | apply keeps_session
    | apply keeps_bind; [|intros ?]
    | apply keeps_try_except; [|intros ?]
    | match goal with
      | |- emits_only _ (if ?b then _ else _) => destruct b
      | |- emits_only _ (match ?x with _ => _ end) => destruct x
      | |- leaves_world (if ?b then _ else _) => destruct b
      | |- leaves_world (match ?x with _ => _ end) => destruct x
      | |- keeps_messages (if ?b then _ else _) => destruct b
      | |- keeps_messages (match ?x with _ => _ end) => destruct x
      end ].

Ltac frame := repeat frame_step.

End Frame.

Module AgentFrame.
Import AgentSpec Frame McpClient CliAgent.
Local Open Scope py_scope.

Section Frames.
Context {pyfloat : Type} {RT : Runtime pyfloat}.

(** ** Confirmation only talks to the terminal *)

Lemma print_terminal (line : text) : emits_only is_terminal (print (pyfloat := pyfloat) line).
Proof. unfold print; frame. Qed.

Lemma print_keeps (line : text) : keeps_messages (print (pyfloat := pyfloat) line).
Proof. unfold print; frame. Qed.

Lemma int_arg_pure (P : Event pyfloat -> Prop) (args : PyVal pyfloat) (key : text) (default : Z) :
  emits_only P (int_arg args key default) /\ keeps_messages (int_arg args key default).
Proof. unfold int_arg; split; frame. Qed.

Lemma str_arg_pure (P : Event pyfloat -> Prop) (args : PyVal pyfloat) (key : text) :
  emits_only P (str_arg args key) /\ keeps_messages (str_arg args key).
Proof. unfold str_arg; split; frame. Qed.

Lemma preview_of_pure (P : Event pyfloat -> Prop) (tool_name : text) (args : PyVal pyfloat) :
  emits_only P (preview_of tool_name args) /\ keeps_messages (preview_of tool_name args).
Proof.
  unfold preview_of; split;
    repeat first
      [ apply (proj1 (int_arg_pure P _ _ _)) | apply (proj2 (int_arg_pure P _ _ _))
      | apply (proj1 (str_arg_pure P _ _)) | apply (proj2 (str_arg_pure P _ _))
      | frame_step ].
Qed.

Lemma preview_of_leaves_world (tool_name : text) (args : PyVal pyfloat) :
  leaves_world (preview_of tool_name args).
Proof. unfold preview_of, int_arg, str_arg; frame. Qed.

Lemma confirm_loop_frame (fuel : nat) (prompt : text) :
  emits_only is_terminal (confirm_loop (pyfloat := pyfloat) fuel prompt)
  /\ keeps_messages (confirm_loop (pyfloat := pyfloat) fuel prompt).
Proof.
  induction fuel as [|f [IHe IHk]]; simpl; split; frame;
    first [apply print_terminal | apply print_keeps | assumption].
Qed.

Lemma confirm_tool_frame (tool_name : text) (args : PyVal pyfloat) :
  emits_only is_terminal (_confirm_tool tool_name args)
  /\ keeps_messages (_confirm_tool tool_name args).
Proof.
  unfold _confirm_tool; split.
  - apply emits_bind; [apply preview_of_pure | intros preview].
    apply (emits_with_world is_terminal (fun w0 => confirm_loop (S (length (stdin w0))) _)).
    intros w0; apply confirm_loop_frame.
  - apply keeps_bind; [apply (preview_of_pure is_terminal) | intros preview].
    apply (keeps_with_world (fun w0 => confirm_loop (S (length (stdin w0))) _)).
    intros w0; apply confirm_loop_frame.
Qed.

(** ** An invocation only talks to the worker *)

Lemma call_tool_frame (name : text) (arguments : PyVal pyfloat) :
  emits_only is_session (_call_tool name arguments)
  /\ keeps_messages (_call_tool name arguments).
Proof. unfold _call_tool; split; frame. Qed.

Lemma call_tool_function_frame (tool : Tool) (args : PyVal pyfloat) :
  emits_only is_session (call_tool_function tool args)
  /\ keeps_messages (call_tool_function tool args).
Proof.
  destruct tool; simpl; split;
    unfold McpClient.read_file, McpClient.append_log, McpClient.run_command,
      McpClient.system_info, McpClient.ping_host, McpClient.scan_port,
      McpClient.ssh_command;
    repeat first
      [ apply (proj1 (call_tool_frame _ _)) | apply (proj2 (call_tool_frame _ _))
      | frame_step ].
Qed.

Lemma invoke_frame (tool : Tool) (args : PyVal pyfloat) :
  emits_only is_session (invoke tool args) /\ keeps_messages (invoke tool args).
Proof.
  unfold invoke; split; frame; apply call_tool_function_frame.
Qed.

(** ** A turn of the loop sends nothing to the chat service after its request *)

Lemma print_not_chat (line : text) : emits_only not_chat (print (pyfloat := pyfloat) line).
Proof. unfold print; frame. Qed.

Lemma dispatch_not_chat (reply : text) (d : Dict pyfloat) (tool_name : PyVal pyfloat)
  (assistant_logged : bool) :
  emits_only not_chat (dispatch reply d tool_name assistant_logged).
Proof.
  unfold dispatch.
  repeat first
    [ apply print_not_chat
    | apply (emits_weaken _ _ _ terminal_not_chat), confirm_tool_frame
    | apply (emits_weaken _ _ _ session_not_chat), invoke_frame
    | frame_step ].
Qed.

Lemma plain_reply_not_chat (reply : text) :
  emits_only not_chat (plain_reply (pyfloat := pyfloat) reply).
Proof. unfold plain_reply; repeat first [apply print_not_chat | frame_step]. Qed.

Lemma act_on_not_chat (reply : text) (data : PyVal pyfloat) (assistant_logged : bool) :
  emits_only not_chat (act_on reply data assistant_logged).
Proof.
  unfold act_on.
  repeat first
    [ apply print_not_chat | apply dispatch_not_chat | apply plain_reply_not_chat
    | frame_step ].
Qed.

Lemma interpret_reply_not_chat (reply : text) :
  emits_only not_chat (interpret_reply (pyfloat := pyfloat) reply).
Proof.
  unfold interpret_reply.
  repeat first
    [ apply print_not_chat | apply act_on_not_chat | apply plain_reply_not_chat
    | frame_step ].
Qed.

End Frames.
End AgentFrame.

(* ================================================================== *)
(** * The dispatch loop *)
(* ================================================================== *)

Module AgentFacts.
Import PyFacts AgentSpec Frame AgentFrame McpClient CliAgent.
Local Open Scope py_scope.

Section Agent.
Context {pyfloat : Type} {RT : Runtime pyfloat}.

Lemma bind_eq {A B : Type} (m : M pyfloat A) (k : A -> M pyfloat B) (w : World pyfloat) :
  bind m k w
  = match m w with
    | Ok a w' => k a w'
    | Err e w' => Err e w'
    | Blocked w' => Blocked w'
    end.
Proof. reflexivity. Qed.

Lemma interpret_reply_decode (reply : text) (w : World pyfloat) :
  interpret_reply reply w
  = match decode reply with
    | Some (data, logged) => act_on reply data logged (shown reply logged w)
    | None =>
      match decode_failure reply with
      | Some e => Err e w
      | None => plain_reply reply w
      end
    end.
Proof.
  unfold interpret_reply, decode, decode_failure.
  destruct (json_loads reply); try reflexivity.
  destruct (_extract_json_object reply) as [[data|]|e]; reflexivity.
Qed.

Lemma interpret_reply_plain (reply : text) (w : World pyfloat) :
  plain_text reply -> interpret_reply reply w = plain_reply reply w.
Proof.
  intros [Hl He]. unfold interpret_reply. rewrite Hl, He. reflexivity.
Qed.

Lemma decode_failure_none (reply : text) (e : PyExc) :
  decode_failure reply = Some e -> decode reply = None.
Proof.
  unfold decode_failure, decode.
  destruct (json_loads reply); try discriminate; [|reflexivity].
  destruct (_extract_json_object reply) as [[data|]|e']; try discriminate; reflexivity.
Qed.

(** Reading a reply raises only what the decoder raises. *)
Lemma decode_failure_class (reply : text) (e : PyExc) :
  decode_failure reply = Some e ->
  is_Exception (exc_class e) = true /\ exc_class e <> JSONDecodeError.
Proof.
  unfold decode_failure. intros H.
  destruct (json_loads reply) as [v| |e'] eqn:El; try discriminate.
  - destruct (_extract_json_object reply) as [found|e'] eqn:Ex; [discriminate|].
    injection H as ->.
    apply Lexing.decoder_error_class, (FirstObject.extract_raises _ _ Ex).
  - injection H as ->. apply Lexing.decoder_error_class, (Lexing.json_loads_error _ _ El).
Qed.


Lemma error_result_json (e : PyExc) :
  json_dumps (error_result (pyfloat := pyfloat) e) = Some (error_json (exc_str e)).
Proof. reflexivity. Qed.


(** ** The loop, turn by turn *)

Lemma process_assistant_step (reply : text) (later : list (Outcome text)) (w : World pyfloat) :
  process_assistant (Returns reply :: later) w
  = match interpret_reply reply (record_event (EvChat (messages w)) w) with
    | Ok Continue w' => process_assistant later w'
    | Ok Break w' => Ok tt w'
    | Err e w' => Err e w'
    | Blocked w' => Blocked w'
    end.
Proof.
  cbn [process_assistant]. rewrite bind_eq.
  unfold ask_ollama. rewrite bind_eq. unfold get_messages at 1. cbv beta iota.
  rewrite bind_eq. unfold emit at 1. cbv beta iota. cbn [lift]. unfold ret at 1.
  cbv beta iota. rewrite bind_eq.
  destruct (interpret_reply reply (record_event (EvChat (messages w)) w)) as [[|] w'|e w'|w'];
    reflexivity.
Qed.

Lemma process_assistant_emits (chat : list (Outcome text)) :
  emits_only (fun _ => True) (process_assistant (pyfloat := pyfloat) chat).
Proof.
  induction chat as [|answer later IH]; cbn [process_assistant]; unfold ask_ollama.
  - frame.
  - repeat first
      [ apply emits_emit; exact I
      | apply (emits_weaken not_chat); [auto | apply interpret_reply_not_chat]
      | exact IH
      | frame_step ].
Qed.

(** Whatever the answers, the loop starts by sending the transcript. *)
Lemma process_assistant_asks_first (chat : list (Outcome text)) (w : World pyfloat) :
  exists evs,
    trace (final (process_assistant chat w)) = trace w ++ EvChat (messages w) :: evs.
Proof.
  destruct chat as [|[reply|e] later].
  - exists []; reflexivity.
  - rewrite process_assistant_step.
    destruct (interpret_reply_not_chat reply (record_event (EvChat (messages w)) w))
      as [evs [Ht _]].
    destruct (interpret_reply reply (record_event (EvChat (messages w)) w))
      as [[|] w'|e w'|w']; simpl in Ht;
      try (exists evs; simpl; rewrite Ht; simpl; rewrite <- app_assoc; reflexivity).
    destruct (process_assistant_emits later w') as [evs' [Ht' _]].
    exists (evs ++ evs'). rewrite Ht', Ht. simpl.
    repeat rewrite <- app_assoc. reflexivity.
  - exists []; reflexivity.
Qed.


Lemma answers_no_not_yes (choice : text) :
  answers_no choice = true -> answers_yes choice = false.
Proof.
  unfold answers_no, answers_yes. intros H.
  repeat (apply orb_true_iff in H as [H|H]); apply text_eqb_spec in H; subst choice;
    reflexivity.
Qed.


(** A confirmation that comes back false was answered: after lines that are
    no answer, a line that reads [n], [no] or nothing. *)
Lemma confirm_loop_false (fuel : nat) (prompt : text) :
  forall w w' : World pyfloat,
  confirm_loop fuel prompt w = Ok false w' ->
  exists skipped line rest,
    stdin w = map Returns skipped ++ Returns line :: rest
    /\ Forall (fun l => answers_yes (lower (strip l)) = false
                        /\ answers_no (lower (strip l)) = false) skipped
    /\ answers_no (lower (strip line)) = true
    /\ stdin w' = rest.
Proof.
  induction fuel as [|fuel IH]; intros w w' H; [discriminate|].
  cbn [confirm_loop] in H. rewrite bind_eq in H. unfold input in H.
  destruct (stdin w) as [|[line|e] rest] eqn:Ein; try discriminate.
  cbv beta iota zeta in H.
  destruct (answers_yes (lower (strip line))) eqn:Ey; [discriminate|].
  destruct (answers_no (lower (strip line))) eqn:En.
  - injection H as <-. exists [], line, rest. repeat split; auto.
  - rewrite bind_eq in H. unfold print at 1, emit at 1 in H. cbv beta iota in H.
    apply IH in H as (skipped & line' & rest' & Hs & Hall & Hno & Hrest).
    simpl in Hs. exists (line :: skipped), line', rest'. rewrite Hs.
    repeat split; auto.
Qed.

(** The loop of [_confirm_tool] reads a line at every turn: with more fuel
    than lines on [stdin] it ends, with an answer or with the exception of
    [input]. *)
Lemma confirm_loop_ends (fuel : nat) (prompt : text) :
  forall w w' : World pyfloat,
  length (stdin w) < fuel -> confirm_loop fuel prompt w <> Blocked w'.
Proof.
  induction fuel as [|fuel IH]; intros w w' Hlen; [lia|].
  cbn [confirm_loop]. rewrite bind_eq. unfold input.
  destruct (stdin w) as [|[line|e] rest] eqn:Ein; try discriminate.
  cbv beta iota zeta.
  destruct (answers_yes (lower (strip line))); [discriminate|].
  destruct (answers_no (lower (strip line))); [discriminate|].
  rewrite bind_eq. unfold print at 1, emit at 1. cbv beta iota.
  apply IH. simpl in *. lia.
Qed.

(** [_confirm_tool] never waits for ever: it returns the decision or raises
    (the exception of the preview, or of [input]). *)
Lemma confirm_tool_ends (tool_name : text) (args : PyVal pyfloat) (w w' : World pyfloat) :
  _confirm_tool tool_name args w <> Blocked w'.
Proof.
  unfold _confirm_tool. rewrite bind_eq.
  destruct (preview_of_leaves_world tool_name args w) as [[p Hp]|[e He]].
  - rewrite Hp. apply confirm_loop_ends. lia.
  - rewrite He. discriminate.
Qed.

(** Arguments that are missing, [null] or otherwise false are replaced by
    an empty mapping; any other value is kept as it is. *)
Lemma tool_args_cases (d : Dict pyfloat) :
  (dict_get d (T "args") = None -> tool_args d = PDict [])
  /\ (forall a, dict_get d (T "args") = Some a -> py_truthy a = false ->
      tool_args d = PDict [])
  /\ (forall a, dict_get d (T "args") = Some a -> py_truthy a = true -> tool_args d = a).
Proof.
  unfold tool_args. repeat split.
  - intros ->; reflexivity.
  - intros a -> ->; reflexivity.
  - intros a -> ->; reflexivity.
Qed.

(** ** The ways a turn of Dispatch ends *)


Lemma dispatch_from (reply : text) (d : Dict pyfloat) (tool_name : PyVal pyfloat)
  (logged : bool) (w0 : World pyfloat) :
  let called := if logged then w0 else record_message (assistant (PStr reply)) w0 in
  dispatch reply d tool_name logged w0
  = match tool_map_get tool_name with
    | Raises e => Err e w0
    | Returns None => Ok Break (noticed (unknown_tool_notice tool_name) called)
    | Returns (Some (name, tool)) =>
      match _confirm_tool name (tool_args d) called with
      | Ok true confirmed =>
        match invoke tool (tool_args d) confirmed with
        | Ok result invoked =>
          match json_dumps result with
          | Some js => Ok Continue (answered name result js invoked)
          | None =>
            Err (dumps_error result)
              (record_event (EvPrint (T "[tool:" ++ name ++ T "] " ++ display_of result))
                 invoked)
          end
        | Err e invoked => Err e invoked
        | Blocked invoked => Blocked invoked
        end
      | Ok false declined => Ok Break (noticed (declined_notice name) declined)
      | Err e w' => Err e w'
      | Blocked w' => Blocked w'
      end
    end.
Proof.
  cbv zeta. unfold dispatch. cbv zeta. rewrite bind_eq.
  destruct (tool_map_get tool_name) as [[[name tool]|]|e]; cbn [lift];
    [| |reflexivity]; unfold ret at 1; cbv beta iota; rewrite bind_eq.
  - assert (E : (if logged then ret tt else append_message (assistant (PStr reply))) w0
                = Ok tt (if logged then w0 else record_message (assistant (PStr reply)) w0))
      by (destruct logged; reflexivity).
    rewrite E. cbv beta iota. rewrite bind_eq.
    destruct (_confirm_tool name (tool_args d)
                (if logged then w0 else record_message (assistant (PStr reply)) w0))
      as [[|] w3|e w3|w3]; try reflexivity.
    cbn [negb]. cbv iota. rewrite bind_eq.
    destruct (invoke tool (tool_args d) w3) as [result w4|e w4|w4]; try reflexivity.
    rewrite bind_eq. unfold print at 1, emit at 1. cbv beta iota zeta.
    destruct (json_dumps result); reflexivity.
  - destruct logged; reflexivity.
Qed.


(** What a turn does with a call of a tool of the table. *)
Lemma dispatch_known (reply : text) (d : Dict pyfloat) (tool_name : PyVal pyfloat)
  (logged : bool) (w : World pyfloat) (name : text) (tool : Tool) :
  tool_map_get tool_name = Returns (Some (name, tool)) ->
  dispatch reply d tool_name logged (shown reply logged w)
  = match _confirm_tool name (tool_args d) (call_logged reply logged w) with
    | Ok true w3 =>
      match invoke tool (tool_args d) w3 with
      | Ok result w4 =>
        let w5 := record_event (EvPrint (T "[tool:" ++ name ++ T "] " ++ display_of result)) w4 in
        match json_dumps result with
        | Some js => Ok Continue (record_message (tool_result_message name js) w5)
        | None => Err (dumps_error result) w5
        end
      | Err e w4 => Err e w4
      | Blocked w4 => Blocked w4
      end
    | Ok false w3 =>
      Ok Break
        (record_message (user (declined_notice name))
           (record_event (EvPrint (T "assistant> " ++ declined_notice name)) w3))
    | Err e w3 => Err e w3
    | Blocked w3 => Blocked w3
    end.
Proof.
  intros Ht. rewrite dispatch_from, Ht. cbv zeta.
  replace (if logged then shown reply logged w
           else record_message (assistant (PStr reply)) (shown reply logged w))
    with (call_logged reply logged w) by (destruct logged; reflexivity).
  reflexivity.
Qed.




Lemma act_on_tool (reply : text) (d : Dict pyfloat) (tool_name : PyVal pyfloat)
  (logged : bool) (w : World pyfloat) :
  dict_get d (T "tool") = Some tool_name ->
  act_on reply (PDict d) logged w = dispatch reply d tool_name logged w.
Proof. intros H; unfold act_on; rewrite H; reflexivity. Qed.

(** A turn on a reply that is read as a call of [tool_name]. *)
Lemma tool_call_turn (reply : text) (later : list (Outcome text)) (w : World pyfloat)
  (d : Dict pyfloat) (logged : bool) (tool_name : PyVal pyfloat) :
  decode reply = Some (PDict d, logged) ->
  dict_get d (T "tool") = Some tool_name ->
  process_assistant (Returns reply :: later) w
  = match dispatch reply d tool_name logged
            (shown reply logged (record_event (EvChat (messages w)) w)) with
    | Ok Continue w' => process_assistant later w'
    | Ok Break w' => Ok tt w'
    | Err e w' => Err e w'
    | Blocked w' => Blocked w'
    end.
Proof.
  intros Hd Ht. rewrite process_assistant_step, interpret_reply_decode, Hd.
  rewrite (act_on_tool _ _ _ _ _ Ht). reflexivity.
Qed.





(** ** What an invocation raises *)





End Agent.




(** C4: the name of the tool is a list.  It is not in the table, and the
    specification has the turn end with the unknown-tool notice.  The lookup
    [TOOL_MAP.get(tool_name)] hashes the name and raises [TypeError]: no
    notice is shown, nothing is appended to the transcript, and the
    exception leaves [process_assistant]. *)
Theorem list_name_gets_no_notice :
  decode list_name_call
  = Some (PDict [(T "tool", PList [PStr (T "read_file")]); (T "args", PDict [])] : PyVal text,
          false)
  /\ in_table (PList [PStr (T "read_file")] : PyVal text) = false
  /\ process_assistant [Returns list_name_call] (start [T "y"] [])
     = Err (mkExc TypeError (T "unhashable type: 'list'"))
         (mkWorld (messages (start [] [])) [EvChat (messages (start [] []))]
            [Returns (T "y")] []).
Proof. split; [|split]; vm_compute; reflexivity. Qed.

(** C6: the arguments of the call are a string.  Dispatch goes on with the
    string, not with an empty mapping, and [_confirm_tool] fails on it: the
    exception leaves [process_assistant], the call logged and no result
    after it. *)
Lemma malformed_args_are_kept :
  tool_args [(T "tool", PStr (T "run_command")); (T "args", PStr (T "ls") : PyVal text)]
  = PStr (T "ls")
  /\ process_assistant [Returns string_args] (start [T "y"] [])
     = Err (mkExc AttributeError (T "'str' object has no attribute 'get'"))
         (mkWorld (messages (start [] []) ++ [assistant (PStr string_args)])
            [EvChat (messages (start [] []))] [Returns (T "y")] []).
Proof. split; reflexivity. Qed.

Example port_scan_scenario :
  messages (final (process_assistant [Returns scan_call; Returns scan_conclusion]
                     (start [T "y"] [Returns scan_answer])))
  = messages (start [] [])
    ++ [mkMessage (T "assistant") (PStr scan_call);
        mkMessage (T "user")
          (PStr (quote_marks
             "Tool scan_port result: {'status': 'ok', 'host': 'example.com', 'port': 80, 'open': true, 'latency': 0.1234}"));
        mkMessage (T "assistant") (PStr (T "Port 80 is open."))].
Proof. vm_compute. reflexivity. Qed.


End AgentFacts.

(* ================================================================== *)
(** * The capability workers: validation, failures, the shape of results *)
(* ================================================================== *)

Module WorkerFacts.
Import McpServer ServerSpec WorkerSpec.

(** ** White space at the ends of a text *)

Section SpaceGroups.
Variable one : ascii -> bool.
Variable two : ascii -> ascii -> bool.
Variable three : ascii -> ascii -> ascii -> bool.

Lemma drop_spaces_eq (a : ascii) (r : text) :
  drop_spaces one two three (a :: r)
  = if one a then drop_spaces one two three r
    else
      match r with
      | [] => [a]
      | b :: r1 =>
        if two a b then drop_spaces one two three r1
        else
          match r1 with
          | [] => [a; b]
          | c :: r2 =>
            if three a b c then drop_spaces one two three r2 else a :: b :: c :: r2
          end
      end.
Proof. destruct r as [|b [|c r2]]; reflexivity. Qed.

(** What is dropped is white-space characters. *)
Lemma drop_spaces_split (n : nat) :
  forall s : text, length s <= n ->
  exists groups, Forall (group one two three) groups /\ s = concat groups ++ drop_spaces one two three s.
Proof.
  induction n as [|n IH]; intros s Hlen.
  - destruct s; [|simpl in Hlen; lia]. exists []. split; [constructor | reflexivity].
  - destruct s as [|a r]; [exists []; split; [constructor | reflexivity]|].
    simpl in Hlen. rewrite drop_spaces_eq. destruct (one a) eqn:E1.
    { destruct (IH r) as [gs [Hg Hr]]; [lia|]. exists ([a] :: gs).
      split; [constructor; [exact E1 | exact Hg]|].
      cbn [concat app]. rewrite <- Hr. reflexivity. }
    destruct r as [|b r1]; [exists []; split; [constructor | reflexivity]|].
    simpl in Hlen. destruct (two a b) eqn:E2.
    { destruct (IH r1) as [gs [Hg Hr]]; [lia|]. exists ([a; b] :: gs).
      split; [constructor; [exact E2 | exact Hg]|].
      cbn [concat app]. rewrite <- Hr. reflexivity. }
    destruct r1 as [|c r2]; [exists []; split; [constructor | reflexivity]|].
    simpl in Hlen. destruct (three a b c) eqn:E3.
    { destruct (IH r2) as [gs [Hg Hr]]; [lia|]. exists ([a; b; c] :: gs).
      split; [constructor; [exact E3 | exact Hg]|].
      cbn [concat app]. rewrite <- Hr. reflexivity. }
    exists []; split; [constructor | reflexivity].
Qed.

Lemma drop_spaces_nil (s : text) :
  drop_spaces one two three s = [] ->
  exists groups, Forall (group one two three) groups /\ s = concat groups.
Proof.
  intros H. destruct (drop_spaces_split (length s) s (Nat.le_refl _)) as [gs [Hg Hs]].
  exists gs. split; [exact Hg|]. rewrite H, app_nil_r in Hs. exact Hs.
Qed.

(** No character is the start of another. *)
Hypothesis two_not_one : forall a b, two a b = true -> one a = false.
Hypothesis three_not_shorter :
  forall a b c, three a b c = true -> one a = false /\ two a b = false.

Lemma drop_groups (groups : list text) :
  Forall (group one two three) groups ->
  forall r, drop_spaces one two three (concat groups ++ r) = drop_spaces one two three r.
Proof.
  induction 1 as [|g gs Hg _ IH]; intros r; [reflexivity|].
  cbn [concat]. rewrite <- app_assoc.
  destruct g as [|a [|b [|c [|x g]]]]; simpl in Hg; try contradiction; cbn [app].
  - rewrite drop_spaces_eq, Hg. apply IH.
  - rewrite drop_spaces_eq, (two_not_one _ _ Hg), Hg. apply IH.
  - destruct (three_not_shorter _ _ _ Hg) as [H1 H2].
    rewrite drop_spaces_eq, H1, H2, Hg. apply IH.
Qed.

End SpaceGroups.

Lemma wide_space2_lead (a b : ascii) : wide_space2 a b = true -> is_space a = false.
Proof.
  unfold wide_space2. intros H.
  apply andb_true_iff in H as [H _]. apply andb_true_iff in H as [H _].
  destruct a as [[|] [|] [|] [|] [|] [|] [|] [|]]; try reflexivity; discriminate H.
Qed.

Lemma wide_space3_lead (a b c : ascii) :
  wide_space3 a b c = true -> is_space a = false /\ wide_space2 a b = false.
Proof.
  unfold wide_space3. cbv zeta. intros H.
  repeat (apply andb_true_iff in H as [H _]).
  unfold wide_space2.
  destruct a as [[|] [|] [|] [|] [|] [|] [|] [|]]; try discriminate H;
    split; reflexivity.
Qed.

Lemma blank_nil : blank [].
Proof. exists []. split; [reflexivity | constructor]. Qed.

Lemma blank_app (a b : text) : blank a -> blank b -> blank (a ++ b).
Proof.
  intros [ga [-> Ha]] [gb [-> Hb]]. exists (ga ++ gb).
  split; [symmetry; apply concat_app | apply Forall_app; auto].
Qed.

Lemma blank_char (w : text) : space_char w -> blank w.
Proof.
  intros H. exists [w]. split; [simpl; rewrite app_nil_r; reflexivity | auto].
Qed.

(** White-space characters read from the end. *)
Lemma blank_backwards (groups : list text) :
  Forall (group is_space (fun b a => wide_space2 a b) (fun c b a => wide_space3 a b c))
    groups ->
  blank (rev (concat groups)).
Proof.
  induction 1 as [|g gs Hg _ IH]; [apply blank_nil|].
  cbn [concat]. rewrite rev_app_distr. apply blank_app; [exact IH|].
  apply blank_char.
  destruct g as [|a [|b [|c [|x g]]]]; simpl in Hg; try contradiction; exact Hg.
Qed.

Lemma lstrip_blank (s : text) : blank s -> lstrip s = [].
Proof.
  intros [groups [-> Hall]]. unfold lstrip.
  rewrite <- (app_nil_r (concat groups)).
  rewrite (drop_groups _ _ _ wide_space2_lead wide_space3_lead groups Hall).
  reflexivity.
Qed.

Lemma strip_blank (s : text) : blank s -> strip s = [].
Proof. intros H. unfold strip, rstrip. rewrite (lstrip_blank s H). reflexivity. Qed.

Lemma strip_nil_blank (s : text) : strip s = [] -> blank s.
Proof.
  unfold strip, rstrip. intros H.
  apply (f_equal (@rev _)) in H. rewrite rev_involutive in H. simpl in H.
  apply drop_spaces_nil in H as [back [Hback Hrev]].
  apply (f_equal (@rev _)) in Hrev. rewrite rev_involutive in Hrev.
  destruct (drop_spaces_split is_space wide_space2 wide_space3 (length s) s (Nat.le_refl _))
    as [front [Hfront Hs]].
  rewrite Hs. apply blank_app.
  - exists front. split; [reflexivity | exact Hfront].
  - fold (lstrip s). rewrite Hrev. apply blank_backwards, Hback.
Qed.

Lemma nonempty_strip (s : text) : nonempty_text (strip s) = false <-> blank s.
Proof.
  split.
  - intros H. apply strip_nil_blank. destruct (strip s); [reflexivity | discriminate].
  - intros H. rewrite (strip_blank s H). reflexivity.
Qed.

Lemma nonblank_strip (s : text) : ~ blank s -> nonempty_text (strip s) = true.
Proof.
  intros H. destruct (nonempty_text (strip s)) eqn:E; [reflexivity|].
  exfalso; apply H, nonempty_strip; exact E.
Qed.

(** White space outside ASCII is removed like a blank, at both ends and
    only there. *)
Example strip_wide_spaces :
  strip (em_space ++ T " a" ++ no_break_space ++ T "b" ++ no_break_space ++ T " ")
  = T "a" ++ no_break_space ++ T "b"
  /\ strip (T "y" ++ no_break_space) = T "y"
  /\ strip (no_break_space ++ em_space) = []
  /\ McpServer.split (T "12.5" ++ em_space ++ T "7") = [T "12.5"; T "7"].
Proof. repeat split. Qed.

(** A text that [strip] leaves nothing of is blank. *)
Lemma blank_by_strip (s : text) : nonempty_text (strip s) = false -> blank s.
Proof. apply nonempty_strip. Qed.

(** A text that [strip] leaves something of is not blank. *)
Lemma not_blank_by_strip (s : text) : nonempty_text (strip s) = true -> ~ blank s.
Proof. intros E H. apply nonempty_strip in H. congruence. Qed.

Section Server.
Context {pyfloat : Type} {RT : Runtime pyfloat}.

Lemma process_failure_answers (e : PyExc) (timed_out : text) :
  is_Exception (exc_class e) = true ->
  exists d, process_failure (pyfloat := pyfloat) e timed_out = Returns (PDict d).
Proof.
  intros He. unfold process_failure, error_dict.
  destruct (exc_class e); try discriminate He; eexists; reflexivity.
Qed.

Lemma process_failure_passes (e : PyExc) (timed_out : text) :
  is_Exception (exc_class e) = false ->
  process_failure (pyfloat := pyfloat) e timed_out = Raises e.
Proof.
  intros He. unfold process_failure. destruct (exc_class e); try discriminate He; reflexivity.
Qed.

(** X1.  A worker turns an exception of class [Exception] into a result:
    whatever the operating system answers (a value, or such an exception
    from [open], [subprocess.run] or [connect]), each of the capability
    functions returns a mapping; [scan_port] does once [socket.socket] and
    [settimeout] have returned.  These two calls stand before its [try]: an
    exception of either, whatever its class, leaves [scan_port].  Otherwise
    only an exception outside [Exception] (a [KeyboardInterrupt], a
    [SystemExit]) raised by the system call leaves a function, and it leaves
    it as it is. *)
Theorem workers_always_answer :
  (forall path (opened : Outcome text), recoverable opened ->
     exists d, read_file (pyfloat := pyfloat) path opened = Returns (PDict d))
  /\ (forall path text_ (written : Outcome unit), recoverable written ->
      exists d, append_log (pyfloat := pyfloat) path text_ written = Returns (PDict d))
  /\ (forall command timeout (ran : Outcome CompletedProcess), recoverable ran ->
      exists d, run_command (pyfloat := pyfloat) command timeout ran = Returns (PDict d))
  /\ (forall host count timeout which (ran : Outcome CompletedProcess), recoverable ran ->
      exists d, ping_host (pyfloat := pyfloat) host count timeout which ran = Returns (PDict d))
  /\ (forall host port (timeout : pyfloat) (connected : Outcome pyfloat), recoverable connected ->
      exists d, fst (scan_port host port timeout (Returns tt) (Returns tt) connected)
                = Returns (PDict d))
  /\ (forall host port (timeout : pyfloat) (created limited : Outcome unit)
        (connected : Outcome pyfloat) (e : PyExc),
      ~ blank host -> (0 < port < 65536)%Z ->
      (created = Raises e ->
       scan_port host port timeout created limited connected = (Raises e, []))
      /\ (created = Returns tt -> limited = Raises e ->
          fst (scan_port host port timeout created limited connected) = Raises e
          /\ ~ In SockClose (snd (scan_port host port timeout created limited connected))))
  /\ (forall host command user port key_path timeout which (ran : Outcome CompletedProcess),
      recoverable ran ->
      exists d, ssh_command (pyfloat := pyfloat) host command user port key_path timeout which ran
                = Returns (PDict d))
  /\ (forall (e : PyExc), is_Exception (exc_class e) = false ->
      (forall path, read_file (pyfloat := pyfloat) path (Raises e) = Raises e)
      /\ (forall path text_, append_log (pyfloat := pyfloat) path text_ (Raises e) = Raises e)
      /\ (forall command timeout, ~ blank command ->
          run_command (pyfloat := pyfloat) command timeout (Raises e) = Raises e)
      /\ (forall host count timeout ping_bin, ~ blank host ->
          ping_host (pyfloat := pyfloat) host count timeout (Some ping_bin) (Raises e) = Raises e)
      /\ (forall host port (timeout : pyfloat), ~ blank host -> (0 < port < 65536)%Z ->
          fst (scan_port host port timeout (Returns tt) (Returns tt) (Raises e)) = Raises e)
      /\ (forall host command user port key_path timeout ssh_bin,
          ~ blank host -> ~ blank command ->
          ssh_command (pyfloat := pyfloat) host command user port key_path timeout
            (Some ssh_bin) (Raises e) = Raises e)).
Proof.
  repeat match goal with |- _ /\ _ => split end.
  - intros path [data|e] H; simpl in *; [eexists; reflexivity|].
    destruct (exc_class e); try discriminate H; eexists; reflexivity.
  - intros path text_ [u|e] H; simpl in *; [eexists; reflexivity|].
    rewrite H. eexists; reflexivity.
  - intros command timeout ran H. unfold run_command.
    destruct (negb (nonempty_text (strip command))); [eexists; reflexivity|].
    destruct ran as [result|e]; [eexists; reflexivity|].
    apply process_failure_answers; exact H.
  - intros host count timeout which ran H. unfold ping_host.
    destruct (negb (nonempty_text (strip host))); [eexists; reflexivity|].
    destruct which as [ping_bin|]; [|eexists; reflexivity].
    destruct ran as [result|e]; [eexists; reflexivity|].
    apply process_failure_answers; exact H.
  - intros host port timeout connected H. unfold scan_port, scan_attempt.
    destruct (negb (nonempty_text (strip host))); [eexists; reflexivity|].
    destruct (negb ((0 <? port)%Z && (port <? 65536)%Z)); [eexists; reflexivity|].
    destruct connected as [took|e]; [eexists; reflexivity|]. simpl in H.
    destruct (exc_class e); try discriminate H; eexists; reflexivity.
  - intros host port timeout created limited connected e Hh Hp. unfold scan_port.
    rewrite (nonblank_strip _ Hh).
    replace ((0 <? port)%Z && (port <? 65536)%Z) with true
      by (symmetry; apply andb_true_iff; split; apply Z.ltb_lt; lia).
    cbn [negb]. cbv iota. split.
    + intros ->. reflexivity.
    + intros -> ->. cbv zeta. split; [reflexivity|].
      simpl. intros [H|[H|[]]]; discriminate H.
  - intros host command user port key_path timeout which ran H. unfold ssh_command.
    destruct (negb (nonempty_text (strip host))); [eexists; reflexivity|].
    destruct (negb (nonempty_text (strip command))); [eexists; reflexivity|].
    destruct which as [ssh_bin|]; [|eexists; reflexivity].
    destruct ran as [result|e]; [eexists; reflexivity|].
    apply process_failure_answers; exact H.
  - intros e H. repeat match goal with |- _ /\ _ => split end.
    + intros path. simpl. destruct (exc_class e); try discriminate H; reflexivity.
    + intros path text_. simpl. rewrite H. reflexivity.
    + intros command timeout Hc. unfold run_command.
      destruct (nonempty_text (strip command)) eqn:E;
        [|exfalso; apply Hc, nonempty_strip; exact E].
      simpl. apply process_failure_passes; exact H.
    + intros host count timeout ping_bin Hh. unfold ping_host.
      destruct (nonempty_text (strip host)) eqn:E;
        [|exfalso; apply Hh, nonempty_strip; exact E].
      simpl. apply process_failure_passes; exact H.
    + intros host port timeout Hh Hp. unfold scan_port, scan_attempt.
      destruct (nonempty_text (strip host)) eqn:E;
        [|exfalso; apply Hh, nonempty_strip; exact E].
      replace ((0 <? port)%Z && (port <? 65536)%Z) with true
        by (symmetry; apply andb_true_iff; split; apply Z.ltb_lt; lia).
      simpl. destruct (exc_class e); try discriminate H; reflexivity.
    + intros host command user port key_path timeout ssh_bin Hh Hc. unfold ssh_command.
      destruct (nonempty_text (strip host)) eqn:E;
        [|exfalso; apply Hh, nonempty_strip; exact E].
      destruct (nonempty_text (strip command)) eqn:E';
        [|exfalso; apply Hc, nonempty_strip; exact E'].
      simpl. apply process_failure_passes; exact H.
Qed.

(** X2.  Validation comes before anything is run.  A command or a host of
    white space only (the empty text included) is answered with an error
    result that names the argument, and so is a missing [ping] or [ssh]
    binary; the result is the same whatever the operating system would have
    answered, and [scan_port] touches no socket. *)
Theorem blank_arguments_are_rejected :
  (forall command timeout (ran : Outcome CompletedProcess), blank command ->
     run_command (pyfloat := pyfloat) command timeout ran
     = Returns (error_dict (T "command cannot be empty")))
  /\ (forall host count timeout which (ran : Outcome CompletedProcess), blank host ->
      ping_host (pyfloat := pyfloat) host count timeout which ran
      = Returns (error_dict (T "host is required")))
  /\ (forall host port (timeout : pyfloat) (created limited : Outcome unit)
        (connected : Outcome pyfloat), blank host ->
      scan_port host port timeout created limited connected
      = (Returns (error_dict (T "host is required")), []))
  /\ (forall host command user port key_path timeout which (ran : Outcome CompletedProcess),
      blank host ->
      ssh_command (pyfloat := pyfloat) host command user port key_path timeout which ran
      = Returns (error_dict (T "host is required")))
  /\ (forall host command user port key_path timeout which (ran : Outcome CompletedProcess),
      ~ blank host -> blank command ->
      ssh_command (pyfloat := pyfloat) host command user port key_path timeout which ran
      = Returns (error_dict (T "command is required")))
  /\ (forall host count timeout (ran : Outcome CompletedProcess), ~ blank host ->
      ping_host (pyfloat := pyfloat) host count timeout None ran
      = Returns (error_dict (T "ping binary not available")))
  /\ (forall host command user port key_path timeout (ran : Outcome CompletedProcess),
      ~ blank host -> ~ blank command ->
      ssh_command (pyfloat := pyfloat) host command user port key_path timeout None ran
      = Returns (error_dict (T "ssh binary not available"))).
Proof.
  repeat match goal with |- _ /\ _ => split end.
  - intros command timeout ran H. unfold run_command. rewrite (strip_blank _ H). reflexivity.
  - intros host count timeout which ran H. unfold ping_host. rewrite (strip_blank _ H).
    reflexivity.
  - intros host port timeout created limited connected H. unfold scan_port.
    rewrite (strip_blank _ H). reflexivity.
  - intros host command user port key_path timeout which ran H. unfold ssh_command.
    rewrite (strip_blank _ H). reflexivity.
  - intros host command user port key_path timeout which ran Hh H. unfold ssh_command.
    rewrite (nonblank_strip _ Hh), (strip_blank _ H). reflexivity.
  - intros host count timeout ran Hh. unfold ping_host. rewrite (nonblank_strip _ Hh).
    reflexivity.
  - intros host command user port key_path timeout ran Hh Hc. unfold ssh_command.
    rewrite (nonblank_strip _ Hh), (nonblank_strip _ Hc). reflexivity.
Qed.

(** X3.  [scan_port] asks for a socket only for a host that is not blank
    and a port from 1 to 65535 (any other port is answered with an error
    result and no socket).  When [socket.socket] raises, the exception leaves
    the function and there is no socket.  When it returns, the time limit is
    set (at least 0.1 s); an exception of [settimeout] leaves the function
    with the socket open.  Otherwise one connection attempt is made, to the
    host and the port that were given, and the socket is closed, whatever the
    attempt ended in: a connection, a refusal, any exception, even one that
    leaves the function.  So a socket on which a connection was attempted is
    closed, and one that was made is left open only by an exception of
    [settimeout]. *)
Theorem scan_port_socket_discipline (host : text) (port : Z) (timeout : pyfloat)
  (created limited : Outcome unit) (connected : Outcome pyfloat) :
  let setting := SockSetTimeout (float_max (float_of_literal (T "0.1")) timeout) in
  let events := snd (scan_port host port timeout created limited connected) in
  ((port <= 0)%Z \/ (65536 <= port)%Z -> ~ blank host ->
     scan_port host port timeout created limited connected
     = (Returns (error_dict (T "port must be between 1 and 65535")), []))
  /\ ((1 <= port <= 65535)%Z -> ~ blank host ->
      match created, limited with
      | Raises e, _ =>
        scan_port host port timeout created limited connected = (Raises e, [])
      | Returns _, Raises e =>
        scan_port host port timeout created limited connected
        = (Raises e, [SockOpen; setting])
      | Returns _, Returns _ =>
        events = [SockOpen; setting; SockConnect host port; SockClose]
      end)
  /\ (In (SockConnect host port) events ->
      events = [SockOpen; setting; SockConnect host port; SockClose])
  /\ (In SockOpen events ->
      In SockClose events \/ exists e, limited = Raises e).
Proof.
  cbv zeta. unfold scan_port.
  destruct (nonempty_text (strip host)) eqn:Eh; cbn [negb]; cbv iota.
  2:{ apply nonempty_strip in Eh.
      split; [intros _ H; contradiction|]. split; [intros _ H; contradiction|].
      split; intros []. }
  destruct ((0 <? port)%Z && (port <? 65536)%Z) eqn:Ep; cbn [negb]; cbv iota.
  2:{ split; [reflexivity|]. split; [|split; intros []].
      intros Hp _. apply andb_false_iff in Ep as [H|H]; apply Z.ltb_ge in H; lia. }
  apply andb_true_iff in Ep as [H1 H2]. apply Z.ltb_lt in H1, H2.
  split; [intros; lia|].
  assert (Hev : snd (scan_attempt host port connected) = [SockConnect host port; SockClose]).
  { unfold scan_attempt. destruct connected as [took|e]; [reflexivity|].
    destruct (exc_class e); try reflexivity; destruct (is_Exception _); reflexivity. }
  destruct created as [[]|e1]; [|split; [reflexivity | split; intros []]].
  destruct limited as [[]|e2].
  - destruct (scan_attempt host port connected) as [result evs]. simpl in Hev. subst evs.
    cbn [snd]. split; [reflexivity|]. split; [reflexivity|].
    intros _. left. simpl. auto.
  - cbn [snd]. split; [reflexivity|]. split.
    + intros [H|[H|[]]]; discriminate H.
    + intros _. right. exists e2. reflexivity.
Qed.

Lemma clamped_count_bounds (count : Z) :
  (1 <= clamped_count count <= 10)%Z /\ ((1 <= count <= 10)%Z -> clamped_count count = count).
Proof. unfold clamped_count; lia. Qed.

Lemma clamped_wait_bounds (timeout : Z) :
  (1 <= clamped_wait timeout)%Z /\ ((1 <= timeout)%Z -> clamped_wait timeout = timeout).
Proof. unfold clamped_wait; lia. Qed.

(** X4.  [ping_host] never passes [ping] a count outside 1..10 or a wait
    below one second: the command line it runs, which it reports in the
    [command] field with every word quoted for the shell, has the count
    brought into 1..10 and the wait raised to 1 when it is lower; values
    inside the bounds are passed as they are. *)
Theorem ping_host_clamps (host : text) (count timeout : Z) (ping_bin : text)
  (proc : CompletedProcess) :
  ~ blank host ->
  exists d,
    ping_host (pyfloat := pyfloat) host count timeout (Some ping_bin) (Returns proc)
    = Returns (PDict d)
    /\ dict_get d (T "command")
       = Some (PStr (join (T " ")
                       (map shlex_quote
                          [ping_bin; T "-c"; str_of_Z (clamped_count count);
                           T "-W"; str_of_Z (clamped_wait timeout); host])))
    /\ (1 <= clamped_count count <= 10)%Z
    /\ (1 <= clamped_wait timeout)%Z
    /\ ((1 <= count <= 10)%Z -> clamped_count count = count)
    /\ ((1 <= timeout)%Z -> clamped_wait timeout = timeout).
Proof.
  intros Hh. unfold ping_host. rewrite (nonblank_strip _ Hh). simpl negb. cbv iota.
  eexists. split; [reflexivity|]. split; [reflexivity|].
  destruct (clamped_count_bounds count), (clamped_wait_bounds timeout). auto.
Qed.

(** X5.  What [read_file] returns always has a [content] that is a text and
    never a [status]: the text of the file when it was read, and the empty
    text together with an [error] when it was not.  A file that does not
    exist is reported as [file not found], whatever the text of the
    exception; any other failure by its own text. *)
Theorem read_file_result (path : text) (opened : Outcome text) :
  recoverable opened ->
  exists d,
    read_file (pyfloat := pyfloat) path opened = Returns (PDict d)
    /\ dict_has d (T "status") = false
    /\ (forall data, opened = Returns data ->
        dict_get d (T "content") = Some (PStr data) /\ dict_has d (T "error") = false)
    /\ (forall e, opened = Raises e ->
        dict_get d (T "content") = Some (PStr [])
        /\ dict_get d (T "error")
           = Some (PStr (match exc_class e with
                         | FileNotFoundError => T "file not found"
                         | _ => exc_str e
                         end))).
Proof.
  intros H. destruct opened as [data|e]; simpl in *.
  - eexists. split; [reflexivity|]. split; [reflexivity|]. split.
    + intros ? [= <-]. split; reflexivity.
    + intros ? [=].
  - destruct (exc_class e) eqn:Ec; try discriminate H;
      (eexists; split; [reflexivity|]; split; [reflexivity|]; split;
       [intros ? [=] | intros ? [= <-]; rewrite Ec; split; reflexivity]).
Qed.

(** X6.  The exit status decides.  When the process ran, what
    [run_command], [ping_host] and [ssh_command] return has exactly the keys
    [status], [returncode], [stdout], [stderr] and [command], in this order;
    [status] is [ok] exactly when the return code is zero and [error]
    otherwise (an [error] that comes without an [error] message); the two
    outputs are reported without the white space around them; and
    [run_command] reports the command as it was given, blanks included. *)
Theorem exit_status_decides (proc : CompletedProcess) :
  (forall command timeout, ~ blank command ->
     exists d,
       run_command (pyfloat := pyfloat) command timeout (Returns proc) = Returns (PDict d)
       /\ reports d proc /\ dict_get d (T "command") = Some (PStr command)
       /\ dict_has d (T "error") = false)
  /\ (forall host count timeout ping_bin, ~ blank host ->
      exists d,
        ping_host (pyfloat := pyfloat) host count timeout (Some ping_bin) (Returns proc)
        = Returns (PDict d)
        /\ reports d proc /\ dict_has d (T "error") = false)
  /\ (forall host command user port key_path timeout ssh_bin,
      ~ blank host -> ~ blank command ->
      exists d,
        ssh_command (pyfloat := pyfloat) host command user port key_path timeout
          (Some ssh_bin) (Returns proc) = Returns (PDict d)
        /\ reports d proc /\ dict_has d (T "error") = false).
Proof.
  split; [|split].
  - intros command timeout Hc. unfold run_command. rewrite (nonblank_strip _ Hc).
    simpl negb. cbv iota. eexists. split; [reflexivity|].
    unfold reports. repeat split; reflexivity.
  - intros host count timeout ping_bin Hh. unfold ping_host. rewrite (nonblank_strip _ Hh).
    simpl negb. cbv iota. eexists. split; [reflexivity|].
    unfold reports. repeat split; reflexivity.
  - intros host command user port key_path timeout ssh_bin Hh Hc. unfold ssh_command.
    rewrite (nonblank_strip _ Hh), (nonblank_strip _ Hc). simpl negb. cbv iota.
    eexists. split; [reflexivity|]. unfold reports. repeat split; reflexivity.
Qed.

End Server.

Lemma ping_host_clamps_witness :
  exists d,
    ping_host (pyfloat := text) (T "example.com") 100 0 (Some (T "/usr/bin/ping"))
      (Returns (mkProcess 0 (T "ok") []))
    = Returns (PDict d)
    /\ dict_get d (T "command")
       = Some (PStr (T "/usr/bin/ping -c 10 -W 1 example.com")).
Proof.
  destruct (ping_host_clamps (pyfloat := text) (T "example.com") 100 0 (T "/usr/bin/ping")
              (mkProcess 0 (T "ok") [])) as (d & Hd & Hc & _).
  - apply not_blank_by_strip. reflexivity.
  - exists d. split; [exact Hd|]. rewrite Hc. reflexivity.
Defined.

Lemma read_file_result_witness :
  exists d,
    read_file (pyfloat := text) (T "notes.txt")
      (Raises (mkExc FileNotFoundError (T "[Errno 2] No such file or directory: 'notes.txt'")))
    = Returns (PDict d)
    /\ dict_get d (T "error") = Some (PStr (T "file not found")).
Proof.
  destruct (read_file_result (pyfloat := text) (T "notes.txt")
              (Raises (mkExc FileNotFoundError
                         (T "[Errno 2] No such file or directory: 'notes.txt'"))))
    as (d & Hd & _ & _ & He).
  - reflexivity.
  - exists d. split; [exact Hd|]. apply (He _ eq_refl).
Defined.

End WorkerFacts.

(* ================================================================== *)
(** * The reply interpreter: what it returns and when it returns nothing *)
(* ================================================================== *)

Module ExtractFacts.
Import Interpreter LexSpec Lexing FirstObject.

Section Extract.
Context {pyfloat : Type} {RT : Runtime pyfloat}.

(** [JSONObject] gives a [dict]. *)
Lemma parse_members_dict (fuel : nat) :
  forall room s pairs (v : PyVal pyfloat) rest,
  parse_members fuel room s pairs = Parsed v rest -> exists d, v = PDict d.
Proof.
  induction fuel as [|f IH]; intros room s pairs v rest H; [discriminate|].
  simpl in H.
  destruct (scanstring s) as [[key s1]|]; [|discriminate].
  destruct (skip_ws s1) as [|c s2]; [discriminate|].
  destruct (Ascii.eqb c ":"); [|discriminate].
  destruct (parse_value f room (skip_ws s2)) as [v1 s3| | |]; try discriminate.
  destruct (skip_ws s3) as [|d s4]; [discriminate|].
  destruct (Ascii.eqb d "}").
  - injection H as <- _. eexists; reflexivity.
  - destruct (Ascii.eqb d ","); [|discriminate].
    destruct (skip_ws s4) as [|q s5]; [discriminate|].
    destruct (Ascii.eqb q dquote); [|discriminate].
    eapply IH; exact H.
Qed.

Lemma parse_value_brace (f inside : nat) (r : text) :
  parse_value (pyfloat := pyfloat) (S f) (S inside) ("{"%char :: r)
  = match skip_ws r with
    | d :: r1 =>
      if Ascii.eqb d "}" then Parsed (PDict []) r1
      else if Ascii.eqb d dquote then parse_members f inside r1 []
      else Malformed
    | [] => Malformed
    end.
Proof. reflexivity. Qed.

(** A text that starts with an opening brace decodes to a [dict], if it
    decodes at all. *)
Lemma json_loads_brace (r : text) (v : PyVal pyfloat) :
  json_loads ("{"%char :: r) = Decoded v -> exists d, v = PDict d.
Proof.
  unfold json_loads. change (skip_ws ("{"%char :: r)) with ("{"%char :: r).
  destruct decoder_depth as [|inside]; [discriminate|].
  rewrite parse_value_brace.
  destruct (skip_ws r) as [|d r1]; [discriminate|].
  destruct (Ascii.eqb d "}").
  - destruct (skip_ws r1); [|discriminate]. intros [= <-]. eexists; reflexivity.
  - destruct (Ascii.eqb d dquote); [|discriminate].
    destruct (parse_members _ _ r1 []) as [v' rest| | |] eqn:Ep; try discriminate.
    destruct (skip_ws rest); [|discriminate]. intros [= <-].
    eapply parse_members_dict; exact Ep.
Qed.

(** What the extraction returns is read from a span of the text. *)
Lemma extract_span (s : text) (v : PyVal pyfloat) :
  _extract_json_object s = Returns (Some v) ->
  exists start n r c',
    firstn n (skipn start s) = "{"%char :: r
    /\ firstn n (skipn start s) = c' ++ ["}"%char]
    /\ json_loads (firstn n (skipn start s)) = Decoded v.
Proof.
  intros H. pose proof (extract_spec s) as Hs. rewrite H in Hs. symmetry in Hs.
  revert Hs. clear H. unfold first_embedded_object. intros H.
  apply first_some_in in H as (start & _ & H). unfold objects_from in H.
  apply first_some_in in H as (n & _ & H).
  apply object_at_shape in H as (r & c' & H1 & H2 & H3).
  exists start, n, r, c'. auto.
Qed.

Lemma in_span {A : Type} (s : list A) (start n : nat) (x : A) :
  In x (firstn n (skipn start s)) -> In x s.
Proof.
  intros H. rewrite <- (firstn_skipn start s). apply in_or_app. right.
  rewrite <- (firstn_skipn n (skipn start s)). apply in_or_app. left. exact H.
Qed.

(** X7.  What [_extract_json_object] returns is always an object, a [dict],
    as its annotation says, never a list, a text or a number: the span it
    decodes starts with an opening brace, and such a text decodes to a
    [dict].  The value is the decoding of a span of the text that starts with
    an opening brace and ends with a closing one. *)
Theorem extract_returns_an_object (s : text) (v : PyVal pyfloat) :
  _extract_json_object s = Returns (Some v) ->
  (exists d, v = PDict d)
  /\ exists before span after,
       s = before ++ span ++ after
       /\ hd_error span = Some "{"%char
       /\ last span " "%char = "}"%char
       /\ json_loads span = Decoded v.
Proof.
  intros H. apply extract_span in H as (start & n & r & c' & H1 & H2 & H3). split.
  - rewrite H1 in H3. eapply json_loads_brace; exact H3.
  - exists (firstn start s), (firstn n (skipn start s)), (skipn n (skipn start s)).
    split; [rewrite firstn_skipn, firstn_skipn; reflexivity|].
    split; [rewrite H1; reflexivity|].
    split; [rewrite H2; apply last_last | exact H3].
Qed.

(** X8.  A text without a closing brace, or without an opening one, holds no
    object: [_extract_json_object] returns [None] on it, and so it does on
    the empty text. *)
Theorem extract_needs_both_braces :
  (forall s : text, ~ In "}"%char s ->
     _extract_json_object (pyfloat := pyfloat) s = Returns None)
  /\ (forall s : text, ~ In "{"%char s ->
      _extract_json_object (pyfloat := pyfloat) s = Returns None)
  /\ _extract_json_object (pyfloat := pyfloat) [] = Returns None.
Proof.
  assert (Hclose : forall s : text, ~ In "}"%char s ->
            _extract_json_object (pyfloat := pyfloat) s = Returns None).
  { intros s Hs. pose proof (extract_spec (pyfloat := pyfloat) s) as Hx.
    destruct (_extract_json_object s) as [[v|]|e] eqn:E; [|reflexivity|]; exfalso.
    - apply extract_span in E as (start & n & r & c' & _ & H2 & _).
      apply Hs, (in_span s start n). rewrite H2. apply in_or_app. right. left. reflexivity.
    - destruct Hx as [start [_ [Hraise _]]]. unfold attempt in Hraise.
      destruct (scan_span (skipn start s) start 0 false false) as [idx|] eqn:Es;
        [|discriminate].
      apply scan_span_hit in Es as [_ Hn]. apply nth_error_In in Hn.
      apply Hs. rewrite <- (firstn_skipn start s). apply in_or_app. right. exact Hn. }
  assert (Hopen : forall s : text, ~ In "{"%char s ->
            _extract_json_object (pyfloat := pyfloat) s = Returns None).
  { intros s Hs. unfold _extract_json_object.
    pose proof (find_spec s "{" 0) as Hf.
    destruct (find s "{" 0) as [start|]; [|reflexivity].
    exfalso. destruct Hf as [_ [Hn _]]. apply Hs. eapply nth_error_In; exact Hn. }
  split; [exact Hclose|]. split; [exact Hopen|]. apply Hclose. intros [].
Qed.

End Extract.

Lemma extract_returns_an_object_witness :
  exists d : Dict text,
    _extract_json_object (quote_marks "I will read it: {'tool': 'read_file'} now")
    = Returns (Some (PDict d)).
Proof.
  assert (E : _extract_json_object (quote_marks "I will read it: {'tool': 'read_file'} now")
              = Returns (Some (PDict [(T "tool", PStr (T "read_file"))] : PyVal text)))
    by (vm_compute; reflexivity).
  destruct (extract_returns_an_object (pyfloat := text)
              (quote_marks "I will read it: {'tool': 'read_file'} now")
              (PDict [(T "tool", PStr (T "read_file"))]) E) as [[d Hd] _].
  exists d. rewrite <- Hd. exact E.
Defined.

End ExtractFacts.

(* ================================================================== *)
(** * Invariants of a run *)
(* ================================================================== *)

Module Steps.
Import AgentSpec RunSpec McpClient CliAgent.
Local Open Scope py_scope.

Section Generic.
Context {pyfloat : Type} {RT : Runtime pyfloat}.
Variable R : World pyfloat -> World pyfloat -> Prop.
Hypothesis R_refl : forall w, R w w.
Hypothesis R_trans : forall a b c, R a b -> R b c -> R a c.

Lemma steps_ret {A : Type} (a : A) : steps R (ret a).
Proof. intros w; apply R_refl. Qed.

Lemma steps_raise {A : Type} (e : PyExc) : steps R (raise (A := A) e).
Proof. intros w; apply R_refl. Qed.

Lemma steps_block {A : Type} : steps R (block (A := A)).
Proof. intros w; apply R_refl. Qed.

Lemma steps_lift {A : Type} (o : Outcome A) : steps R (lift o).
Proof. destruct o; [apply steps_ret | apply steps_raise]. Qed.

Lemma steps_within {A : Type} (body : M pyfloat A) :
  steps R body -> steps R (within_task_groups body).
Proof.
  intros Hm w. unfold within_task_groups. specialize (Hm w).
  destruct (body w); exact Hm.
Qed.

Lemma steps_get_messages : steps R get_messages.
Proof. intros w; apply R_refl. Qed.

Lemma steps_bind {A B : Type} (m : M pyfloat A) (k : A -> M pyfloat B) :
  steps R m -> (forall a, steps R (k a)) -> steps R (bind m k).
Proof.
  intros Hm Hk w. unfold bind. specialize (Hm w).
  destruct (m w) as [a w1|e w1|w1]; simpl in *; [|exact Hm|exact Hm].
  eapply R_trans; [exact Hm | apply Hk].
Qed.

Lemma steps_try_except {A : Type} (m : M pyfloat A) (handler : PyExc -> M pyfloat A) :
  steps R m -> (forall e, steps R (handler e)) -> steps R (try_except m handler).
Proof.
  intros Hm Hh w. unfold try_except. specialize (Hm w).
  destruct (m w) as [a w1|e w1|w1]; simpl in *; [exact Hm| |exact Hm].
  destruct (is_Exception (exc_class e)); [|exact Hm].
  eapply R_trans; [exact Hm | apply Hh].
Qed.

Lemma steps_with_world {A : Type} (f : World pyfloat -> M pyfloat A) :
  (forall w0, steps R (f w0)) -> steps R (fun w => f w w).
Proof. intros H w. apply (H w w). Qed.

End Generic.

(** One step of a proof that a computation built from the combinators keeps
    a relation that is reflexive ([Hrefl]) and transitive ([Htrans]). *)
Tactic Notation "steps_step" uconstr(Hrefl) uconstr(Htrans) :=
  first
    [ apply (steps_ret _ Hrefl)
    | apply (steps_raise _ Hrefl)
    | apply (steps_block _ Hrefl)
    | apply (steps_lift _ Hrefl)
    | apply (steps_get_messages _ Hrefl)
    | apply (steps_bind _ Htrans); [|intros ?]
    | apply (steps_try_except _ Htrans); [|intros ?]
    | apply steps_within
    | match goal with
      | |- steps _ (if ?b then _ else _) => destruct b
      | |- steps _ (match ?x with _ => _ end) => destruct x
      end ].

(** ** The world only grows *)

Section Grows.
Context {pyfloat : Type} {RT : Runtime pyfloat}.

Lemma grows_refl (w : World pyfloat) : grows w w.
Proof.
  repeat split; [exists [] | exists [] | exists [] | exists []];
    try (rewrite app_nil_r; auto); reflexivity.
Qed.

Lemma grows_trans (a b c : World pyfloat) : grows a b -> grows b c -> grows a c.
Proof.
  intros ((m1 & Hm1 & Hr1) & (e1 & He1) & (r1 & Hs1) & (u1 & Hu1))
         ((m2 & Hm2 & Hr2) & (e2 & He2) & (r2 & Hs2) & (u2 & Hu2)).
  repeat split.
  - exists (m1 ++ m2). split; [rewrite Hm2, Hm1, app_assoc; reflexivity|].
    apply Forall_app; auto.
  - exists (e1 ++ e2). rewrite He2, He1, app_assoc; reflexivity.
  - exists (r1 ++ r2). rewrite Hs1, Hs2, app_assoc; reflexivity.
  - exists (u1 ++ u2). rewrite Hu1, Hu2, app_assoc; reflexivity.
Qed.

Lemma grows_event (ev : Event pyfloat) (w : World pyfloat) : grows w (record_event ev w).
Proof.
  repeat split; simpl; [exists [] | exists [ev] | exists [] | exists []];
    try (rewrite app_nil_r; auto); reflexivity.
Qed.

Lemma grows_emit (ev : Event pyfloat) : steps grows (emit ev).
Proof. intros w. apply grows_event. Qed.

Lemma grows_print (line : text) : steps grows (print (pyfloat := pyfloat) line).
Proof. apply grows_emit. Qed.

Lemma grows_append_message (m : Message pyfloat) :
  chat_role m -> steps grows (append_message m).
Proof.
  intros Hm w. repeat split; simpl; [exists [m] | exists [] | exists [] | exists []];
    try (rewrite app_nil_r; auto); auto.
Qed.

Lemma grows_input (prompt : text) : steps grows (input (pyfloat := pyfloat) prompt).
Proof.
  intros w. unfold input. destruct (stdin w) as [|[line|e] rest] eqn:E; simpl;
    (repeat split; simpl;
     [ exists []; rewrite app_nil_r; auto
     | exists [EvInput prompt]; reflexivity
     | first [ exists []; rewrite E; reflexivity | eexists [_]; rewrite E; reflexivity ]
     | exists []; reflexivity ]).
Qed.

Lemma grows_session (name : text) (arguments : PyVal pyfloat) :
  steps grows (call_tool_session name arguments).
Proof.
  intros w. unfold call_tool_session. destruct (sessions w) as [|[r|e] rest] eqn:E; simpl;
    (repeat split; simpl;
     [ exists []; rewrite app_nil_r; auto
     | exists [EvSession name arguments]; reflexivity
     | exists []; reflexivity
     | first [ exists []; rewrite E; reflexivity | eexists [_]; rewrite E; reflexivity ] ]).
Qed.

End Grows.

(** One step of a proof that a computation only makes the world grow. *)
Ltac grows_step :=
  first
    [ apply grows_emit | apply grows_print | apply grows_input | apply grows_session
    | apply grows_append_message; first [left; reflexivity | right; reflexivity]
    | steps_step grows_refl grows_trans ].

Section AgentGrows.
Context {pyfloat : Type} {RT : Runtime pyfloat}.

Lemma grows_preview_of (tool_name : text) (args : PyVal pyfloat) :
  steps grows (preview_of tool_name args).
Proof. unfold preview_of, int_arg, str_arg. repeat grows_step. Qed.

Lemma grows_confirm_loop (fuel : nat) (prompt : text) :
  steps grows (confirm_loop (pyfloat := pyfloat) fuel prompt).
Proof. induction fuel as [|f IH]; simpl; repeat first [exact IH | grows_step]. Qed.

Lemma grows_confirm_tool (tool_name : text) (args : PyVal pyfloat) :
  steps grows (_confirm_tool tool_name args).
Proof.
  unfold _confirm_tool. apply (steps_bind _ grows_trans); [apply grows_preview_of|].
  intros preview.
  apply (steps_with_world grows (fun w0 => confirm_loop (S (length (stdin w0))) _)).
  intros w0. apply grows_confirm_loop.
Qed.

Lemma grows_call_tool (name : text) (arguments : PyVal pyfloat) :
  steps grows (_call_tool name arguments).
Proof. unfold _call_tool. repeat grows_step. Qed.

Lemma grows_call_tool_function (tool : Tool) (args : PyVal pyfloat) :
  steps grows (call_tool_function tool args).
Proof.
  destruct tool; simpl;
    unfold McpClient.read_file, McpClient.append_log, McpClient.run_command,
      McpClient.system_info, McpClient.ping_host, McpClient.scan_port,
      McpClient.ssh_command;
    repeat first [apply grows_call_tool | grows_step].
Qed.

Lemma grows_invoke (tool : Tool) (args : PyVal pyfloat) : steps grows (invoke tool args).
Proof. unfold invoke. repeat first [apply grows_call_tool_function | grows_step]. Qed.

Lemma grows_dispatch (reply : text) (d : Dict pyfloat) (tool_name : PyVal pyfloat)
  (assistant_logged : bool) :
  steps grows (dispatch reply d tool_name assistant_logged).
Proof.
  unfold dispatch, tool_result_message.
  repeat first [apply grows_confirm_tool | apply grows_invoke | grows_step].
Qed.

Lemma grows_interpret_reply (reply : text) :
  steps grows (interpret_reply (pyfloat := pyfloat) reply).
Proof.
  unfold interpret_reply, act_on, plain_reply.
  repeat first [apply grows_dispatch | grows_step].
Qed.

(** X9.  A run of [process_assistant] only adds to what is there: the
    transcript it was given is a prefix of the transcript it leaves, and the
    messages it appends are all of role [assistant] or [user] (never
    [system]); the trace grows at its end; the lines of the terminal and the
    answers of the workers are taken from the front, in their order.  This
    holds for every run, also one that ends with an exception or waits. *)
Theorem process_assistant_only_appends (chat : list (Outcome text)) (w : World pyfloat) :
  let w' := final (process_assistant chat w) in
  (exists added,
     messages w' = messages w ++ added
     /\ Forall (fun m => role m = T "assistant" \/ role m = T "user") added)
  /\ (exists evs, trace w' = trace w ++ evs)
  /\ (exists read, stdin w = read ++ stdin w')
  /\ (exists used, sessions w = used ++ sessions w').
Proof.
  cbv zeta. change (grows w (final (process_assistant chat w))). revert w.
  change (steps grows (process_assistant (pyfloat := pyfloat) chat)).
  induction chat as [|answer later IH]; simpl; unfold ask_ollama;
    repeat first [exact IH | apply grows_interpret_reply | grows_step].
Qed.

End AgentGrows.

(** ** No session without a yes *)

Section Licensed.
Context {pyfloat : Type} {RT : Runtime pyfloat}.

Lemma session_count_app (a b : list (Event pyfloat)) :
  session_count (a ++ b) = session_count a + session_count b.
Proof. unfold session_count. rewrite filter_app, length_app. reflexivity. Qed.

Lemma yes_count_app (a b : list (Outcome text)) : yes_count (a ++ b) = yes_count a + yes_count b.
Proof. unfold yes_count. rewrite filter_app, length_app. reflexivity. Qed.

Lemma licensed_refl (w : World pyfloat) : licensed 0 w w.
Proof. exists [], []. rewrite app_nil_r. repeat split. unfold session_count, yes_count. simpl. lia. Qed.

Lemma licensed_compose (m n : nat) (a b c : World pyfloat) :
  licensed m a b -> licensed n b c -> licensed (m + n) a c.
Proof.
  intros (e1 & r1 & He1 & Hs1 & H1) (e2 & r2 & He2 & Hs2 & H2).
  exists (e1 ++ e2), (r1 ++ r2). split; [rewrite He2, He1, app_assoc; reflexivity|].
  split; [rewrite Hs1, Hs2, app_assoc; reflexivity|].
  rewrite session_count_app, yes_count_app. lia.
Qed.

Lemma licensed_trans (a b c : World pyfloat) : licensed 0 a b -> licensed 0 b c -> licensed 0 a c.
Proof. apply (licensed_compose 0 0). Qed.

Lemma licensed_more (m n : nat) (a b : World pyfloat) : m <= n -> licensed m a b -> licensed n a b.
Proof.
  intros Hmn (e & r & He & Hs & H). exists e, r. repeat split; auto. lia.
Qed.

Lemma licensed_bind {A B : Type} (m n : nat) (c : M pyfloat A) (k : A -> M pyfloat B) :
  steps (licensed m) c -> (forall a, steps (licensed n) (k a)) ->
  steps (licensed (m + n)) (bind c k).
Proof.
  intros Hc Hk w. unfold bind. specialize (Hc w).
  destruct (c w) as [a w1|e w1|w1]; simpl in *;
    [|apply (licensed_more m); [lia | exact Hc] ..].
  eapply licensed_compose; [exact Hc | apply Hk].
Qed.

Lemma licensed_event (ev : Event pyfloat) (w : World pyfloat) :
  opens_session ev = false -> licensed 0 w (record_event ev w).
Proof.
  intros H. exists [ev], []. repeat split. unfold session_count, yes_count. simpl. rewrite H. simpl. lia.
Qed.

Lemma licensed_emit (ev : Event pyfloat) : opens_session ev = false -> steps (licensed 0) (emit ev).
Proof. intros H w. apply licensed_event, H. Qed.

Lemma licensed_print (line : text) : steps (licensed 0) (print (pyfloat := pyfloat) line).
Proof. apply licensed_emit. reflexivity. Qed.

Lemma licensed_append_message (m : Message pyfloat) : steps (licensed 0) (append_message m).
Proof. intros w. exists [], []. simpl. rewrite app_nil_r. repeat split. unfold session_count, yes_count. simpl. lia. Qed.

Lemma licensed_call_tool (name : text) (arguments : PyVal pyfloat) :
  steps (licensed 1) (_call_tool name arguments).
Proof.
  intros w. unfold _call_tool, within_task_groups, bind, call_tool_session.
  destruct (sessions w) as [|[r|e] rest]; simpl;
    try destruct (_normalize_result r); simpl;
    (exists [EvSession name arguments], []; repeat split; unfold session_count, yes_count; simpl; lia).
Qed.

Lemma licensed_lift_bind {A B : Type} (n : nat) (o : Outcome A) (k : A -> M pyfloat B) :
  (forall a, steps (licensed n) (k a)) -> steps (licensed n) (bind (lift o) k).
Proof.
  intros Hk. apply (licensed_bind 0 n); [|exact Hk].
  apply (steps_lift _ licensed_refl).
Qed.

Lemma licensed_raise {A : Type} (n : nat) (e : PyExc) :
  steps (licensed n) (raise (pyfloat := pyfloat) (A := A) e).
Proof. intros w. apply (licensed_more 0); [lia | apply licensed_refl]. Qed.

Lemma licensed_call_tool_function (tool : Tool) (args : PyVal pyfloat) :
  steps (licensed 1) (call_tool_function tool args).
Proof.
  destruct tool; simpl; apply licensed_lift_bind; intros b;
    unfold McpClient.read_file, McpClient.append_log, McpClient.run_command,
      McpClient.system_info, McpClient.ping_host, McpClient.scan_port,
      McpClient.ssh_command;
    try apply licensed_call_tool.
  apply licensed_lift_bind. intros [|]; [apply licensed_raise | apply licensed_call_tool].
Qed.

(** An invocation opens one session at most, and reads nothing from the
    terminal. *)
Lemma licensed_invoke (tool : Tool) (args : PyVal pyfloat) : steps (licensed 1) (invoke tool args).
Proof.
  intros w. unfold invoke, try_except.
  pose proof (licensed_call_tool_function tool args w) as H.
  destruct (call_tool_function tool args w) as [a w1|e w1|w1]; simpl in *; try exact H.
  destruct (is_Exception (exc_class e)); exact H.
Qed.

(** The loop of [_confirm_tool] opens no session, and it returns [True]
    only after reading a line that says yes. *)
Lemma confirm_loop_consent (fuel : nat) (prompt : text) :
  forall w : World pyfloat,
  exists evs read,
    trace (final (confirm_loop fuel prompt w)) = trace w ++ evs
    /\ stdin w = read ++ stdin (final (confirm_loop fuel prompt w))
    /\ session_count evs = 0
    /\ (forall w', confirm_loop fuel prompt w = Ok true w' -> 1 <= yes_count read).
Proof.
  induction fuel as [|fuel IH]; intros w.
  - exists [], []. simpl. rewrite app_nil_r. repeat split. discriminate.
  - cbn [confirm_loop]. rewrite AgentFacts.bind_eq. unfold input.
    destruct (stdin w) as [|[line|e] rest] eqn:Ein; cbv beta iota zeta.
    + exists [EvInput prompt], []. simpl. rewrite Ein. repeat split. discriminate.
    + destruct (answers_yes (lower (strip line))) eqn:Ey;
        [|destruct (answers_no (lower (strip line))) eqn:En].
      * exists [EvInput prompt], [Returns line]. simpl. repeat split.
        intros _ _. unfold yes_count. simpl. rewrite Ey. simpl. lia.
      * exists [EvInput prompt], [Returns line]. simpl. repeat split. discriminate.
      * rewrite AgentFacts.bind_eq. unfold print at 1, emit at 1. cbv beta iota.
        match goal with |- context [confirm_loop fuel prompt ?w0] => set (w1 := w0) end.
        destruct (IH w1) as (evs & read & Ht & Hs & Hc & Hyes).
        change (stdin w1) with rest in Hs.
        change (trace w1)
          with ((trace w ++ [EvInput prompt]) ++ [EvPrint (T "Please answer 'y' or 'n'.")])
          in Ht.
        exists (EvInput prompt :: EvPrint (T "Please answer 'y' or 'n'.") :: evs),
               (Returns line :: read).
        split; [rewrite Ht, <- !app_assoc; reflexivity|].
        split; [exact (f_equal (cons (Returns line)) Hs)|].
        split; [exact Hc|].
        intros w' Hw'. specialize (Hyes w' Hw'). unfold yes_count in *. simpl.
        rewrite Ey. exact Hyes.
    + exists [EvInput prompt], [Raises e]. simpl. repeat split. discriminate.
Qed.

Lemma confirm_tool_consent (tool_name : text) (args : PyVal pyfloat) (w : World pyfloat) :
  exists evs read,
    trace (final (_confirm_tool tool_name args w)) = trace w ++ evs
    /\ stdin w = read ++ stdin (final (_confirm_tool tool_name args w))
    /\ session_count evs = 0
    /\ (forall w', _confirm_tool tool_name args w = Ok true w' -> 1 <= yes_count read).
Proof.
  unfold _confirm_tool. rewrite AgentFacts.bind_eq.
  destruct (AgentFrame.preview_of_leaves_world tool_name args w) as [[p Hp]|[e He]].
  - rewrite Hp. apply confirm_loop_consent.
  - rewrite He. exists [], []. simpl. rewrite app_nil_r. repeat split. discriminate.
Qed.

(** What follows a confirmation may open one session when the answer was
    yes, and none when it was not. *)
Lemma licensed_confirm_then {B : Type} (tool_name : text) (args : PyVal pyfloat)
  (k : bool -> M pyfloat B) :
  steps (licensed 0) (k false) -> steps (licensed 1) (k true) ->
  steps (licensed 0) (bind (_confirm_tool tool_name args) k).
Proof.
  intros Hno Hyes w. rewrite AgentFacts.bind_eq.
  destruct (confirm_tool_consent tool_name args w) as (evs & read & Ht & Hs & Hc & Hy).
  destruct (_confirm_tool tool_name args w) as [[|] w1|e w1|w1] eqn:E; simpl in Ht, Hs.
  - specialize (Hy w1 eq_refl). destruct (Hyes w1) as (e2 & r2 & Ht2 & Hs2 & H2).
    exists (evs ++ e2), (read ++ r2). split; [rewrite Ht2, Ht, app_assoc; reflexivity|].
    split; [rewrite Hs, Hs2, app_assoc; reflexivity|].
    rewrite session_count_app, yes_count_app. lia.
  - apply (licensed_trans w w1); [|apply Hno]. exists evs, read. repeat split; auto. lia.
  - exists evs, read. repeat split; auto. lia.
  - exists evs, read. repeat split; auto. lia.
Qed.

End Licensed.

(** One step of a proof that a computation opens no session. *)
Ltac licensed_step :=
  first
    [ apply licensed_print | apply licensed_append_message
    | apply licensed_emit; reflexivity
    | steps_step licensed_refl licensed_trans ].

Section AgentLicensed.
Context {pyfloat : Type} {RT : Runtime pyfloat}.

Lemma licensed_dispatch (reply : text) (d : Dict pyfloat) (tool_name : PyVal pyfloat)
  (assistant_logged : bool) :
  steps (licensed 0) (dispatch reply d tool_name assistant_logged).
Proof.
  unfold dispatch.
  apply (steps_bind _ licensed_trans); [licensed_step | intros func].
  apply (steps_bind _ licensed_trans); [repeat licensed_step | intros _].
  destruct func as [[name tool]|]; [|repeat licensed_step].
  apply licensed_confirm_then; simpl negb; cbv iota; [repeat licensed_step|].
  apply (licensed_bind 1 0); [apply licensed_invoke | intros result].
  repeat licensed_step.
Qed.

Lemma licensed_interpret_reply (reply : text) :
  steps (licensed 0) (interpret_reply (pyfloat := pyfloat) reply).
Proof.
  unfold interpret_reply, act_on, plain_reply.
  repeat first [apply licensed_dispatch | licensed_step].
Qed.

Lemma yes_count_prefix (read rest : list (Outcome text)) :
  yes_count (read ++ rest) = 0 -> yes_count read = 0.
Proof. rewrite yes_count_app. lia. Qed.

Lemma session_count_zero (evs : list (Event pyfloat)) :
  session_count evs = 0 -> Forall (fun ev => opens_session ev = false) evs.
Proof.
  unfold session_count. induction evs as [|ev evs IH]; simpl; intros H; [constructor|].
  destruct (opens_session ev) eqn:E; [discriminate|]. constructor; auto.
Qed.

(** X10.  No worker session without a yes.  In every run of
    [process_assistant], whatever the model replies and the workers answer,
    the number of worker sessions opened is at most the number of lines read
    from the terminal that say [y] or [yes]; in particular, when no line on
    [stdin] says yes no session is opened at all. *)
Theorem sessions_need_consent (chat : list (Outcome text)) (w : World pyfloat) :
  exists evs read,
    trace (final (process_assistant chat w)) = trace w ++ evs
    /\ stdin w = read ++ stdin (final (process_assistant chat w))
    /\ session_count evs <= yes_count read
    /\ (yes_count (stdin w) = 0 -> Forall (fun ev => opens_session ev = false) evs).
Proof.
  assert (H : steps (licensed 0) (process_assistant (pyfloat := pyfloat) chat)).
  { induction chat as [|answer later IH]; simpl; unfold ask_ollama;
      repeat first [exact IH | apply licensed_interpret_reply | licensed_step]. }
  destruct (H w) as (evs & read & Ht & Hs & Hc). exists evs, read.
  repeat split; auto. intros Hz. apply session_count_zero.
  rewrite Hs in Hz. apply yes_count_prefix in Hz. simpl in Hc. lia.
Qed.

End AgentLicensed.

End Steps.

(* ================================================================== *)
(** * Confirmations *)
(* ================================================================== *)

Module ConfirmFacts.
Import PyFacts AgentSpec TurnSpec Frame AgentFrame AgentFacts McpClient CliAgent.
Local Open Scope py_scope.

Section Confirm.
Context {pyfloat : Type} {RT : Runtime pyfloat}.

Lemma world_eta (w : World pyfloat) :
  mkWorld (messages w) (trace w) (stdin w) (sessions w) = w.
Proof. destruct w; reflexivity. Qed.

(** The loop passes over the lines that are no answer, asking again after
    each. *)
Lemma confirm_loop_skips (prompt : text) (skipped : list text) :
  forall (fuel : nat) (w : World pyfloat) (rest : list (Outcome text)),
  Forall unrecognised skipped ->
  stdin w = map Returns skipped ++ rest ->
  confirm_loop (length skipped + fuel) prompt w
  = confirm_loop fuel prompt
      (mkWorld (messages w) (trace w ++ reprompts prompt skipped) rest (sessions w)).
Proof.
  induction skipped as [|line skipped IH]; intros fuel w rest Hall Hin.
  - simpl in *. rewrite app_nil_r, <- Hin, world_eta. reflexivity.
  - inversion Hall as [|? ? [Hy Hn] Hall']; subst.
    cbn [length Nat.add confirm_loop]. rewrite bind_eq. unfold input. rewrite Hin.
    cbn [map app]. cbv beta iota zeta. rewrite Hy, Hn.
    rewrite bind_eq. unfold print at 1, emit at 1. cbv beta iota.
    match goal with |- confirm_loop _ _ ?w0 = _ => rewrite (IH fuel w0 rest Hall' eq_refl) end.
    cbn [record_event messages trace stdin sessions reprompts flat_map].
    rewrite <- !app_assoc. reflexivity.
Qed.

Lemma confirm_tool_loop (tool_name : text) (args : PyVal pyfloat) (w : World pyfloat)
  (preview : option text) :
  preview_of tool_name args w = Ok preview w ->
  _confirm_tool tool_name args w
  = confirm_loop (S (length (stdin w))) (prompt_for tool_name args preview) w.
Proof.
  intros Hp. unfold _confirm_tool. rewrite bind_eq, Hp. destruct preview as [[|c p]|]; reflexivity.
Qed.

(** X11.  The decision of [_confirm_tool] is the first line typed that is
    an answer: the lines before it that are none are each answered with the
    notice and the same prompt again; [y] or [yes] (in any case, with blanks
    around) gives [True], and [n], [no] or an empty line gives [False].
    Lines typed after the answer are left on [stdin].  When the input ends
    before an answer the [EOFError] of [input] leaves the function: the end
    of input is no refusal.  Nothing else changes: the transcript and the
    workers are not touched. *)
Theorem confirmation_is_the_first_answer (tool_name : text) (args : PyVal pyfloat)
  (w : World pyfloat) (preview : option text) (skipped : list text) :
  preview_of tool_name args w = Ok preview w ->
  Forall unrecognised skipped ->
  let prompt := prompt_for tool_name args preview in
  (forall line rest,
     stdin w = map Returns skipped ++ Returns line :: rest ->
     (answers_yes (lower (strip line)) = true ->
        _confirm_tool tool_name args w = Ok true (asked prompt skipped rest w))
     /\ (answers_no (lower (strip line)) = true ->
         _confirm_tool tool_name args w = Ok false (asked prompt skipped rest w)))
  /\ (stdin w = map Returns skipped ->
      _confirm_tool tool_name args w
      = Err (mkExc EOFError (T "EOF when reading a line")) (asked prompt skipped [] w))
  /\ (forall e rest,
      stdin w = map Returns skipped ++ Raises e :: rest ->
      _confirm_tool tool_name args w = Err e (asked prompt skipped rest w)).
Proof.
  intros Hp Hall prompt.
  assert (Hrun : forall rest, stdin w = map Returns skipped ++ rest ->
            _confirm_tool tool_name args w
            = confirm_loop (S (length rest)) prompt
                (mkWorld (messages w) (trace w ++ reprompts prompt skipped) rest (sessions w))).
  { intros rest Hin. rewrite (confirm_tool_loop _ _ _ _ Hp). fold prompt.
    rewrite Hin, length_app, length_map.
    replace (S (length skipped + length rest)) with (length skipped + S (length rest)) by lia.
    apply confirm_loop_skips; assumption. }
  split; [|split].
  - intros line rest Hin. rewrite (Hrun _ Hin). cbn [confirm_loop]. rewrite bind_eq.
    unfold input, asked. cbn [stdin record_event messages trace sessions].
    cbv beta iota zeta. split; intros H.
    + rewrite H, <- app_assoc. reflexivity.
    + rewrite (answers_no_not_yes _ H), H, <- app_assoc. reflexivity.
  - intros Hin. rewrite (Hrun []) by (rewrite app_nil_r; exact Hin).
    cbn [confirm_loop]. rewrite bind_eq. unfold input, asked.
    cbn [stdin record_event messages trace sessions]. cbv beta iota zeta.
    unfold record_event. cbn [stdin messages trace sessions]. rewrite <- app_assoc. reflexivity.
  - intros e rest Hin. rewrite (Hrun _ Hin). cbn [confirm_loop]. rewrite bind_eq.
    unfold input, asked. cbn [stdin record_event messages trace sessions].
    cbv beta iota zeta. cbn [stdin record_event messages trace sessions].
    rewrite <- app_assoc. reflexivity.
Qed.

End Confirm.

Lemma confirmation_witness :
  _confirm_tool (T "read_file") (PDict [(T "path", PStr (T "notes.txt") : PyVal text)])
    (start [T "maybe"; T " YES "; T "n"] [])
  = Ok true
      (asked read_notes_prompt [T "maybe"] [Returns (T "n")] (start [] [])).
Proof.
  refine (proj1 (proj1
    (confirmation_is_the_first_answer (T "read_file")
       (PDict [(T "path", PStr (T "notes.txt") : PyVal text)])
       (start [T "maybe"; T " YES "; T "n"] []) None [T "maybe"] _ _)
    (T " YES ") [Returns (T "n")] _) _).
  - reflexivity.
  - repeat constructor.
  - reflexivity.
  - reflexivity.
Defined.

End ConfirmFacts.

(* ================================================================== *)
(** * Turns that end the loop *)
(* ================================================================== *)

Module TurnFacts.
Import PyFacts AgentSpec TurnSpec WorkerSpec WorkerFacts Frame AgentFrame AgentFacts ConfirmFacts.
Import McpClient CliAgent.
Local Open Scope py_scope.

Section Turn.
Context {pyfloat : Type} {RT : Runtime pyfloat}.

Lemma turn_of (reply : text) (later : list (Outcome text)) (w : World pyfloat)
  (data : PyVal pyfloat) (logged : bool) :
  decode reply = Some (data, logged) ->
  process_assistant (Returns reply :: later) w
  = match act_on reply data logged (shown reply logged (record_event (EvChat (messages w)) w)) with
    | Ok Continue w' => process_assistant later w'
    | Ok Break w' => Ok tt w'
    | Err e w' => Err e w'
    | Blocked w' => Blocked w'
    end.
Proof. intros H. rewrite process_assistant_step, interpret_reply_decode, H. reflexivity. Qed.


(** X13.  A reply that asks for no tool and gives no final answer ends the
    loop too, and is recorded as it stands: plain text (a reply on which
    [json.loads] fails with [JSONDecodeError] and in which no object is
    found), JSON that [json.loads] decodes to something that is no object (a
    number, a list, a text), and an object with neither key are printed once
    and appended once as the assistant's message.  An object with neither
    key that was found inside other text is printed and recorded twice: once
    when it is found, once by the fallback.  When [json.loads] raises an
    exception that is no [JSONDecodeError], on the reply or on a span of it,
    nothing is printed or appended: the exception leaves
    [process_assistant]. *)
Theorem other_replies_end_the_loop (reply : text) (later : list (Outcome text))
  (w : World pyfloat) :
  let once :=
    mkWorld (messages w ++ [assistant (PStr reply)])
      (trace w ++ [EvChat (messages w); EvPrint (T "assistant> " ++ reply)])
      (stdin w) (sessions w) in
  let twice :=
    mkWorld (messages w ++ [assistant (PStr reply); assistant (PStr reply)])
      (trace w ++ [EvChat (messages w); EvPrint (T "assistant> " ++ reply);
                   EvPrint (T "assistant> " ++ reply)])
      (stdin w) (sessions w) in
  (plain_text reply -> process_assistant (Returns reply :: later) w = Ok tt once)
  /\ (forall data, decode reply = Some (data, false) -> no_request data ->
      process_assistant (Returns reply :: later) w = Ok tt once)
  /\ (forall data, decode reply = Some (data, true) -> no_request data ->
      process_assistant (Returns reply :: later) w = Ok tt twice)
  /\ (forall e, decode_failure reply = Some e ->
      process_assistant (Returns reply :: later) w
      = Err e (record_event (EvChat (messages w)) w)).
Proof.
  cbv zeta. split; [|split; [|split]].
  - intros Hd. rewrite process_assistant_step, (interpret_reply_plain _ _ Hd).
    unfold plain_reply, bind, print, emit, append_message, ret, record_message, record_event.
    cbn [messages trace stdin sessions]. rewrite <- !app_assoc. reflexivity.
  - intros data Hd Hn. rewrite (turn_of _ _ _ _ _ Hd).
    assert (Ha : forall w0 : World pyfloat, act_on reply data false w0 = plain_reply reply w0).
    { intros w0. destruct data; try reflexivity. destruct Hn as [Ht Hf].
      unfold act_on. rewrite Ht, Hf. reflexivity. }
    rewrite Ha.
    unfold shown, plain_reply, bind, print, emit, append_message, ret, record_message,
      record_event.
    cbn [messages trace stdin sessions]. rewrite <- !app_assoc. reflexivity.
  - intros data Hd Hn. rewrite (turn_of _ _ _ _ _ Hd).
    assert (Ha : forall w0 : World pyfloat, act_on reply data true w0 = plain_reply reply w0).
    { intros w0. destruct data; try reflexivity. destruct Hn as [Ht Hf].
      unfold act_on. rewrite Ht, Hf. reflexivity. }
    rewrite Ha.
    unfold shown, plain_reply, bind, print, emit, append_message, ret, record_message,
      record_event.
    cbn [messages trace stdin sessions]. rewrite <- !app_assoc. reflexivity.
  - intros e He. rewrite process_assistant_step, interpret_reply_decode.
    rewrite (decode_failure_none _ _ He), He. reflexivity.
Qed.

(** X14.  A tool name that cannot be a key of the table ends the run with
    an exception.  When the [tool] of the reply is a list or an object (or a
    tuple holding one) the lookup in [TOOL_MAP] raises [TypeError], which
    nothing catches: [process_assistant] is left before the call is recorded
    in the transcript (unless the reply was recorded already because the
    object was found inside other text), nothing is asked, no worker is
    reached. *)
Theorem unhashable_tool_name_raises (reply : text) (later : list (Outcome text))
  (w : World pyfloat) (d : Dict pyfloat) (logged : bool) (tool_name : PyVal pyfloat) :
  decode reply = Some (PDict d, logged) ->
  dict_get d (T "tool") = Some tool_name ->
  hashable tool_name = false ->
  process_assistant (Returns reply :: later) w
  = Err (mkExc TypeError (T "unhashable type: '" ++ type_name tool_name ++ T "'"))
      (shown reply logged (record_event (EvChat (messages w)) w))
  /\ ((exists l, tool_name = PList l) \/ (exists k, tool_name = PDict k)
      \/ (exists l, tool_name = PTuple l)).
Proof.
  intros Hd Ht Hh. split.
  - rewrite (tool_call_turn _ _ _ _ _ _ Hd Ht). unfold dispatch. rewrite bind_eq.
    unfold tool_map_get. rewrite Hh. reflexivity.
  - destruct tool_name; try discriminate Hh; eauto.
Qed.

(** X15.  An exception raised while the user is asked to confirm leaves
    [process_assistant], with the call recorded in the transcript and no
    result after it: dispatch catches the exceptions of the invocation only.
    Two ways this happens: the preview cannot be written, as for a
    [ping_host] call whose [count] is a text that is no number ([int] raises
    [ValueError]; the user is not asked at all); and the input ends at the
    prompt before an answer ([EOFError]). *)
Theorem confirmation_failures_leave_the_loop (reply : text) (later : list (Outcome text))
  (w : World pyfloat) (d : Dict pyfloat) (logged : bool) (tool_name : PyVal pyfloat)
  (name : text) (tool : Tool) :
  decode reply = Some (PDict d, logged) ->
  dict_get d (T "tool") = Some tool_name ->
  tool_map_get tool_name = Returns (Some (name, tool)) ->
  let called := call_logged reply logged (record_event (EvChat (messages w)) w) in
  (forall e w1,
     _confirm_tool name (tool_args d) called = Err e w1 ->
     process_assistant (Returns reply :: later) w = Err e w1)
  /\ (forall args host count,
      name = T "ping_host" -> tool_args d = PDict args ->
      dict_get args (T "host") = Some (PStr host) -> ~ blank host ->
      dict_get args (T "count") = Some (PStr count) -> count <> [] ->
      int_of_str count = None ->
      process_assistant (Returns reply :: later) w
      = Err (mkExc ValueError (T "invalid literal for int() with base 10: " ++ str_repr count))
          called)
  /\ (forall preview skipped,
      preview_of name (tool_args d) called = Ok preview called ->
      Forall unrecognised skipped -> stdin w = map Returns skipped ->
      process_assistant (Returns reply :: later) w
      = Err (mkExc EOFError (T "EOF when reading a line"))
          (asked (prompt_for name (tool_args d) preview) skipped [] called)).
Proof.
  intros Hd Ht Hg called.
  assert (Hleave : forall e w1,
            _confirm_tool name (tool_args d) called = Err e w1 ->
            process_assistant (Returns reply :: later) w = Err e w1).
  { intros e w1 Hc. rewrite (tool_call_turn _ _ _ _ _ _ Hd Ht).
    rewrite (dispatch_known _ _ _ _ _ _ _ Hg). fold called. rewrite Hc. reflexivity. }
  split; [exact Hleave|]. split.
  - intros args host count -> Ha Hh Hb Hc Hne Hi. apply Hleave.
    unfold _confirm_tool. rewrite bind_eq. rewrite Ha.
    assert (Hp : preview_of (T "ping_host") (PDict args) called
                 = Err (mkExc ValueError
                          (T "invalid literal for int() with base 10: " ++ str_repr count))
                     called).
    { change (preview_of (T "ping_host") (PDict args))
        with (host <- str_arg (PDict args) (T "host") ;;
              if nonempty_text host then
                count <- int_arg (PDict args) (T "count") 4 ;;
                timeout <- int_arg (PDict args) (T "timeout") 2 ;;
                ret (Some (T "ping -c " ++ str_of_Z count ++ T " -W " ++ str_of_Z timeout
                             ++ T " " ++ host))
              else ret None).
      unfold str_arg, int_arg, bind, lift, ret, raise, py_get. rewrite Hh, Hc.
      cbn [py_str]. rewrite (nonblank_strip _ Hb).
      destruct count as [|c count']; [contradiction|]. cbn [py_truthy py_int]. rewrite Hi.
      reflexivity. }
    rewrite Hp. reflexivity.
  - intros preview skipped Hp Hall Hin. apply Hleave.
    assert (Hin' : stdin called = map Returns skipped ++ []).
    { rewrite app_nil_r, <- Hin. unfold called, call_logged, shown.
      destruct logged; reflexivity. }
    rewrite (confirm_tool_loop _ _ _ _ Hp).
    replace (S (length (stdin called))) with (length skipped + 1)
      by (rewrite Hin', app_nil_r, length_map; lia).
    rewrite (confirm_loop_skips _ skipped 1 called [] Hall Hin').
    cbn [confirm_loop]. rewrite bind_eq. unfold input, asked.
    cbn [stdin messages trace sessions]. cbv beta iota zeta.
    unfold record_event. cbn [stdin messages trace sessions].
    rewrite <- app_assoc. reflexivity.
Qed.

End Turn.

Lemma unhashable_tool_name_witness :
  process_assistant [Returns (quote_marks "{'tool': ['read_file']}")] (start [T "y"] [])
  = Err (mkExc TypeError (T "unhashable type: 'list'"))
      (mkWorld (messages (start [] [])) [EvChat (messages (start [] []))] [Returns (T "y")] []).
Proof.
  apply (unhashable_tool_name_raises (pyfloat := text)
           (quote_marks "{'tool': ['read_file']}") [] (start [T "y"] [])
           [(T "tool", PList [PStr (T "read_file")])] false (PList [PStr (T "read_file")]));
    reflexivity.
Defined.

Lemma confirmation_failure_witness :
  process_assistant [Returns read_notes] (start [T "perhaps"] [])
  = Err (mkExc EOFError (T "EOF when reading a line"))
      (asked read_notes_prompt [T "perhaps"] []
         (mkWorld (messages (start [] []) ++ [assistant (PStr read_notes)])
            [EvChat (messages (start [] []))] [Returns (T "perhaps")] [])).
Proof.
  refine (proj2 (proj2
    (confirmation_failures_leave_the_loop (pyfloat := text) read_notes []
       (start [T "perhaps"] [])
       [(T "tool", PStr (T "read_file")); (T "args", PDict [(T "path", PStr (T "notes.txt"))])]
       false (PStr (T "read_file")) (T "read_file") ReadFile _ _ _)) None [T "perhaps"] _ _ _).
  - reflexivity.
  - reflexivity.
  - reflexivity.
  - reflexivity.
  - repeat constructor.
  - reflexivity.
Defined.


End TurnFacts.

(* ================================================================== *)
(** * Calls through the bridge *)
(* ================================================================== *)

Module CallFacts.
Import PyFacts AgentSpec TurnSpec Frame AgentFrame AgentFacts McpClient CliAgent.
Local Open Scope py_scope.

Section Calls.
Context {pyfloat : Type} {RT : Runtime pyfloat}.

(** The call of a tool binds the arguments to the parameters of its
    function first. *)
Lemma call_binds_first (tool : Tool) (args : PyVal pyfloat) (w : World pyfloat) :
  call_tool_function tool args w
  = match bind_kwargs (function_name tool) (signature_of tool) args with
    | Returns b =>
      match tool with
      | ReadFile => McpClient.read_file (param b (T "path"))
      | AppendLog => McpClient.append_log (param b (T "path")) (param b (T "text"))
      | RunCommand => McpClient.run_command (param b (T "command")) (param b (T "timeout"))
      | SystemInfo => McpClient.system_info
      | PingHost =>
        McpClient.ping_host (param b (T "host")) (param b (T "count")) (param b (T "timeout"))
      | ScanPort =>
        McpClient.scan_port (param b (T "host")) (param b (T "port")) (param b (T "timeout"))
      | SshCommand =>
        McpClient.ssh_command (param b (T "host")) (param b (T "command")) (param b (T "user"))
          (param b (T "port")) (param b (T "key_path")) (param b (T "timeout"))
      end w
    | Raises e => Err e w
    end.
Proof.
  destruct tool; simpl; rewrite bind_eq;
    match goal with |- context [bind_kwargs ?f ?s ?a] => destruct (bind_kwargs f s a) end;
    reflexivity.
Qed.

(** One session, and what it leaves of the world. *)
Lemma call_tool_run (name : text) (arguments : PyVal pyfloat) (w : World pyfloat) :
  exists used,
    sessions w = used ++ sessions (final (_call_tool name arguments w))
    /\ length used <= 1
    /\ final (_call_tool name arguments w)
       = mkWorld (messages w) (trace w ++ [EvSession name arguments]) (stdin w)
           (sessions (final (_call_tool name arguments w))).
Proof.
  unfold _call_tool, within_task_groups. rewrite bind_eq. unfold call_tool_session.
  destruct (sessions w) as [|[r|e] rest] eqn:E; cbv beta iota zeta.
  - exists []. simpl. repeat split; auto.
  - exists [Returns r]. destruct (_normalize_result r); simpl; repeat split; auto; simpl; lia.
  - exists [Raises e]. simpl. repeat split; auto; simpl; lia.
Qed.

(** X16.  Every function of the table talks to the worker of its own name,
    once at most.  Calling the function registered under [name] either opens
    no session (the arguments do not fit, or [run_command] refuses the
    timeout) and leaves the world as it was, or opens exactly one session,
    for the tool [name], with a mapping as its arguments, and takes one
    answer of the workers at most; the transcript and the terminal are not
    touched. *)
Theorem tools_call_their_own_worker (name : text) (tool : Tool) (args : PyVal pyfloat)
  (w : World pyfloat) :
  In (name, tool) TOOL_MAP ->
  let w' := final (call_tool_function tool args w) in
  w' = w
  \/ exists arguments used,
       trace w' = trace w ++ [EvSession name (PDict arguments)]
       /\ sessions w = used ++ sessions w' /\ length used <= 1
       /\ messages w' = messages w /\ stdin w' = stdin w.
Proof.
  intros Hin. cbv zeta. rewrite call_binds_first.
  assert (Hname : name = function_name tool).
  { simpl in Hin.
    repeat (destruct Hin as [Hin|Hin]; [injection Hin as <- <-; reflexivity|]).
    contradiction. }
  subst name. clear Hin.
  destruct (bind_kwargs (function_name tool) (signature_of tool) args) as [b|e];
    [|left; reflexivity].
  assert (Hcall : forall arguments,
            final (_call_tool (function_name tool) (PDict arguments) w) = w
            \/ exists arguments0 used,
                 trace (final (_call_tool (function_name tool) (PDict arguments) w))
                 = trace w ++ [EvSession (function_name tool) (PDict arguments0)]
                 /\ sessions w
                    = used ++ sessions (final (_call_tool (function_name tool) (PDict arguments) w))
                 /\ length used <= 1
                 /\ messages (final (_call_tool (function_name tool) (PDict arguments) w))
                    = messages w
                 /\ stdin (final (_call_tool (function_name tool) (PDict arguments) w)) = stdin w).
  { intros arguments. right.
    destruct (call_tool_run (function_name tool) (PDict arguments) w) as (used & Hs & Hl & Hw).
    exists arguments, used. repeat split; auto; rewrite Hw; reflexivity. }
  destruct tool; try apply Hcall.
  unfold McpClient.run_command. rewrite bind_eq.
  destruct (py_le_zero (param b (T "timeout"))) as [[|]|e]; simpl;
    [left; reflexivity | apply Hcall | left; reflexivity].
Qed.

Lemma filter_nil {A : Type} (f : A -> bool) (l : list A) :
  (forall x, In x l -> f x = false) -> filter f l = [].
Proof.
  induction l as [|x l IH]; simpl; intros H; [reflexivity|].
  rewrite (H x) by (left; reflexivity). apply IH. intros y Hy. apply H. right; exact Hy.
Qed.

Lemma known_name (sig : Signature (pyfloat := pyfloat)) (k : text) :
  existsb (fun p => text_eqb (fst p) k) sig = true <-> In k (map fst sig).
Proof.
  rewrite existsb_exists, in_map_iff. split.
  - intros (p & Hp & He). apply text_eqb_spec in He. exists p. auto.
  - intros (p & He & Hp). exists p. split; [exact Hp|]. apply text_eqb_spec. exact He.
Qed.

(** Arguments that name no parameter of the function. *)
Lemma bind_kwargs_unexpected (fname : text) (sig : Signature) (d : Dict pyfloat) (k : text) :
  In k (map fst d) -> ~ In k (map fst sig) ->
  exists e, bind_kwargs fname sig (PDict d) = Raises e /\ exc_class e = TypeError.
Proof.
  intros Hk Hno. unfold bind_kwargs.
  apply in_map_iff in Hk as ([k' v] & Hfst & Hin). simpl in Hfst. subst k'.
  match goal with |- context [filter ?f d] =>
    assert (Hf : In (k, v) (filter f d)); [|destruct (filter f d) as [|[k0 v0] l]] end.
  - apply filter_In. split; [exact Hin|]. simpl.
    destruct (existsb (fun p => text_eqb (fst p) k) sig) eqn:E; [|reflexivity].
    exfalso. apply Hno, known_name. exact E.
  - contradiction.
  - eexists. split; reflexivity.
Qed.

(** Arguments that leave a parameter without a value. *)
Lemma bind_kwargs_missing (fname : text) (sig : Signature) (d : Dict pyfloat) (k : text) :
  In k (map fst (filter (fun p => match snd p with None => true | Some _ => false end) sig)) ->
  dict_has d k = false ->
  exists e, bind_kwargs fname sig (PDict d) = Raises e /\ exc_class e = TypeError.
Proof.
  intros Hk Hno. unfold bind_kwargs.
  match goal with |- context [filter ?f d] => destruct (filter f d) as [|[k0 v0] l] end;
    [|eexists; split; reflexivity].
  apply in_map_iff in Hk as ([k' o] & Hfst & Hin). simpl in Hfst. subst k'.
  apply filter_In in Hin as [Hin Ho]. simpl in Ho. destruct o; [discriminate|].
  match goal with |- context [map fst (filter ?f sig)] =>
    assert (Hf : In (k, None) (filter f sig)); [|destruct (filter f sig) as [|p l]] end.
  - apply filter_In. split; [exact Hin|]. simpl. rewrite Hno. reflexivity.
  - contradiction.
  - eexists. split; reflexivity.
Qed.

(** X17.  Arguments that do not fit the function of the tool never reach a
    worker.  When [args] is no mapping, or names something that is no
    parameter of the function, or leaves a parameter without default
    unnamed, the call raises a [TypeError] before any session is opened, and
    the invocation of the dispatch loop turns it into an error result: the
    world is left exactly as it was. *)
Theorem ill_fitting_arguments_reach_no_worker (tool : Tool) (args : PyVal pyfloat)
  (w : World pyfloat) :
  (forall d, args <> PDict d)
  \/ (exists d k, args = PDict d /\ In k (map fst d) /\ ~ In k (parameters tool))
  \/ (exists d k, args = PDict d /\ In k (required tool) /\ dict_has d k = false) ->
  exists e,
    exc_class e = TypeError
    /\ call_tool_function tool args w = Err e w
    /\ invoke tool args w = Ok (error_result e) w.
Proof.
  intros H.
  assert (Hb : exists e, bind_kwargs (function_name tool) (signature_of tool) args = Raises e
                         /\ exc_class e = TypeError).
  { destruct H as [H|[(d & k & -> & Hk & Hno)|(d & k & -> & Hk & Hno)]].
    - destruct args; try (eexists; split; reflexivity). exfalso. eapply H; reflexivity.
    - eapply bind_kwargs_unexpected; eassumption.
    - eapply bind_kwargs_missing; eassumption. }
  destruct Hb as (e & Hb & Hc). exists e. split; [exact Hc|].
  assert (Hcall : call_tool_function tool args w = Err e w)
    by (rewrite call_binds_first, Hb; reflexivity).
  split; [exact Hcall|]. unfold invoke, try_except. rewrite Hcall, Hc. reflexivity.
Qed.

(** X18.  The timeout of [run_command] has to be a number above zero for
    anything to run.  In the dispatch loop, a call of [run_command] whose
    [timeout] is a text (as in ["timeout": "30"]), [null], a list or an
    object ends in a [TypeError] of the comparison, and one whose timeout is
    a number with [timeout <= 0], or [false], in the [ValueError] of the
    boundary; either way the invocation gives an error result and the world
    is left as it was: no session is opened.  A number for which
    [timeout <= 0] is false, and [true], are passed to the worker as they
    are. *)
Theorem timeout_must_be_a_number_above_zero (command timeout : PyVal pyfloat)
  (w : World pyfloat) :
  let args := PDict [(T "command", command); (T "timeout", timeout)] in
  (match timeout with
   | PStr _ | PNone | PList _ | PDict _ => True
   | _ => False
   end ->
   invoke RunCommand args w
   = Ok (error_result
           (mkExc TypeError
              (T "'<=' not supported between instances of '" ++ type_name timeout
                 ++ T "' and 'int'"))) w)
  /\ ((exists z, timeout = PInt z /\ (z <= 0)%Z) \/ timeout = PBool false
       \/ (exists f, timeout = PFloat f /\ float_le_zero f = true) ->
      invoke RunCommand args w
      = Ok (error_result (mkExc ValueError (T "timeout must be positive"))) w)
  /\ ((exists z, timeout = PInt z /\ (0 < z)%Z) \/ timeout = PBool true
       \/ (exists f, timeout = PFloat f /\ float_le_zero f = false) ->
      call_tool_function RunCommand args w = _call_tool (T "run_command") args w).
Proof.
  cbv zeta.
  assert (Hcall : forall w0 : World pyfloat,
            call_tool_function RunCommand
              (PDict [(T "command", command); (T "timeout", timeout)]) w0
            = match py_le_zero timeout with
              | Returns true => Err (mkExc ValueError (T "timeout must be positive")) w0
              | Returns false =>
                _call_tool (T "run_command")
                  (PDict [(T "command", command); (T "timeout", timeout)]) w0
              | Raises e => Err e w0
              end).
  { intros w0. rewrite call_binds_first.
    change (bind_kwargs (function_name RunCommand) (signature_of RunCommand)
              (PDict [(T "command", command); (T "timeout", timeout)]))
      with (Returns [(T "command", command); (T "timeout", timeout)] : Outcome (Dict pyfloat)).
    cbv iota. unfold McpClient.run_command. rewrite bind_eq.
    change (param [(T "command", command); (T "timeout", timeout)] (T "timeout")) with timeout.
    change (param [(T "command", command); (T "timeout", timeout)] (T "command")) with command.
    destruct (py_le_zero timeout) as [[|]|e]; reflexivity. }
  split; [|split].
  - intros Ht. unfold invoke, try_except. rewrite Hcall.
    destruct timeout; try contradiction; reflexivity.
  - intros Ht. unfold invoke, try_except. rewrite Hcall.
    destruct Ht as [(z & -> & Hz)|[->|(f & -> & Hf)]]; cbn [py_le_zero negb].
    + replace (z <=? 0)%Z with true by (symmetry; apply Z.leb_le; exact Hz). reflexivity.
    + reflexivity.
    + rewrite Hf. reflexivity.
  - intros Ht. rewrite Hcall.
    destruct Ht as [(z & -> & Hz)|[->|(f & -> & Hf)]]; cbn [py_le_zero negb].
    + replace (z <=? 0)%Z with false by (symmetry; apply Z.leb_gt; exact Hz). reflexivity.
    + reflexivity.
    + rewrite Hf. reflexivity.
Qed.

End Calls.

Lemma tools_call_witness :
  final (call_tool_function ReadFile (PDict [(T "path", PStr (T "notes.txt") : PyVal text)])
           (start [] [Raises broken_pipe]))
  = start [] [Raises broken_pipe]
  \/ exists arguments used,
       trace (final (call_tool_function ReadFile
                       (PDict [(T "path", PStr (T "notes.txt") : PyVal text)])
                       (start [] [Raises broken_pipe])))
       = trace (start [] [Raises broken_pipe]) ++ [EvSession (T "read_file") (PDict arguments)]
       /\ sessions (start [] [Raises broken_pipe])
          = used ++ sessions (final (call_tool_function ReadFile
                                       (PDict [(T "path", PStr (T "notes.txt") : PyVal text)])
                                       (start [] [Raises broken_pipe])))
       /\ length used <= 1
       /\ messages (final (call_tool_function ReadFile
                             (PDict [(T "path", PStr (T "notes.txt") : PyVal text)])
                             (start [] [Raises broken_pipe])))
          = messages (start [] [Raises broken_pipe])
       /\ stdin (final (call_tool_function ReadFile
                          (PDict [(T "path", PStr (T "notes.txt") : PyVal text)])
                          (start [] [Raises broken_pipe])))
          = stdin (start [] [Raises broken_pipe]).
Proof.
  apply (tools_call_their_own_worker (pyfloat := text) (T "read_file") ReadFile
           (PDict [(T "path", PStr (T "notes.txt"))]) (start [] [Raises broken_pipe])).
  simpl. auto.
Defined.

Lemma ill_fitting_witness :
  exists e,
    exc_class e = TypeError
    /\ call_tool_function ReadFile (PDict [(T "file", PStr (T "notes.txt") : PyVal text)])
         (start [] [Raises broken_pipe])
       = Err e (start [] [Raises broken_pipe])
    /\ invoke ReadFile (PDict [(T "file", PStr (T "notes.txt") : PyVal text)])
         (start [] [Raises broken_pipe])
       = Ok (error_result e) (start [] [Raises broken_pipe]).
Proof.
  apply (ill_fitting_arguments_reach_no_worker (pyfloat := text) ReadFile
           (PDict [(T "file", PStr (T "notes.txt"))]) (start [] [Raises broken_pipe])).
  right. left. exists [(T "file", PStr (T "notes.txt"))], (T "file").
  split; [reflexivity|]. split; [simpl; auto|].
  simpl. intros [H|[]]. discriminate H.
Defined.

End CallFacts.

(* ================================================================== *)
(** * The agent and the workers together: what is previewed, what is shown *)
(* ================================================================== *)

Module EndToEnd.
Import PyFacts AgentSpec TurnSpec WorkerSpec WorkerFacts AgentFacts McpClient CliAgent.
Local Open Scope py_scope.

(** ** Decimal numbers need no quoting *)

Lemma digit_is_safe (n : N) : McpServer.is_safe (ascii_of_N (48 + N.modulo n 10)) = true.
Proof.
  assert (H : (N.modulo n 10 < 10)%N) by (apply N.mod_upper_bound; discriminate).
  destruct (N.modulo n 10) as [|p]; [reflexivity|].
  do 4 (try destruct p as [p|p|]); try reflexivity; exfalso; lia.
Qed.

Lemma digits_are_safe (fuel : nat) :
  forall n acc,
  forallb McpServer.is_safe acc = true ->
  forallb McpServer.is_safe (digits_of_pos fuel n acc) = true
  /\ (acc <> [] -> digits_of_pos fuel n acc <> []).
Proof.
  induction fuel as [|f IH]; intros n acc Hacc; cbn [digits_of_pos]; [auto|].
  destruct (N.ltb n 10).
  - split; [|discriminate]. cbn [forallb]. rewrite digit_is_safe, Hacc. reflexivity.
  - destruct (IH (N.div n 10) (ascii_of_N (48 + N.modulo n 10) :: acc)) as [H1 H2].
    + cbn [forallb]. rewrite digit_is_safe, Hacc. reflexivity.
    + split; [exact H1|]. intros _. apply H2. discriminate.
Qed.

Lemma str_of_N_safe (n : N) :
  forallb McpServer.is_safe (str_of_N n) = true /\ str_of_N n <> [].
Proof.
  unfold str_of_N. cbn [digits_of_pos]. destruct (N.ltb n 10).
  - cbn [forallb]. rewrite digit_is_safe. split; [reflexivity | discriminate].
  - destruct (digits_are_safe (N.to_nat (N.log2 n)) (N.div n 10)
                [ascii_of_N (48 + N.modulo n 10)]) as [H1 H2].
    + cbn [forallb]. rewrite digit_is_safe. reflexivity.
    + split; [exact H1 | apply H2; discriminate].
Qed.

(** [shlex.quote] leaves the text of an [int] as it is. *)
Lemma quote_number (z : Z) : McpServer.shlex_quote (str_of_Z z) = str_of_Z z.
Proof.
  assert (H : forallb McpServer.is_safe (str_of_Z z) = true /\ str_of_Z z <> []).
  { destruct z as [|p|p]; simpl.
    - split; [reflexivity | discriminate].
    - apply str_of_N_safe.
    - split; [|discriminate]. apply (proj1 (str_of_N_safe (Npos p))). }
  destruct H as [Hs Hn]. unfold McpServer.shlex_quote.
  destruct (str_of_Z z) as [|c r]; [contradiction|]. rewrite Hs. reflexivity.
Qed.

Lemma quote_safe (s : text) :
  s <> [] -> forallb McpServer.is_safe s = true -> McpServer.shlex_quote s = s.
Proof.
  intros Hn Hs. unfold McpServer.shlex_quote. destruct s; [contradiction|]. rewrite Hs.
  reflexivity.
Qed.

Section Together.
Context {pyfloat : Type} {RT : Runtime pyfloat}.

Lemma stripped_not_blank (s : text) : s <> [] -> strip s = s -> ~ blank s.
Proof. intros Hn Hs Hb. apply Hn. rewrite <- Hs. apply strip_blank. exact Hb. Qed.

Lemma preview_run_command (args : PyVal pyfloat) :
  preview_of (T "run_command") args
  = (cmd <- lift (py_get args (T "command") PNone) ;;
     match cmd with
     | PStr c => if nonempty_text (strip c) then ret (Some c) else ret None
     | _ => ret None
     end).
Proof. reflexivity. Qed.

Lemma preview_ping_host (args : PyVal pyfloat) :
  preview_of (T "ping_host") args
  = (host <- str_arg args (T "host") ;;
     if nonempty_text host then
       count <- int_arg args (T "count") 4 ;;
       timeout <- int_arg args (T "timeout") 2 ;;
       ret (Some (T "ping -c " ++ str_of_Z count ++ T " -W " ++ str_of_Z timeout
                    ++ T " " ++ host))
     else ret None).
Proof. reflexivity. Qed.

(** X19.  The command shown in the confirmation prompt is the command the
    worker runs, within the bounds the worker keeps.  For [run_command] the
    preview is the command as it stands, and the worker reports the same
    text as the command it ran.  For [ping_host], with a host that has no
    blanks around it and needs no quoting, a count from 1 to 10 and a wait of
    at least one second, the words after the name of the program are the
    same in the preview and in the command line the worker reports: only the
    path of the [ping] binary differs.  (Outside these bounds the worker
    runs another count or wait than the preview showed.) *)
Theorem preview_is_the_command_run :
  (forall (d : Dict pyfloat) (command : text) (timeout : Z) (proc : McpServer.CompletedProcess)
          (w : World pyfloat),
     dict_get d (T "command") = Some (PStr command) -> ~ blank command ->
     preview_of (T "run_command") (PDict d) w = Ok (Some command) w
     /\ exists r,
          McpServer.run_command (pyfloat := pyfloat) command timeout (Returns proc)
          = Returns (PDict r)
          /\ dict_get r (T "command") = Some (PStr command))
  /\ (forall (d : Dict pyfloat) (host : text) (count timeout : Z) (ping_bin : text)
             (proc : McpServer.CompletedProcess) (w : World pyfloat),
      dict_get d (T "host") = Some (PStr host) ->
      dict_get d (T "count") = Some (PInt count) ->
      dict_get d (T "timeout") = Some (PInt timeout) ->
      host <> [] -> strip host = host -> forallb McpServer.is_safe host = true ->
      (1 <= count <= 10)%Z -> (1 <= timeout)%Z ->
      exists words,
        preview_of (T "ping_host") (PDict d) w = Ok (Some (T "ping" ++ words)) w
        /\ exists r,
             McpServer.ping_host (pyfloat := pyfloat) host count timeout (Some ping_bin)
               (Returns proc)
             = Returns (PDict r)
             /\ dict_get r (T "command")
                = Some (PStr (McpServer.shlex_quote ping_bin ++ words))).
Proof.
  split.
  - intros d command timeout proc w Hd Hc. split.
    + rewrite preview_run_command, bind_eq. unfold py_get. rewrite Hd. cbn [lift ret].
      rewrite (nonblank_strip _ Hc). reflexivity.
    + unfold McpServer.run_command. rewrite (nonblank_strip _ Hc). simpl negb. cbv iota.
      eexists. split; reflexivity.
  - intros d host count timeout ping_bin proc w Hh Hc Ht Hne Hs Hsafe Hcount Htime.
    exists (T " -c " ++ str_of_Z count ++ T " -W " ++ str_of_Z timeout ++ T " " ++ host).
    split.
    + rewrite preview_ping_host.
      unfold str_arg, int_arg. rewrite !bind_eq. unfold py_get. rewrite Hh, Hc, Ht.
      cbn [lift ret py_str]. rewrite Hs.
      destruct host as [|c host']; [contradiction|]. cbn [nonempty_text].
      unfold bind, lift, ret, py_truthy.
      replace (count =? 0)%Z with false by (symmetry; apply Z.eqb_neq; lia).
      replace (timeout =? 0)%Z with false by (symmetry; apply Z.eqb_neq; lia).
      reflexivity.
    + unfold McpServer.ping_host.
      rewrite (nonblank_strip _ (stripped_not_blank _ Hne Hs)). simpl negb. cbv iota.
      eexists. split; [reflexivity|].
      replace (Z.max 1 (Z.min count 10)) with count by lia.
      replace (Z.max 1 timeout) with timeout by lia.
      cbn [dict_get dict_set McpServer._proc_result text_eqb T list_ascii_of_string
           Ascii.eqb Bool.eqb andb map].
      rewrite !quote_number, (quote_safe host Hne Hsafe).
      change (McpServer.shlex_quote ["-"%char; "c"%char]) with ["-"%char; "c"%char].
      change (McpServer.shlex_quote ["-"%char; "W"%char]) with ["-"%char; "W"%char].
      cbn [join]. reflexivity.
Qed.

(** X20.  What the terminal shows of a tool result.  When the result has a
    [stdout] that is a text, that text is shown and nothing else; so for
    every process a worker ran ([run_command], [ping_host], [ssh_command])
    the terminal shows the output of the process with the white space around
    it removed, whether the process succeeded or failed: the return code and
    [stderr] are not shown (they are in the message for the model).  An
    error result, which has no [stdout], is shown as indented JSON. *)
Theorem terminal_shows_the_output :
  (forall (d : Dict pyfloat) (out : text),
     dict_get d (T "stdout") = Some (PStr out) -> display_of (PDict d) = out)
  /\ (forall command timeout (proc : McpServer.CompletedProcess), ~ blank command ->
      exists v,
        McpServer.run_command (pyfloat := pyfloat) command timeout (Returns proc) = Returns v
        /\ display_of v = strip (McpServer.stdout proc))
  /\ (forall host count timeout ping_bin (proc : McpServer.CompletedProcess), ~ blank host ->
      exists v,
        McpServer.ping_host (pyfloat := pyfloat) host count timeout (Some ping_bin)
          (Returns proc) = Returns v
        /\ display_of v = strip (McpServer.stdout proc))
  /\ (forall host command user port key_path timeout ssh_bin
             (proc : McpServer.CompletedProcess),
      ~ blank host -> ~ blank command ->
      exists v,
        McpServer.ssh_command (pyfloat := pyfloat) host command user port key_path timeout
          (Some ssh_bin) (Returns proc) = Returns v
        /\ display_of v = strip (McpServer.stdout proc))
  /\ (forall message : text,
      display_of (McpServer.error_dict (pyfloat := pyfloat) message)
      = quote_marks "{" ++ ["010"%char] ++ T "  " ++ encode_basestring (T "status") ++ T ": "
          ++ encode_basestring (T "error") ++ T "," ++ ["010"%char] ++ T "  "
          ++ encode_basestring (T "error") ++ T ": " ++ encode_basestring message
          ++ ["010"%char] ++ T "}").
Proof.
  assert (Hshow : forall (d : Dict pyfloat) (out : text),
            dict_get d (T "stdout") = Some (PStr out) -> display_of (PDict d) = out).
  { intros d out H. unfold display_of. rewrite H. reflexivity. }
  split; [exact Hshow|]. split; [|split; [|split]].
  - intros command timeout proc Hc. unfold McpServer.run_command.
    rewrite (nonblank_strip _ Hc). simpl negb. cbv iota.
    eexists. split; [reflexivity|]. apply Hshow. reflexivity.
  - intros host count timeout ping_bin proc Hh. unfold McpServer.ping_host.
    rewrite (nonblank_strip _ Hh). simpl negb. cbv iota.
    eexists. split; [reflexivity|]. apply Hshow. reflexivity.
  - intros host command user port key_path timeout ssh_bin proc Hh Hc.
    unfold McpServer.ssh_command.
    rewrite (nonblank_strip _ Hh), (nonblank_strip _ Hc). simpl negb. cbv iota.
    eexists. split; [reflexivity|]. apply Hshow. reflexivity.
  - intros message. reflexivity.
Qed.


End Together.

End EndToEnd.

(* ================================================================== *)
(** * The interactive session *)
(* ================================================================== *)

Module SessionFacts.
Import PyFacts AgentSpec RunSpec TurnSpec WorkerSpec SessionSpec.
Import Frame AgentFrame AgentFacts WorkerFacts Steps ConfirmFacts McpClient CliAgent CliMain.
Local Open Scope py_scope.

(** Two worlds written out are equal when their traces are, up to the
    bracketing of the appends. *)
Ltac same_world :=
  unfold opened, print, emit, record_message, record_event;
  cbv beta iota zeta; cbn [messages trace stdin sessions];
  repeat first [rewrite <- app_assoc | progress cbn [app]];
  reflexivity.

Section Session.
Context {pyfloat : Type} {RT : Runtime pyfloat}.

(** [process_assistant_from] is [process_assistant], with the answers left
    as its value. *)
Lemma process_assistant_from_spec (chat : list (Outcome text)) :
  forall w : World pyfloat,
  process_assistant chat w
  = match process_assistant_from chat w with
    | Ok _ w' => Ok tt w'
    | Err e w' => Err e w'
    | Blocked w' => Blocked w'
    end.
Proof.
  induction chat as [|answer later IH]; intros w; [reflexivity|].
  cbn [process_assistant process_assistant_from]. rewrite !bind_eq.
  destruct (ask_ollama answer w) as [reply w1|e w1|w1]; try reflexivity.
  rewrite !bind_eq.
  destruct (interpret_reply reply w1) as [[|] w2|e w2|w2]; try reflexivity.
  apply IH.
Qed.

Lemma process_assistant_from_final (chat : list (Outcome text)) (w : World pyfloat) :
  final (process_assistant_from chat w) = final (process_assistant chat w).
Proof.
  rewrite process_assistant_from_spec.
  destruct (process_assistant_from chat w); reflexivity.
Qed.

Lemma grows_process_assistant_from (chat : list (Outcome text)) :
  steps grows (process_assistant_from (pyfloat := pyfloat) chat).
Proof.
  induction chat as [|answer later IH]; simpl; unfold ask_ollama;
    repeat first [exact IH | apply grows_interpret_reply | grows_step].
Qed.

Lemma grows_stdin (w w' : World pyfloat) : grows w w' -> length (stdin w') <= length (stdin w).
Proof. intros (_ & _ & (read & Hs) & _). rewrite Hs, length_app. lia. Qed.

Lemma say_eq {B : Type} (user_input : text) (chat : list (Outcome text))
  (k : list (Outcome text) -> M pyfloat B) (w : World pyfloat) :
  (append_message (user user_input) ;;; later <- process_assistant_from chat ;; k later) w
  = match process_assistant_from chat (record_message (user user_input) w) with
    | Ok later w1 => k later w1
    | Err e w1 => Err e w1
    | Blocked w1 => Blocked w1
    end.
Proof. reflexivity. Qed.

(** The loop of [main] reads a line at every turn: any fuel above the number
    of lines on [stdin] gives the same run. *)
Lemma main_loop_fuel (fuel : nat) :
  forall (fuel' : nat) (chat : list (Outcome text)) (w : World pyfloat),
  length (stdin w) < fuel -> length (stdin w) < fuel' ->
  main_loop fuel chat w = main_loop fuel' chat w.
Proof.
  induction fuel as [|fuel IH]; intros fuel' chat w H H'; [lia|].
  destruct fuel' as [|fuel']; [lia|].
  cbn [main_loop]. unfold input.
  destruct (stdin w) as [|[line|e] rest] eqn:Ein; try reflexivity.
  cbv beta iota zeta. simpl in H, H'.
  destruct (negb (nonempty_text (strip line))).
  - apply IH; simpl; lia.
  - destruct (asks_to_leave (strip line)); [reflexivity|].
    rewrite !say_eq.
    match goal with |- context [process_assistant_from chat ?w0] =>
      pose proof (grows_stdin _ _ (grows_process_assistant_from chat w0)) as Hlen;
      destruct (process_assistant_from chat w0) as [later w1|e w1|w1]; try reflexivity end.
    simpl in Hlen. apply IH; lia.
Qed.

(** ** Leaving *)

Lemma main_loop_blanks (chat : list (Outcome text)) (blanks : list text) :
  forall (fuel : nat) (w : World pyfloat) (rest : list (Outcome text)),
  Forall blank blanks ->
  stdin w = map Returns blanks ++ rest ->
  main_loop (length blanks + fuel) chat w
  = main_loop fuel chat
      (mkWorld (messages w) (trace w ++ prompts blanks) rest (sessions w)).
Proof.
  induction blanks as [|line blanks IH]; intros fuel w rest Hall Hin.
  - simpl in *. rewrite app_nil_r, <- Hin, world_eta. reflexivity.
  - inversion Hall as [|? ? Hb Hall']; subst.
    cbn [length Nat.add main_loop]. unfold input. rewrite Hin.
    cbn [map app]. cbv beta iota zeta. rewrite (strip_blank _ Hb). cbn [nonempty_text negb].
    match goal with |- main_loop _ _ ?w0 = _ => rewrite (IH fuel w0 rest Hall' eq_refl) end.
    cbn [record_event messages trace stdin sessions prompts flat_map].
    rewrite <- !app_assoc. reflexivity.
Qed.

(** [main] up to the first line that is not blank. *)
Lemma main_opens (chat : list (Outcome text)) (w : World pyfloat) (blanks : list text)
  (rest : list (Outcome text)) :
  Forall blank blanks ->
  stdin w = map Returns blanks ++ rest ->
  main chat w
  = main_loop (S (length rest)) chat
      (mkWorld [system_message] (trace w ++ EvPrint banner :: prompts blanks) rest (sessions w)).
Proof.
  intros Hall Hin. unfold main. rewrite bind_eq. unfold print at 1, emit at 1. cbv beta iota.
  rewrite bind_eq. unfold new_transcript at 1. cbv beta iota.
  cbn [record_event messages trace stdin sessions].
  replace (S (length (stdin w))) with (length blanks + S (length rest))
    by (rewrite Hin, length_app, length_map; lia).
  match goal with |- main_loop _ _ ?w0 = _ =>
    rewrite (main_loop_blanks chat blanks (S (length rest)) w0 rest Hall Hin) end.
  cbn [messages trace stdin sessions]. rewrite <- app_assoc. reflexivity.
Qed.

Lemma leaving_not_blank (s : text) : asks_to_leave s = true -> nonempty_text s = true.
Proof. destruct s; [discriminate | reflexivity]. Qed.

(** X21.  How the interactive session ends without a request.  Blank lines
    at the prompt are passed over.  When the input ends, or is interrupted,
    at the prompt, [main] prints [Exiting.] and returns; any other exception
    of [input] leaves it.  A line that reads [exit] or [quit] (in any case,
    with blanks around) makes it print [Goodbye.] and return.  In each case
    nothing was sent to the chat service, and the transcript holds the system
    prompt only. *)
Theorem leaving_the_session (chat : list (Outcome text)) (w : World pyfloat)
  (blanks : list text) :
  Forall blank blanks ->
  (stdin w = map Returns blanks ->
     main chat w
     = Ok tt (record_event (EvPrint (newline :: T "Exiting.")) (opened blanks [] w)))
  /\ (forall e rest,
      stdin w = map Returns blanks ++ Raises e :: rest ->
      (ends_input e = true ->
         main chat w
         = Ok tt (record_event (EvPrint (newline :: T "Exiting.")) (opened blanks rest w)))
      /\ (ends_input e = false -> main chat w = Err e (opened blanks rest w)))
  /\ (forall line rest,
      stdin w = map Returns blanks ++ Returns line :: rest ->
      asks_to_leave (strip line) = true ->
      main chat w = Ok tt (record_event (EvPrint (T "Goodbye.")) (opened blanks rest w))).
Proof.
  intros Hall. split; [|split].
  - intros Hin. rewrite (main_opens chat w blanks [] Hall) by (rewrite app_nil_r; exact Hin).
    cbn [main_loop length]. unfold input. cbn [stdin ends_input exc_class]. same_world.
  - intros e rest Hin. rewrite (main_opens chat w blanks _ Hall Hin).
    cbn [main_loop length]. unfold input. cbn [stdin].
    split; intros He; rewrite He; same_world.
  - intros line rest Hin Hl. rewrite (main_opens chat w blanks _ Hall Hin).
    cbn [main_loop length]. unfold input. cbn [stdin]. cbv zeta.
    rewrite (leaving_not_blank _ Hl), Hl. cbn [negb]. same_world.
Qed.

(** ** The first request *)

Lemma grows_main_loop (fuel : nat) :
  forall chat : list (Outcome text), steps grows (main_loop (pyfloat := pyfloat) fuel chat).
Proof.
  induction fuel as [|fuel IH]; intros chat; cbn [main_loop];
    [apply (steps_block _ grows_refl)|].
  intros w. pose proof (grows_input (T "you> ") w) as Hin.
  destruct (input (T "you> ") w) as [line w1|e w1|w1]; simpl in Hin; try exact Hin.
  - apply (grows_trans _ _ _ Hin). clear Hin.
    destruct (negb (nonempty_text (strip line))); [apply IH|].
    destruct (asks_to_leave (strip line)); [apply grows_print|].
    match goal with |- grows ?w0 (final (?m ?w0)) => generalize w0; change (steps grows m) end.
    repeat first [apply IH | apply grows_process_assistant_from | grows_step].
  - destruct (ends_input e); [|exact Hin].
    apply (grows_trans _ _ _ Hin). apply grows_print.
Qed.

(** X22.  The first request of a session.  The first line typed that is not
    blank and asks not to leave is appended to the transcript as the user's
    message, with the blanks around it removed, and the chat service is asked
    with a transcript of exactly two messages: the system prompt (without the
    line breaks around it) and that message. *)
Theorem session_first_request (chat : list (Outcome text)) (w : World pyfloat)
  (blanks : list text) (line : text) (rest : list (Outcome text)) :
  Forall blank blanks ->
  stdin w = map Returns blanks ++ Returns line :: rest ->
  ~ blank line ->
  asks_to_leave (strip line) = false ->
  exists evs,
    trace (final (main chat w))
    = trace (opened blanks rest w)
      ++ EvChat [system_message; mkMessage (T "user") (PStr (strip line))] :: evs.
Proof.
  intros Hall Hin Hnb Hl. rewrite (main_opens chat w blanks _ Hall Hin).
  remember (length (Returns line :: rest)) as f eqn:Ef. clear Ef.
  cbn [main_loop]. unfold input. cbn [stdin]. cbv beta iota zeta.
  rewrite (nonblank_strip _ Hnb), Hl. cbn [negb]. rewrite say_eq.
  match goal with |- context [process_assistant_from chat ?w0] => set (w1 := w0) end.
  destruct (process_assistant_asks_first chat w1) as [evs Hevs].
  rewrite <- process_assistant_from_final in Hevs.
  assert (Ht : trace w1 = trace (opened blanks rest w)).
  { unfold w1, opened, record_message, record_event. cbn [messages trace stdin sessions].
    rewrite <- !app_assoc. reflexivity. }
  change (messages w1)
    with [system_message (pyfloat := pyfloat); mkMessage (T "user") (PStr (strip line))]
    in Hevs.
  rewrite Ht in Hevs. clearbody w1.
  destruct (process_assistant_from chat w1) as [later w2|e w2|w2]; cbn [final] in Hevs;
    try (exists evs; exact Hevs).
  destruct (grows_main_loop f later w2) as (_ & (evs' & He) & _).
  exists (evs ++ evs'). rewrite He, Hevs, <- app_assoc. reflexivity.
Qed.

(** ** Consent *)

Lemma licensed_input (prompt : text) : steps (licensed 0) (input (pyfloat := pyfloat) prompt).
Proof.
  intros w. unfold input.
  destruct (stdin w) as [|[line|e] rest] eqn:E; cbv beta iota zeta; cbn [final].
  - exists [EvInput prompt], []. split; [reflexivity|]. split; [reflexivity|].
    unfold session_count, yes_count. simpl. lia.
  - exists [EvInput prompt], [Returns line]. split; [reflexivity|]. split; [exact E|].
    unfold session_count, yes_count. simpl. lia.
  - exists [EvInput prompt], [Raises e]. split; [reflexivity|]. split; [exact E|].
    unfold session_count, yes_count. simpl. lia.
Qed.

Lemma licensed_process_assistant_from (chat : list (Outcome text)) :
  steps (licensed 0) (process_assistant_from (pyfloat := pyfloat) chat).
Proof.
  induction chat as [|answer later IH]; simpl; unfold ask_ollama;
    repeat first [exact IH | apply licensed_interpret_reply | licensed_step].
Qed.

Lemma licensed_main_loop (fuel : nat) :
  forall chat : list (Outcome text),
  steps (licensed 0) (main_loop (pyfloat := pyfloat) fuel chat).
Proof.
  induction fuel as [|fuel IH]; intros chat; cbn [main_loop];
    [apply (steps_block _ licensed_refl)|].
  intros w. pose proof (licensed_input (T "you> ") w) as Hin.
  destruct (input (T "you> ") w) as [line w1|e w1|w1]; cbn [final] in Hin; try exact Hin.
  - apply (licensed_trans _ _ _ Hin). clear Hin.
    destruct (negb (nonempty_text (strip line))); [apply IH|].
    destruct (asks_to_leave (strip line)); [apply licensed_print|].
    match goal with |- licensed 0 ?w0 (final (?m ?w0)) =>
      generalize w0; change (steps (licensed 0) m) end.
    repeat first [apply IH | apply licensed_process_assistant_from | licensed_step].
  - destruct (ends_input e); [|exact Hin].
    apply (licensed_trans _ _ _ Hin). apply licensed_print.
Qed.

(** X23.  No worker session without a yes, for the whole program.  In
    every run of [main], whatever is typed, whatever the model replies and
    whatever the workers answer, the number of worker sessions opened is at
    most the number of lines read from the terminal that say [y] or [yes];
    when no line of the input says yes, no worker is ever reached. *)
Theorem session_needs_consent (chat : list (Outcome text)) (w : World pyfloat) :
  exists evs read,
    trace (final (main chat w)) = trace w ++ evs
    /\ stdin w = read ++ stdin (final (main chat w))
    /\ session_count evs <= yes_count read
    /\ (yes_count (stdin w) = 0 -> Forall (fun ev => opens_session ev = false) evs).
Proof.
  assert (H : steps (licensed 0) (main (pyfloat := pyfloat) chat)).
  { unfold main. apply (steps_bind _ licensed_trans); [apply licensed_print | intros _].
    apply (steps_bind _ licensed_trans).
    - intros w0. exists [], []. simpl. rewrite app_nil_r. repeat split.
      unfold session_count, yes_count. simpl. lia.
    - intros _. apply (steps_with_world _ (fun w0 => main_loop (S (length (stdin w0))) chat)).
      intros w0. apply licensed_main_loop. }
  destruct (H w) as (evs & read & Ht & Hs & Hc). exists evs, read.
  repeat split; auto. intros Hz. apply session_count_zero.
  rewrite Hs in Hz. apply yes_count_prefix in Hz. simpl in Hc. lia.
Qed.

End Session.

Lemma leaving_witness :
  main [Returns (T "never asked")] (start [T "  "; T " Quit "; T "more"] [])
  = Ok tt
      (record_event (EvPrint (T "Goodbye."))
         (opened [T "  "] [Returns (T "more")] (start [] []))).
Proof.
  refine (proj2 (proj2
    (leaving_the_session (pyfloat := text) [Returns (T "never asked")]
       (start [T "  "; T " Quit "; T "more"] []) [T "  "] _))
    (T " Quit ") [Returns (T "more")] _ _).
  - constructor; [|constructor]. apply WorkerFacts.blank_by_strip. reflexivity.
  - reflexivity.
  - reflexivity.
Defined.

Lemma first_request_witness :
  exists evs,
    trace (final (main [Returns (T "Hello!")] (start [T " hello "; T "exit"] [])))
    = trace (opened [] [Returns (T "exit")] (start [] []))
      ++ EvChat [system_message; mkMessage (T "user") (PStr (T "hello") : PyVal text)] :: evs.
Proof.
  apply (session_first_request (pyfloat := text) [Returns (T "Hello!")]
           (start [T " hello "; T "exit"] []) [] (T " hello ") [Returns (T "exit")]).
  - constructor.
  - reflexivity.
  - apply WorkerFacts.not_blank_by_strip. reflexivity.
  - reflexivity.
Defined.

(** A session of one exchange: the line typed, the reply shown, the end of
    the input. *)
Example one_exchange :
  main [Returns (T "Hello!")] (start [T " hello "] [])
  = Ok tt
      (mkWorld
         [system_message; mkMessage (T "user") (PStr (T "hello"));
          mkMessage (T "assistant") (PStr (T "Hello!"))]
         [EvPrint banner; EvInput (T "you> ");
          EvChat [system_message; mkMessage (T "user") (PStr (T "hello"))];
          EvPrint (T "assistant> Hello!"); EvInput (T "you> ");
          EvPrint (newline :: T "Exiting.")]
         [] []).
Proof. vm_compute. reflexivity. Qed.

End SessionFacts.

(* ================================================================== *)
(** * The log-monitoring agent *)
(* ================================================================== *)

Module LogAgentFacts.
Import PyFacts AgentSpec LogSpec Frame AgentFrame AgentFacts McpClient LogAgent.
Local Open Scope py_scope.

Section Agent.
Context {pyfloat : Type} {RT : Runtime pyfloat}.

Lemma allowed_print (line : text) : emits_only allowed (print (pyfloat := pyfloat) line).
Proof. apply emits_emit. exact I. Qed.

Lemma allowed_call (name : text) (arguments : PyVal pyfloat) :
  name = T "read_file" \/ name = T "append_log" ->
  emits_only allowed (_call_tool name arguments).
Proof.
  intros H. unfold _call_tool. apply emits_within.
  apply emits_bind; [|intros r; apply emits_lift].
  apply emits_session. exact H.
Qed.

Lemma allowed_act_on (data : PyVal pyfloat) : emits_only allowed (act_on data).
Proof.
  unfold act_on, McpClient.read_file, McpClient.append_log.
  repeat first
    [ apply allowed_print
    | apply allowed_call; first [left; reflexivity | right; reflexivity]
    | frame_step ].
Qed.

Lemma allowed_turn (reply : text) : emits_only allowed (turn (pyfloat := pyfloat) reply).
Proof.
  unfold turn, raw_output.
  repeat first [apply allowed_print | apply allowed_act_on | frame_step].
Qed.

Lemma allowed_request (task : text) :
  emits_only allowed (emit (EvChat (request (pyfloat := pyfloat) task))).
Proof. apply emits_emit. exists task. reflexivity. Qed.

Lemma allowed_agent_loop (chat : list (Outcome text)) :
  forall task, emits_only allowed (agent_loop (pyfloat := pyfloat) chat task).
Proof.
  induction chat as [|answer later IH]; intros task; cbn [agent_loop]; unfold ask_ollama;
    repeat first
      [ apply IH | apply allowed_print | apply allowed_request | apply allowed_turn
      | frame_step ].
Qed.

Lemma keeps_act_on (data : PyVal pyfloat) : keeps_messages (act_on data).
Proof.
  unfold act_on, McpClient.read_file, McpClient.append_log.
  repeat first
    [ apply print_keeps | apply (proj2 (call_tool_frame _ _)) | frame_step ].
Qed.

Lemma keeps_agent_loop (chat : list (Outcome text)) :
  forall task, keeps_messages (agent_loop (pyfloat := pyfloat) chat task).
Proof.
  induction chat as [|answer later IH]; intros task; cbn [agent_loop];
    unfold ask_ollama, turn, raw_output;
    repeat first [ apply IH | apply print_keeps | apply keeps_act_on | frame_step ].
Qed.

(** X25.  What the agent of [agent.py] does to the outside, in every run:
    it prints; it asks the chat service, each time with exactly two
    messages, the system prompt and one user message (it keeps no
    transcript); it opens worker sessions for [read_file] and [append_log]
    and for no other tool, whatever tool the model names; it never reads the
    terminal, so nothing is confirmed by the user. *)
Theorem agent_reaches_two_tools_only (AUTH_LOG THREAT_LOG : text)
  (chat : list (Outcome text)) (w : World pyfloat) :
  exists evs,
    trace (final (run_agent AUTH_LOG THREAT_LOG chat w)) = trace w ++ evs
    /\ Forall allowed evs
    /\ messages (final (run_agent AUTH_LOG THREAT_LOG chat w)) = messages w
    /\ exists more,
         evs = EvPrint asking
               :: EvChat (request (T "Analyze " ++ AUTH_LOG
                                     ++ T " for suspicious activity and write notes to "
                                     ++ THREAT_LOG ++ T "."))
               :: more.
Proof.
  unfold run_agent.
  destruct (allowed_agent_loop chat
              (T "Analyze " ++ AUTH_LOG ++ T " for suspicious activity and write notes to "
                 ++ THREAT_LOG ++ T ".") w) as (evs & Ht & Hall).
  exists evs. split; [exact Ht|]. split; [exact Hall|].
  split; [apply keeps_agent_loop|].
  revert Ht. generalize (T "Analyze " ++ AUTH_LOG
                           ++ T " for suspicious activity and write notes to "
                           ++ THREAT_LOG ++ T "."). intros task Ht.
  assert (Hfirst : exists more,
            trace (final (agent_loop chat task w))
            = trace w ++ EvPrint asking :: EvChat (request task) :: more).
  { destruct chat as [|answer later]; cbn [agent_loop].
    - exists []. unfold bind, print, emit, block. simpl. rewrite <- app_assoc. reflexivity.
    - rewrite bind_eq. unfold print at 1, emit at 1. cbv beta iota.
      rewrite bind_eq. unfold ask_ollama. rewrite bind_eq. unfold emit at 1. cbv beta iota.
      match goal with |- context [lift answer ?w0] => set (w1 := w0) end.
      assert (Hw1 : trace w1 = trace w ++ [EvPrint asking; EvChat (request task)]).
      { unfold w1, record_event. simpl. rewrite <- app_assoc. reflexivity. }
      clearbody w1.
      destruct answer as [reply|e]; cbn [lift ret raise];
        [|exists []; simpl; rewrite Hw1; reflexivity].
      match goal with |- context [final (?m w1)] =>
        assert (Hm : emits_only allowed m) end.
      { repeat first [ apply allowed_agent_loop | apply allowed_print | apply allowed_turn
                     | frame_step ]. }
      destruct (Hm w1) as (more & Hmore & _). exists more.
      rewrite Hmore, Hw1, <- app_assoc. reflexivity. }
  destruct Hfirst as (more & Hmore). exists more.
  rewrite Hmore in Ht. apply app_inv_head in Ht. symmetry. exact Ht.
Qed.

(** ** One turn of the loop *)

Lemma agent_loop_step (reply : text) (later : list (Outcome text)) (task : text)
  (w : World pyfloat) :
  agent_loop (Returns reply :: later) task w
  = match turn reply (answered task reply w) with
    | Ok (Resume task') w' => agent_loop later task' w'
    | Ok Pause w' => agent_loop later task w'
    | Ok Stop w' => Ok tt w'
    | Err e w' => Err e w'
    | Blocked w' => Blocked w'
    end.
Proof.
  cbn [agent_loop]. unfold ask_ollama, print, emit, lift, ret, bind.
  assert (Hw : record_event (EvPrint (T "LLM Reply:" ++ [newline] ++ T " " ++ reply))
                 (record_event (EvChat (request task))
                    (record_event
                       (EvPrint (newline :: chr 0x1F4E1 ++ T " Asking LLM..." ++ [newline])) w))
               = answered task reply w).
  { unfold answered, record_event, asking. cbn [messages trace stdin sessions].
    rewrite <- !app_assoc. reflexivity. }
  rewrite Hw. destruct (turn reply (answered task reply w)) as [[t| |] w'|e w'|w']; reflexivity.
Qed.

Lemma agent_loop_asks_first (chat : list (Outcome text)) (task : text) (w : World pyfloat) :
  exists more,
    trace (final (agent_loop chat task w))
    = trace w ++ EvPrint asking :: EvChat (request task) :: more.
Proof.
  destruct chat as [|[reply|e] later].
  - exists []. cbn [agent_loop]. unfold bind, print, emit, block. simpl.
    rewrite <- app_assoc. reflexivity.
  - rewrite agent_loop_step.
    destruct (allowed_turn reply (answered task reply w)) as (evs & Ht & _).
    assert (Hrest : exists more,
              trace (final (match turn reply (answered task reply w) with
                            | Ok (Resume task') w' => agent_loop later task' w'
                            | Ok Pause w' => agent_loop later task w'
                            | Ok Stop w' => Ok tt w'
                            | Err e w' => Err e w'
                            | Blocked w' => Blocked w'
                            end))
              = trace (answered task reply w) ++ more).
    { destruct (turn reply (answered task reply w)) as [[t| |] w'|e w'|w']; simpl in Ht;
        try (exists evs; exact Ht).
      - destruct (allowed_agent_loop later t w') as (evs' & Ht' & _).
        exists (evs ++ evs'). rewrite Ht', Ht, app_assoc. reflexivity.
      - destruct (allowed_agent_loop later task w') as (evs' & Ht' & _).
        exists (evs ++ evs'). rewrite Ht', Ht, app_assoc. reflexivity. }
    destruct Hrest as (more & Hmore). rewrite Hmore. unfold answered.
    cbn [trace]. rewrite <- app_assoc. eexists. reflexivity.
  - exists []. cbn [agent_loop]. unfold ask_ollama, bind, print, emit, lift, raise. simpl.
    rewrite <- !app_assoc. reflexivity.
Qed.

Lemma raw_output_run (reply : text) (w : World pyfloat) :
  raw_output reply w = Ok Stop (gave_up reply w).
Proof.
  unfold raw_output, gave_up, bind, print, emit, ret, record_event.
  cbn [messages trace stdin sessions]. rewrite <- app_assoc. reflexivity.
Qed.

Lemma turn_undecoded (reply : text) (w : World pyfloat) :
  (forall data : PyVal pyfloat, json_loads reply <> Decoded data) ->
  turn reply w = Ok Stop (gave_up reply w).
Proof.
  intros Hj. unfold turn. destruct (json_loads reply) as [data| |e] eqn:El.
  - exfalso. exact (Hj data eq_refl).
  - apply raw_output_run.
  - apply Lexing.json_loads_error, Lexing.decoder_error_class in El as [He _].
    unfold try_except, raise. rewrite He. apply raw_output_run.
Qed.

Lemma turn_failure (reply : text) (data : PyVal pyfloat) (e : PyExc) (w w1 : World pyfloat) :
  json_loads reply = Decoded data ->
  act_on data w = Err e w1 -> is_Exception (exc_class e) = true ->
  turn reply w = Ok Stop (gave_up reply w1).
Proof.
  intros Hj Ha He. unfold turn, try_except. rewrite Hj, Ha, He. apply raw_output_run.
Qed.

(** X26.  Any failure while the agent of [agent.py] handles a reply ends
    the run, with the reply printed as raw output: a reply that [json.loads]
    does not decode, whatever it raises; a reply that is JSON but a number, a
    truth value or [null]; a call to [read_file] without a path; a worker or
    transport failure during the call.  The failure is not reported to the
    model, which is not asked again, and nothing of the failure is
    printed. *)
Theorem agent_failure_ends_the_run (reply : text) (later : list (Outcome text)) (task : text)
  (w : World pyfloat) :
  let asked := answered task reply w in
  ((forall data : PyVal pyfloat, json_loads reply <> Decoded data) ->
     agent_loop (Returns reply :: later) task w = Ok tt (gave_up reply asked))
  /\ (forall data e w1,
      json_loads reply = Decoded data -> act_on data asked = Err e w1 ->
      is_Exception (exc_class e) = true ->
      agent_loop (Returns reply :: later) task w = Ok tt (gave_up reply w1))
  /\ (forall data,
      json_loads reply = Decoded data ->
      match data with
      | PNone | PBool _ | PInt _ | PFloat _ => True
      | _ => False
      end ->
      agent_loop (Returns reply :: later) task w = Ok tt (gave_up reply asked))
  /\ (forall d args,
      json_loads reply = Decoded (PDict d) ->
      dict_get d (T "tool") = Some (PStr (T "read_file")) ->
      dict_get d (T "args") = Some (PDict args) -> dict_get args (T "path") = None ->
      agent_loop (Returns reply :: later) task w = Ok tt (gave_up reply asked))
  /\ (forall d args path e rest,
      json_loads reply = Decoded (PDict d) ->
      dict_get d (T "tool") = Some (PStr (T "read_file")) ->
      dict_get d (T "args") = Some (PDict args) -> dict_get args (T "path") = Some path ->
      sessions w = Raises e :: rest -> is_Exception (exc_class e) = true ->
      agent_loop (Returns reply :: later) task w
      = Ok tt
          (gave_up reply
             (mkWorld (messages w)
                (trace asked ++ [EvSession (T "read_file") (PDict [(T "path", path)])])
                (stdin w) rest))).
Proof.
  cbv zeta. repeat match goal with |- _ /\ _ => split end.
  - intros Hj. rewrite agent_loop_step, (turn_undecoded _ _ Hj). reflexivity.
  - intros data e w1 Hj Ha He. rewrite agent_loop_step, (turn_failure _ _ _ _ _ Hj Ha He).
    reflexivity.
  - intros data Hj Hd. rewrite agent_loop_step.
    erewrite (turn_failure _ _ _ _ _ Hj); [reflexivity | | ];
      destruct data; try contradiction; reflexivity.
  - intros d args Hj Ht Ha Hp. rewrite agent_loop_step.
    erewrite (turn_failure _ _ _ _ _ Hj); [reflexivity | | ].
    + unfold act_on, bind, lift, ret, raise, contains, getitem, py_get, dict_has.
      rewrite Ht, Ha. cbn [equals_str]. change (text_eqb (T "read_file") (T "read_file")) with true. cbv iota. rewrite Hp. reflexivity.
    + reflexivity.
  - intros d args path e rest Hj Ht Ha Hp Hs He. rewrite agent_loop_step.
    erewrite (turn_failure _ _ (task_group_error e) _ _ Hj); [reflexivity | | ].
    + unfold act_on, bind, lift, ret, raise, contains, getitem, py_get, dict_has.
      rewrite Ht, Ha. cbn [equals_str].
      change (text_eqb (T "read_file") (T "read_file")) with true. cbv iota. rewrite Hp.
      unfold McpClient.read_file, _call_tool, within_task_groups, bind, call_tool_session.
      cbn [sessions answered]. rewrite Hs. reflexivity.
    + unfold task_group_error. destruct (exc_class e); try discriminate He; reflexivity.
Qed.

(** X27.  A reply the agent of [agent.py] does nothing with is answered by
    the same request again.  When the reply is an object that names a tool
    other than [read_file] and [append_log], or that has neither a [tool] nor
    a [final] key, no tool is called and nothing is printed about it: the
    loop goes on with the task unchanged, so the next request to the chat
    service is the request just made. *)
Theorem agent_repeats_its_request (reply : text) (later : list (Outcome text)) (task : text)
  (w : World pyfloat) (d : Dict pyfloat) :
  json_loads reply = Decoded (PDict d) ->
  no_action d ->
  agent_loop (Returns reply :: later) task w = agent_loop later task (answered task reply w)
  /\ exists more,
       trace (final (agent_loop (Returns reply :: later) task w))
       = trace w
         ++ [EvPrint asking; EvChat (request task);
             EvPrint (T "LLM Reply:" ++ [newline] ++ T " " ++ reply);
             EvPrint asking; EvChat (request task)]
         ++ more.
Proof.
  intros Hj Hn.
  assert (Hstep : agent_loop (Returns reply :: later) task w
                  = agent_loop later task (answered task reply w)).
  { rewrite agent_loop_step. unfold turn, try_except. rewrite Hj.
    unfold no_action in Hn. unfold act_on, bind, lift, ret, contains, getitem, py_get, dict_has.
    destruct (dict_get d (T "tool")) as [name|] eqn:Et.
    - destruct Hn as [H1 H2]. rewrite H1, H2. reflexivity.
    - rewrite Hn. reflexivity. }
  split; [exact Hstep|]. rewrite Hstep.
  destruct (agent_loop_asks_first later task (answered task reply w)) as (more & Hmore).
  exists more. rewrite Hmore. unfold answered. cbn [trace]. rewrite <- app_assoc. reflexivity.
Qed.

(** X28.  After a tool call that succeeded the agent of [agent.py] goes on
    with a new task, which is all the model is told in the next request: the
    result of the call, written as Python writes it, between [Tool result: ]
    (for [read_file]) or [Logged: ] (for [append_log]) and [. Continue.].
    The task it started with is not sent again. *)
Theorem tool_result_becomes_the_task (reply : text) (later : list (Outcome text))
  (task : text) (w : World pyfloat) (d args : Dict pyfloat) (path : PyVal pyfloat)
  (r : CallToolResult pyfloat) (rest : list (Outcome (CallToolResult pyfloat)))
  (result : PyVal pyfloat) :
  json_loads reply = Decoded (PDict d) ->
  dict_get d (T "args") = Some (PDict args) ->
  dict_get args (T "path") = Some path ->
  sessions w = Returns r :: rest ->
  _normalize_result r = Returns result ->
  let after session shown :=
    mkWorld (messages w) (trace (answered task reply w) ++ [session; EvPrint shown])
      (stdin w) rest in
  (dict_get d (T "tool") = Some (PStr (T "read_file")) ->
     agent_loop (Returns reply :: later) task w
     = agent_loop later (T "Tool result: " ++ py_str result ++ T ". Continue.")
         (after (EvSession (T "read_file") (PDict [(T "path", path)]))
            (T "Tool result: " ++ py_str result)))
  /\ (forall text_,
      dict_get d (T "tool") = Some (PStr (T "append_log")) ->
      dict_get args (T "text") = Some text_ ->
      agent_loop (Returns reply :: later) task w
      = agent_loop later (T "Logged: " ++ py_str result ++ T ". Continue.")
          (after (EvSession (T "append_log") (PDict [(T "path", path); (T "text", text_)]))
             (T "Logged: " ++ py_str result))).
Proof.
  intros Hj Ha Hp Hs Hr. cbv zeta. split.
  - intros Ht. rewrite agent_loop_step. unfold turn, try_except. rewrite Hj.
    unfold act_on, bind, lift, ret, contains, getitem, py_get, dict_has.
    rewrite Ht, Ha. cbn [equals_str]. change (text_eqb (T "read_file") (T "read_file")) with true. cbv iota. rewrite Hp.
    unfold McpClient.read_file, _call_tool, within_task_groups, bind, call_tool_session,
      lift, ret, print, emit.
    cbn [sessions answered]. rewrite Hs, Hr.
    unfold record_event. cbn [messages trace stdin sessions]. rewrite <- !app_assoc.
    reflexivity.
  - intros text_ Ht Hx. rewrite agent_loop_step. unfold turn, try_except. rewrite Hj.
    unfold act_on, bind, lift, ret, contains, getitem, py_get, dict_has.
    rewrite Ht, Ha. cbn [equals_str].
    change (text_eqb (T "append_log") (T "read_file")) with false.
    change (text_eqb (T "append_log") (T "append_log")) with true. cbv iota.
    rewrite Hp, Hx.
    unfold McpClient.append_log, _call_tool, within_task_groups, bind, call_tool_session,
      lift, ret, print, emit.
    cbn [sessions answered]. rewrite Hs, Hr.
    unfold record_event. cbn [messages trace stdin sessions]. rewrite <- !app_assoc.
    reflexivity.
Qed.

End Agent.

Lemma agent_repeats_witness :
  agent_loop [Returns list_files] (T "Look at the log.") (start [] [])
  = agent_loop [] (T "Look at the log.")
      (answered (T "Look at the log.") list_files (start [] [])).
Proof.
  apply (agent_repeats_its_request (pyfloat := text) list_files [] (T "Look at the log.")
           (start [] [])
           [(T "tool", PStr (T "run_command")); (T "args", PDict [(T "command", PStr (T "ls"))])]).
  - reflexivity.
  - split; reflexivity.
Defined.

Lemma tool_result_witness :
  agent_loop [Returns read_notes] (T "Look at the log.") (start [] [Returns file_content])
  = agent_loop [] (T "Tool result: {'content': 'hello'}. Continue.")
      (mkWorld (messages (start [] []))
         (trace (answered (T "Look at the log.") read_notes (start [] []))
            ++ [EvSession (T "read_file") (PDict [(T "path", PStr (T "notes.txt"))]);
                EvPrint (T "Tool result: {'content': 'hello'}")])
         [] []).
Proof.
  refine (proj1
    (tool_result_becomes_the_task (pyfloat := text) read_notes [] (T "Look at the log.")
       (start [] [Returns file_content])
       [(T "tool", PStr (T "read_file")); (T "args", PDict [(T "path", PStr (T "notes.txt"))])]
       [(T "path", PStr (T "notes.txt"))] (PStr (T "notes.txt")) file_content []
       (PDict [(T "content", PStr (T "hello"))]) _ _ _ _ _) _); reflexivity.
Defined.

End LogAgentFacts.
